(** * BioStudies MCP server: the API client and the tool handlers

    A shallow embedding of [src/utils/api-client.ts] (class
    [BioStudiesApiClient]) and [src/handlers/biostudies-handlers.ts] (class
    [BioStudiesHandlers]), with the interfaces of [src/types/biostudies.ts]
    they use, followed by the properties proved about them.

    Conventions of the embedding:
    - a JavaScript string is a [string] (its UTF-8 bytes); a JavaScript number
      that the code uses as a count, an index, a page or an HTTP status is an
      integer ([Z], or [nat] for an array length);
    - an optional member [x?: T] is an [option T]; [None] is [undefined];
    - the client's mutable state and the requests it has sent are threaded
      through the [Io] monad; the remote server is an oracle that answers the
      n-th request sent;
    - a handler that can [throw] returns an [Outcome]. *)

From Stdlib Require Import ZArith Ascii String Lia.
From stdpp Require Import base option list strings pretty gmap.

(** ** JavaScript values and operators the code relies on *)

Module Js.

(** Truthiness of an optional string: [undefined] and the empty string are
    falsy. *)
Definition truthy (s : option string) : bool :=
  match s with
  | Some (String _ _) => true
  | _ => false
  end.

(** [a || b] on optional strings. *)
Definition or_else (a b : option string) : option string :=
  if truthy a then a else b.

(** [a || d] where the right operand is a string. *)
Definition or_default (a : option string) (d : string) : string :=
  match a with
  | Some (String c s) => String c s
  | _ => d
  end.

(** Truthiness of an optional number: [undefined] and [0] are falsy. *)
Definition truthy_num (n : option Z) : bool :=
  match n with
  | Some z => negb (z =? 0)%Z
  | None => false
  end.

Definition is_upper (c : ascii) : bool :=
  (65 <=? nat_of_ascii c) && (nat_of_ascii c <=? 90).
Definition is_lower (c : ascii) : bool :=
  (97 <=? nat_of_ascii c) && (nat_of_ascii c <=? 122).
Definition is_digit (c : ascii) : bool :=
  (48 <=? nat_of_ascii c) && (nat_of_ascii c <=? 57).

Definition lower (c : ascii) : ascii :=
  if is_upper c then ascii_of_nat (nat_of_ascii c + 32) else c.
Definition upper (c : ascii) : ascii :=
  if is_lower c then ascii_of_nat (nat_of_ascii c - 32) else c.

(** Every character (byte). *)
Definition all_ascii : list ascii := ascii_of_nat <$> seq 0 256.

(** [String.prototype.toLowerCase] on the ASCII letters; the bytes of any
    other character are left as they are.  No character outside ASCII lowers
    to an ASCII letter other than k (the Kelvin sign), which none of the keys
    compared against below contains. *)
Fixpoint toLowerCase (s : string) : string :=
  match s with
  | EmptyString => EmptyString
  | String c s' => String (lower c) (toLowerCase s')
  end.

(** [String.prototype.toUpperCase], likewise. *)
Fixpoint toUpperCase (s : string) : string :=
  match s with
  | EmptyString => EmptyString
  | String c s' => String (upper c) (toUpperCase s')
  end.

(** [Array.prototype.join]. *)
Fixpoint join (sep : string) (l : list string) : string :=
  match l with
  | [] => ""
  | [x] => x
  | x :: l' => x +:+ sep +:+ join sep l'
  end.

(** The values a caller can pass where the code expects a string. *)
Inductive Value : Type :=
| Undefined
| Null
| Bool (b : bool)
| Number (z : Z)
| Str (s : string)
| Object.

(** [!v]. *)
Definition falsy (v : Value) : bool :=
  match v with
  | Undefined | Null => true
  | Bool b => negb b
  | Number z => (z =? 0)%Z
  | Str s => match s with EmptyString => true | _ => false end
  | Object => false
  end.

(** [typeof v === 'string']. *)
Definition is_string (v : Value) : bool :=
  match v with Str _ => true | _ => false end.

(** A thrown [Error]: its [name] and [message]. *)
Record Error : Type := { name : string; message : string }.

(** A call either returns or throws. *)
Inductive Outcome (A : Type) : Type :=
| Returned (a : A)
| Threw (e : Error).
Arguments Returned {A} a.
Arguments Threw {A} e.

(** The characters 34 and 10, which no literal below spells out. *)
Definition dq : string := String (ascii_of_nat 34) EmptyString.
Definition nl : string := String (ascii_of_nat 10) EmptyString.

End Js.

(** ** Regular expressions

    The fragment of ECMAScript regular expressions the accession patterns
    use: literals, [\d], [\w], character classes, concatenation and
    repetition, anchored at both ends, with the [i] flag. *)

Module RegExp.

Inductive CharSet : Type :=
| Lit (c : ascii)
| Digit
| Word
| Range (lo hi : ascii)
| OneOf (cs : list ascii).

Inductive Pattern : Type :=
| Void
| Eps
| Chr (cs : CharSet)
| Cat (p q : Pattern)
| Alt (p q : Pattern)
| Star (p : Pattern).

(** [p+] and [p{n}]. *)
Definition plus (p : Pattern) : Pattern := Cat p (Star p).
Fixpoint times (n : nat) (p : Pattern) : Pattern :=
  match n with
  | O => Eps
  | S n' => Cat p (times n' p)
  end.

(** A run of literal characters. *)
Fixpoint lit (s : string) : Pattern :=
  match s with
  | EmptyString => Eps
  | String c s' => Cat (Chr (Lit c)) (lit s')
  end.

(** Membership of a character in a set, case-sensitively. *)
Definition contains (cs : CharSet) (c : ascii) : bool :=
  match cs with
  | Lit a => bool_decide (a = c)
  | Digit => Js.is_digit c
  | Word => Js.is_digit c || Js.is_upper c || Js.is_lower c
            || bool_decide (c = ascii_of_nat 95)
  | Range lo hi => (nat_of_ascii lo <=? nat_of_ascii c)
                   && (nat_of_ascii c <=? nat_of_ascii hi)
  | OneOf l => bool_decide (c ∈ l)
  end.

(** With the [i] flag (and no [u] flag) two characters match when their
    canonical forms, the upper-case ones, agree; an ASCII letter has two
    characters of that form, any other character one. *)
Definition accepts (ignoreCase : bool) (cs : CharSet) (c : ascii) : bool :=
  if ignoreCase
  then contains cs c || contains cs (Js.upper c) || contains cs (Js.lower c)
  else contains cs c.

Section Matching.
Variable ignoreCase : bool.

Fixpoint nullable (p : Pattern) : bool :=
  match p with
  | Void => false
  | Eps => true
  | Chr _ => false
  | Cat p q => nullable p && nullable q
  | Alt p q => nullable p || nullable q
  | Star _ => true
  end.

(** What is left of [p] to match after reading [c]. *)
Fixpoint after (c : ascii) (p : Pattern) : Pattern :=
  match p with
  | Void => Void
  | Eps => Void
  | Chr cs => if accepts ignoreCase cs c then Eps else Void
  | Cat p q =>
      if nullable p
      then Alt (Cat (after c p) q) (after c q)
      else Cat (after c p) q
  | Alt p q => Alt (after c p) (after c q)
  | Star p => Cat (after c p) (Star p)
  end.

Fixpoint run (p : Pattern) (w : list ascii) : bool :=
  match w with
  | [] => nullable p
  | c :: w' => run (after c p) w'
  end.

(** The words of a pattern. *)
Inductive Matches : Pattern → list ascii → Prop :=
| M_eps : Matches Eps []
| M_chr cs c : accepts ignoreCase cs c = true → Matches (Chr cs) [c]
| M_cat p q u v : Matches p u → Matches q v → Matches (Cat p q) (u ++ v)
| M_alt_l p q u : Matches p u → Matches (Alt p q) u
| M_alt_r p q u : Matches q u → Matches (Alt p q) u
| M_star_nil p : Matches (Star p) []
| M_star_app p u v :
    Matches p u → Matches (Star p) v → Matches (Star p) (u ++ v).
End Matching.

(** A literal [/^source$/flags]. *)
Record t : Type := { source : Pattern; ignoreCase : bool }.

(** [RegExp.prototype.test] for an anchored pattern. *)
Definition test (re : t) (s : string) : bool :=
  run (ignoreCase re) (source re) (list_ascii_of_string s).

(** The string as a whole is a word of the pattern. *)
Definition FullMatch (re : t) (s : string) : Prop :=
  Matches (ignoreCase re) (source re) (list_ascii_of_string s).

End RegExp.

(** ** The interfaces of [types/biostudies.ts]

    Each record lists the members that the methods embedded below read or
    write. *)

Record FileInfo : Type := {
  file_name : option string;
  file_path : option string;
  file_size : option Z;
  file_type : option string;
  file_md5 : option string;
}.

(** [Section] is recursive through [subsections]. *)
#[warnings="-register-all"]
Inductive Section_ : Type :=
| MkSection (type_ : option string)
            (files : option (list FileInfo))
            (subsections : option (list Section_)).

Definition section_type (s : Section_) : option string :=
  match s with MkSection t _ _ => t end.
Definition section_files (s : Section_) : option (list FileInfo) :=
  match s with MkSection _ f _ => f end.
Definition section_subsections (s : Section_) : option (list Section_) :=
  match s with MkSection _ _ ss => ss end.

Record StudyDetails : Type := {
  study_accno : string;
  study_title : string;
  study_collection : option string;
  study_section : option Section_;
  study_isPublic : option bool;
}.

Record Link : Type := { link_url : string }.

Record StudySearchResult : Type := {
  hit_accno : string;
  hit_title : string;
  hit_authors : option (list string);
  hit_releaseDate : option string;
  hit_collection : option string;
  hit_type : option string;
  hit_views : option Z;
  hit_downloads : option Z;
}.

Record SearchParams : Type := {
  sp_query : option string;
  sp_collection : option string;
  sp_type : option string;
  sp_author : option string;
  sp_keywords : option (list string);
  sp_page : option Z;
  sp_size : option Z;
  sp_sortBy : option string;
  sp_sortOrder : option string;
  sp_releaseDateFrom : option string;
  sp_releaseDateTo : option string;
}.

Record SearchResponse : Type := {
  hits : list StudySearchResult;
  totalHits : Z;
  page : Z;
  size : Z;
}.

(** The code tests [data?.token] before it reads it, so the member may be
    missing from what the server sent. *)
Record AuthToken : Type := {
  token : option string;
  expires : option string;
  user : option string;
}.

Record AuthCredentials : Type := { login : string; password : string }.

Record StudyValidation : Type := {
  v_accno : string;
  isValid : bool;
  exists_ : bool;
  v_isPublic : option bool;
  v_collection : option string;
  v_title : option string;
}.

Record Failure : Type := { f_accno : string; f_error : string }.

Record BulkOperationResult : Type := {
  successful : list string;
  failed : list Failure;
  total : nat;
  successCount : nat;
  failureCount : nat;
}.

(** What [data] can hold at run time.  [makeRequest] casts whatever the
    server sent to [T]: a JSON document of the declared shape, a JSON object
    of another shape (of which the code only ever reads [message] and
    [error]), or text. *)
Inductive Payload (T : Type) : Type :=
| Parsed (t : T)
| Problem (message error : option string)
| Raw (text : string).
Arguments Parsed {T} t.
Arguments Problem {T} message error.
Arguments Raw {T} text.

(** [ApiResponse<T>]. *)
Record ApiResponse (T : Type) : Type := {
  data : option (Payload T);
  error : option string;
  status : Z;
}.
Arguments data {T} _.
Arguments error {T} _.
Arguments status {T} _.

(** [{ data, status }] and [{ error, status }]. *)
Definition success {T} (d : option (Payload T)) (st : Z) : ApiResponse T :=
  {| data := d; error := None; status := st |}.
Definition failure {T} (msg : string) (st : Z) : ApiResponse T :=
  {| data := None; error := Some msg; status := st |}.

(** Truthiness of [data]: an object is truthy, a text unless it is empty;
    [None] stands for [undefined] and for the falsy JSON documents. *)
Definition truthy_data {T} (d : option (Payload T)) : bool :=
  match d with
  | Some (Parsed _) | Some (Problem _ _) => true
  | Some (Raw s) => Js.truthy (Some s)
  | None => false
  end.

(** [(data as any)?.message] and [(data as any)?.error]. *)
Definition message_of {T} (d : option (Payload T)) : option string :=
  match d with Some (Problem m _) => m | _ => None end.
Definition error_of {T} (d : option (Payload T)) : option string :=
  match d with Some (Problem _ e) => e | _ => None end.

(** [data.member] for a member of the declared shape. *)
Definition member {T A} (f : T → option A) (d : option (Payload T)) : option A :=
  match d with Some (Parsed t) => f t | _ => None end.

(** ** The network

    A request as [fetch] receives it, what can come back, and the state the
    client's methods run in. *)

(** [URLSearchParams] is kept as its list of entries; [toString] (the
    percent-encoding) is the platform's. *)
Record Endpoint : Type := {
  path : string;
  search : list (string * string);
}.

Record Request : Type := {
  url : string;
  params : list (string * string);
  method : option string;
  authorization : option string;
  body : option AuthCredentials;
  timeout : Z;
}.

(** The body of an HTTP response: JSON (the Content-Type includes
    [application/json]) once parsed, or anything else. *)
Inductive Body (T : Type) : Type :=
| Json (doc : option (Payload T))
| NotJson (text : string).
Arguments Json {T} doc.
Arguments NotJson {T} text.

(** What the [try] block of [makeRequest] can observe: a response, or a
    thrown [Error] named AbortError, another [Error], or a thrown value that
    is no [Error]. *)
Inductive Wire (T : Type) : Type :=
| Response (status : Z) (statusText : string) (body : Body T)
| AbortError
| OtherError (message : string)
| NonError.
Arguments Response {T} status statusText body.
Arguments AbortError {T}.
Arguments OtherError {T} message.
Arguments NonError {T}.

(** The request was answered with a 2xx response. *)
Definition delivered {T} (wire : Wire T) : bool :=
  match wire with
  | Response st _ _ => (200 <=? st)%Z && (st <=? 299)%Z
  | _ => false
  end.

(** The server answers a request knowing how many were sent before it. *)
Definition Server (T : Type) : Type := nat → Request → Wire T.

Record Upstream : Type := {
  studies : Server StudyDetails;
  studyFiles : Server (list FileInfo);
  studyLinks : Server (list Link);
  authLogin : Server AuthToken;
  studySearch : Server SearchResponse;
}.

(** The fields of a [BioStudiesApiClient] instance. *)
Record Client : Type := {
  baseUrl : string;
  authToken : option string;
  defaultTimeout : Z;
}.

Record World : Type := {
  this : Client;
  sent : list Request;
}.

Definition Io (A : Type) : Type := World → A * World.

#[export] Instance Io_ret : MRet Io := λ A a w, (a, w).
#[export] Instance Io_bind : MBind Io :=
  λ A B f m w, let '(a, w') := m w in f a w'.

(** [this.authToken = t]. *)
Definition set_authToken (t : option string) : Io unit :=
  λ w, (tt, {| this := {| baseUrl := baseUrl (this w);
                          authToken := t;
                          defaultTimeout := defaultTimeout (this w) |};
               sent := sent w |}).

(** ** [BioStudiesApiClient] *)

Module BioStudiesApiClient.

(** [new BioStudiesApiClient()]. *)
Definition new : Client :=
  {| baseUrl := "https://www.ebi.ac.uk/biostudies/api/v1";
     authToken := None;
     defaultTimeout := 30000 |}.

(** [response.ok]. *)
Definition ok (status : Z) : bool :=
  (200 <=? status)%Z && (status <=? 299)%Z.

(** The body of [makeRequest] from [fetch] on: what it returns for each
    thing the [try] block can observe. *)
Definition respond {T} (wire : Wire T) : ApiResponse T :=
  match wire with
  | Response st statusText body =>
      let data :=
        match body with
        | Json doc => doc
        | NotJson text => if ok st then Some (Raw text) else None
        end in
      if negb (ok st) then
        let errorMessage :=
          if truthy_data data
          then Js.or_default (Js.or_else (message_of data) (error_of data))
                             ("HTTP " +:+ pretty st)
          else "HTTP " +:+ pretty st +:+ ": " +:+ statusText in
        failure errorMessage st
      else success data st
  | AbortError => failure "Request timeout" 408
  | OtherError message => failure message 0
  | NonError => failure "Unknown error occurred" 0
  end.

Definition bearer (c : Client) : option string :=
  match authToken c with
  | Some (String a s) => Some ("Bearer " +:+ String a s)
  | _ => None
  end.

(** The request [fetch] is called with. *)
Definition requestOf (c : Client) (endpoint : Endpoint)
    (method : option string) (body : option AuthCredentials) : Request :=
  {| url := baseUrl c +:+ path endpoint;
     params := search endpoint;
     method := method;
     authorization := bearer c;
     body := body;
     timeout := defaultTimeout c |}.

Definition makeRequest {T} (server : Server T) (endpoint : Endpoint)
    (method : option string) (body : option AuthCredentials)
  : Io (ApiResponse T) :=
  λ w,
    let request := requestOf (this w) endpoint method body in
    (respond (server (length (sent w)) request),
     {| this := this w; sent := sent w ++ [request] |}).

(** The six accession patterns. *)
Definition digits : RegExp.Pattern := RegExp.plus (RegExp.Chr RegExp.Digit).

Definition patterns : list RegExp.t :=
  let re p := {| RegExp.source := p; RegExp.ignoreCase := true |} in
  [ re (RegExp.Cat (RegExp.lit "S-BSST") digits);
    re (RegExp.Cat (RegExp.lit "E-")
          (RegExp.Cat (RegExp.times 4 (RegExp.Chr RegExp.Word))
             (RegExp.Cat (RegExp.lit "-") digits)));
    re (RegExp.Cat (RegExp.lit "EMPIAR-") digits);
    re (RegExp.Cat (RegExp.lit "S-BIAD") digits);
    re (RegExp.Cat (RegExp.lit "S-BSMS") digits);
    re (RegExp.Cat (RegExp.lit "PRJ")
          (RegExp.Cat (RegExp.Chr (RegExp.OneOf ["E"; "D"; "N"]%char))
             (RegExp.Cat (RegExp.Chr (RegExp.Range "A" "Z"))
                digits))) ].

Definition isValidAccessionNumber (accno : Js.Value) : bool :=
  if Js.falsy accno || negb (Js.is_string accno) then false
  else
    match accno with
    | Js.Str s => existsb (λ pattern, RegExp.test pattern s) patterns
    | _ => false
    end.

Definition formatAccessionNumber (accno : string) : string :=
  match accno with
  | EmptyString => accno
  | _ => Js.toUpperCase accno
  end.

Section Methods.
Variable up : Upstream.

Definition invalidFormat {T} (accno : string) : ApiResponse T :=
  failure ("Invalid accession number format: " +:+ accno) 400.

Definition getStudyDetails (accno : string) : Io (ApiResponse StudyDetails) :=
  if negb (isValidAccessionNumber (Js.Str accno)) then mret (invalidFormat accno)
  else makeRequest (studies up)
         {| path := "/studies/" +:+ accno; search := [] |} None None.

Definition getStudyFiles (accno : string) : Io (ApiResponse (list FileInfo)) :=
  if negb (isValidAccessionNumber (Js.Str accno)) then mret (invalidFormat accno)
  else makeRequest (studyFiles up)
         {| path := "/studies/" +:+ accno +:+ "/files"; search := [] |}
         None None.

Definition getStudyLinks (accno : string) : Io (ApiResponse (list Link)) :=
  if negb (isValidAccessionNumber (Js.Str accno)) then mret (invalidFormat accno)
  else makeRequest (studyLinks up)
         {| path := "/studies/" +:+ accno +:+ "/links"; search := [] |}
         None None.

(** [authenticate]: the token is stored when [result.data?.token] is
    truthy. *)
Definition authenticate (credentials : AuthCredentials)
  : Io (ApiResponse AuthToken) :=
  result ← makeRequest (authLogin up)
             {| path := "/auth/login"; search := [] |}
             (Some "POST") (Some credentials);
  match member token (data result) with
  | Some (String a s) => set_authToken (Some (String a s));; mret result
  | _ => mret result
  end.

(** [if (v) searchParams.append(k, v)]. *)
Definition append_if (k : string) (v : option string)
    (l : list (string * string)) : list (string * string) :=
  match v with
  | Some (String a s) => l ++ [(k, String a s)]
  | _ => l
  end.

(** [if (n !== undefined) searchParams.append(k, n.toString())]. *)
Definition append_num (k : string) (n : option Z)
    (l : list (string * string)) : list (string * string) :=
  match n with
  | Some z => l ++ [(k, pretty z)]
  | None => l
  end.

Definition searchStudies (p : SearchParams) : Io (ApiResponse SearchResponse) :=
  let sp := [] in
  let sp := append_if "query" (sp_query p) sp in
  let sp := append_if "collection" (sp_collection p) sp in
  let sp := append_if "type" (sp_type p) sp in
  let sp := append_if "author" (sp_author p) sp in
  let sp := sp ++ ((λ keyword, ("keywords", keyword))
                     <$> default [] (sp_keywords p)) in
  let sp := append_num "page" (sp_page p) sp in
  let sp := append_num "size" (sp_size p) sp in
  let sp := append_if "sortBy" (sp_sortBy p) sp in
  let sp := append_if "sortOrder" (sp_sortOrder p) sp in
  let sp := append_if "releaseDateFrom" (sp_releaseDateFrom p) sp in
  let sp := append_if "releaseDateTo" (sp_releaseDateTo p) sp in
  makeRequest (studySearch up) {| path := "/studies?"; search := sp |} None None.

Definition getCollectionStudies (collectionKey : string) (page size : Z)
  : Io (ApiResponse SearchResponse) :=
  searchStudies
    {| sp_query := None; sp_collection := Some collectionKey;
       sp_type := None; sp_author := None; sp_keywords := None;
       sp_page := Some page; sp_size := Some size;
       sp_sortBy := None; sp_sortOrder := None;
       sp_releaseDateFrom := None; sp_releaseDateTo := None |}.

Definition validateStudyAccession (accno : string)
  : Io (ApiResponse StudyValidation) :=
  let validation :=
    {| v_accno := accno;
       isValid := isValidAccessionNumber (Js.Str accno);
       exists_ := false;
       v_isPublic := None; v_collection := None; v_title := None |} in
  if negb (isValid validation) then mret (success (Some (Parsed validation)) 200)
  else
    studyResult ← getStudyDetails accno;
    let found := truthy_data (data studyResult) in
    let validation :=
      {| v_accno := v_accno validation;
         isValid := isValid validation;
         exists_ := negb (Js.truthy (error studyResult)) && found;
         v_isPublic :=
           if found then member study_isPublic (data studyResult) else None;
         v_collection :=
           if found then member study_collection (data studyResult) else None;
         v_title :=
           if found then member (λ s, Some (study_title s)) (data studyResult)
           else None |} in
    mret (success (Some (Parsed validation)) 200).

(** A settled promise of the batch. *)
Inductive Settled : Type :=
| Fulfilled (value : string)
| Rejected (reason : Js.Error).

(** The callback mapped over the accessions: it throws the error of a
    failed fetch and returns the accession otherwise. *)
Definition fetchOne (accno : string) : Io Settled :=
  result ← getStudyDetails accno;
  mret (match error result with
        | Some (String a s) =>
            Rejected {| Js.name := "Error"; Js.message := String a s |}
        | _ => Fulfilled accno
        end).

(** [Promise.allSettled]: the promises settle in the order [order] gives
    (indices into [promises]), each filling its own slot of the result;
    the result is there once every slot is filled. *)
Definition settle {A} (promises : list A) (slots : list (option A)) (i : nat)
  : list (option A) :=
  match promises !! i with
  | Some r => <[i := Some r]> slots
  | None => slots
  end.

Definition allSettled {A} (order : list nat) (promises : list A)
  : option (list A) :=
  mapM id (foldl (settle promises) (replicate (length promises) None) order).

(** The body of [results.forEach((result, index) => ...)]: [successful]
    and [failed] are the two arrays pushed to.  [index] is within
    [accessions], which has the length of [results]. *)
Definition tally (accessions : list string)
    (acc : list string * list Failure) (entry : nat * Settled)
  : list string * list Failure :=
  let accno := default "" (accessions !! entry.1) in
  match entry.2 with
  | Fulfilled _ => (acc.1 ++ [accno], acc.2)
  | Rejected reason =>
      (acc.1,
       acc.2 ++ [ {| f_accno := accno;
                     f_error := Js.or_default (Some (Js.message reason))
                                  "Unknown error" |} ])
  end.

(** [batchGetStudies].  The fetches are started in the order of
    [accessions]; [order] is the order in which they complete.  [None]
    stands for an [await] that never resumes. *)
Definition batchGetStudies (order : list nat) (accessions : list string)
  : Io (option (ApiResponse BulkOperationResult)) :=
  if bool_decide (length accessions = 0) then
    mret (Some (success
                  (Some (Parsed {| successful := []; failed := [];
                                   total := 0; successCount := 0;
                                   failureCount := 0 |}))
                  200))
  else if bool_decide (50 < length accessions) then
    mret (Some (failure "Maximum 50 accessions can be processed at once" 400))
  else
    promises ← mapM fetchOne accessions;
    mret (results ← allSettled order promises;
          let '(successful, failed) :=
            foldl (tally accessions) ([], []) (imap pair results) in
          Some (success
                  (Some (Parsed {| successful := successful;
                                   failed := failed;
                                   total := length accessions;
                                   successCount := length successful;
                                   failureCount := length failed |}))
                  200)).
End Methods.

End BioStudiesApiClient.

(** ** The accession families in the words of the specification

    A well-formed accession is, up to the case of its letters, one of
    [S-BSST], [EMPIAR-], [S-BIAD], [S-BSMS] followed by digits, [E-] followed
    by four word characters, a hyphen and digits, or [PRJ] followed by one of
    E, D, N, a letter and digits. *)

Module Accession.

(** [s] is [t] up to the case of its letters. *)
Definition spells (t s : string) : Prop :=
  Js.toUpperCase s = Js.toUpperCase t.

Definition all (P : ascii → bool) (s : string) : Prop :=
  Forall (λ c, P c = true) (list_ascii_of_string s).

(** A non-empty run of decimal digits. *)
Definition digits (d : string) : Prop :=
  d ≠ EmptyString ∧ all Js.is_digit d.

Definition is_letter (c : ascii) : bool := Js.is_upper c || Js.is_lower c.
Definition is_word (c : ascii) : bool :=
  Js.is_digit c || is_letter c || bool_decide (c = ascii_of_nat 95).

Inductive WellFormed : string → Prop :=
| BioStudies p d :
    spells "S-BSST" p → digits d → WellFormed (p +:+ d)
| ArrayExpress p w d :
    spells "E-" p → String.length w = 4 → all is_word w → digits d →
    WellFormed (p +:+ w +:+ "-" +:+ d)
| Empiar p d :
    spells "EMPIAR-" p → digits d → WellFormed (p +:+ d)
| BioImages p d :
    spells "S-BIAD" p → digits d → WellFormed (p +:+ d)
| BioSamples p d :
    spells "S-BSMS" p → digits d → WellFormed (p +:+ d)
| Project p a b d :
    spells "PRJ" p → Js.upper a ∈ ["E"; "D"; "N"]%char → is_letter b = true →
    digits d → WellFormed (p +:+ String a (String b d)).

End Accession.

(** ** The batch result in the words of the specification

    Every accession goes, in the order of the input, to [successful] when its
    own fetch succeeded and to [failed], with the message of the failure,
    otherwise. *)

Module BatchSpec.

(** The fetch succeeded: its result is a success, which has no [error]
    member.  A failure has one, its message, which can be empty. *)
Definition succeeded {T} (r : ApiResponse T) : bool :=
  match error r with
  | None => true
  | Some _ => false
  end.

Definition successfulOf {T} (fetched : list (string * ApiResponse T))
  : list string :=
  omap (λ ar, if succeeded ar.2 then Some ar.1 else None) fetched.

Definition failedOf {T} (fetched : list (string * ApiResponse T))
  : list Failure :=
  omap (λ ar, if succeeded ar.2 then None
              else Some {| f_accno := ar.1; f_error := default "" (error ar.2) |})
    fetched.

End BatchSpec.

(** ** The files of a study in the words of the specification

    The files of the top-level section, followed by the files of each of its
    direct subsections, in order; nothing from deeper sections. *)

Module FilesSpec.

Definition ownFiles (s : Section_) : list FileInfo :=
  default [] (section_files s).

Definition embeddedFiles (study : StudyDetails) : list FileInfo :=
  match study_section study with
  | Some top =>
      ownFiles top
        ++ concat (ownFiles <$> default [] (section_subsections top))
  | None => []
  end.

End FilesSpec.

(** ** [BioStudiesHandlers] *)

(** What a tool returns: [{ content: [{ type: "text", text }], isError? }]. *)
Record ToolResult : Type := { text : string; isError : bool }.

Definition content (t : string) : ToolResult := {| text := t; isError := false |}.
Definition errorContent (t : string) : ToolResult := {| text := t; isError := true |}.

(** The arguments objects of the tools embedded below.  A call that gives
    no arguments at all hands the handler [undefined] instead of an object:
    that case is the one of [Tool], further down. *)
Record FilesArgs : Type := { fa_accno : Js.Value }.
Record BatchArgs : Type := { ba_accessions : option (list string) }.
Record CollectionArgs : Type := {
  ca_collection : Js.Value;
  ca_page : option Z;
  ca_size : option Z;
}.

Module BioStudiesHandlers.

Import Js.

(** [throw new Error(message)] and the [TypeError] of a call to a member
    that is no function. *)
Definition throw {A} (message : string) : Outcome A :=
  Threw {| name := "Error"; message := message |}.
Definition typeError {A} (message : string) : Outcome A :=
  Threw {| name := "TypeError"; message := message |}.

(** *** [formatFileSize]

    On an integer byte count below 2^53.  [bytes / Math.pow(k, i)] is
    exact in binary floating point ([k] is a power of two), [toFixed(2)]
    rounds that quotient to hundredths, halves upwards, and [parseFloat]
    followed by the conversion back to a string drops the trailing zeros.
    The logarithm of a negative number is [NaN]. *)

Definition sizes : list string := ["B"; "KB"; "MB"; "GB"; "TB"].

(** [Math.floor(Math.log(bytes) / Math.log(1024))] for an integer
    [0 < bytes < 2^53].  The quotient of the two double-precision logarithms
    has the floor of the exact logarithm to the base 1024, except at the
    three integers just below 1024^5: there [Math.log(bytes)] is the double
    that [Math.log(1024^5)] is, and the quotient is 5. *)
Definition floor_log_1024 (bytes : Z) : Z :=
  if (1024 ^ 5 - 3 <=? bytes)%Z && (bytes <? 1024 ^ 5)%Z then 5%Z
  else (Z.log2 bytes / 10)%Z.

(** [(num / den).toFixed(2)] as a number of hundredths. *)
Definition hundredths (num den : Z) : Z := ((200 * num + den) / (2 * den))%Z.

(** The decimal numeral of [h] hundredths without trailing zeros. *)
Definition show_hundredths (h : Z) : string :=
  let whole := (h / 100)%Z in
  let frac := (h mod 100)%Z in
  if (frac =? 0)%Z then pretty whole
  else if (frac mod 10 =? 0)%Z then pretty whole +:+ "." +:+ pretty (frac / 10)%Z
  else pretty whole +:+ "." +:+ pretty (frac / 10)%Z +:+ pretty (frac mod 10)%Z.

Definition formatFileSize (bytes : Z) : string :=
  if (bytes =? 0)%Z then "0 B"
  else if (bytes <? 0)%Z then "NaN undefined"
  else
    let k := 1024%Z in
    let i := floor_log_1024 bytes in
    show_hundredths (hundredths bytes (k ^ i)%Z)
      +:+ " " +:+ default "undefined" (sizes !! Z.to_nat i).

(** *** [getCollectionSuggestions] *)

(** The object literal [suggestions]. *)
Definition suggestions : gmap string (list string) :=
  list_to_map
    [ ("arrayexpress",
       ["E-MTAB-7249"; "E-MTAB-6819"; "E-MTAB-5061"; "E-MTAB-4748"; "E-MTAB-4421"]);
      ("bioimages",
       ["S-BIAD423"; "S-BIAD424"; "S-BIAD425"; "S-BIAD426"; "S-BIAD427"]);
      ("empiar",
       ["EMPIAR-10001"; "EMPIAR-10002"; "EMPIAR-10003"; "EMPIAR-10004";
        "EMPIAR-10005"]);
      ("biostudies",
       ["S-BSST1"; "S-BSST2"; "S-BSST3"; "S-BSST4"; "S-BSST5"]) ].

(** An object literal inherits from [Object.prototype]: a key that is not
    its own is looked up there.  Each member of [Object.prototype] is listed
    with its [length]: the number of parameters of a method, none for
    [__proto__], which yields the prototype object itself. *)
Definition Object_prototype : gmap string (option nat) :=
  list_to_map
    [ ("constructor", Some 1); ("__defineGetter__", Some 2);
      ("__defineSetter__", Some 2); ("hasOwnProperty", Some 1);
      ("__lookupGetter__", Some 1); ("__lookupSetter__", Some 1);
      ("isPrototypeOf", Some 1); ("propertyIsEnumerable", Some 1);
      ("toString", Some 0); ("valueOf", Some 0); ("__proto__", None);
      ("toLocaleString", Some 0) ].

(** What [suggestions[collection] || []] evaluates to: an array, or an
    inherited member (always truthy). *)
Inductive Suggestions : Type :=
| Examples (accessions : list string)
| Inherited (length : option nat).

Definition getCollectionSuggestions (collection : string) : Suggestions :=
  match suggestions !! collection with
  | Some examples => Examples examples
  | None =>
      match Object_prototype !! collection with
      | Some member => Inherited member
      | None => Examples []
      end
  end.

(** *** [provideSearchAlternatives] *)

Definition tryAccession (suggestion : string) : string :=
  "  • Try accession: " +:+ suggestion +:+ nl.

Definition genericGuidance (collection : string) : string :=
  "  • Use individual study lookup with known " +:+ collection
    +:+ " accession patterns" +:+ nl.

(** The block of a collection filter, appended to [output]; the call of
    [forEach] on a member that has none throws. *)
Definition collectionBlock (output collection : string) : Outcome string :=
  let output :=
    output +:+ "**Collection-Based Discovery for " +:+ dq +:+ collection
           +:+ dq +:+ ":**" +:+ nl in
  match getCollectionSuggestions (toLowerCase collection) with
  | Examples l =>
      if bool_decide (0 < length l)
      then Returned
             (foldl (λ output suggestion, output +:+ tryAccession suggestion)
                output l +:+ nl)
      else Returned (output +:+ genericGuidance collection +:+ nl)
  | Inherited (Some n) =>
      if bool_decide (0 < n)
      then typeError "suggestions.forEach is not a function"
      else Returned (output +:+ genericGuidance collection +:+ nl)
  | Inherited None => Returned (output +:+ genericGuidance collection +:+ nl)
  end.

Definition searchHeading : string :=
  "🔍 **BioStudies Search Currently Unavailable**" +:+ nl +:+ nl
  +:+ "The EBI BioStudies search API endpoint is currently not available (HTTP 404). Here are alternative approaches to find studies:"
  +:+ nl +:+ nl.

Definition queryStrategies (query : string) : string :=
  "**Alternative Search Strategies for " +:+ dq +:+ query +:+ dq +:+ ":**" +:+ nl
  +:+ "  • Use the EBI BioStudies website directly: https://www.ebi.ac.uk/biostudies/" +:+ nl
  +:+ "  • Try related databases like ArrayExpress: https://www.ebi.ac.uk/arrayexpress/" +:+ nl
  +:+ "  • Search by publication title or author name on the BioStudies website"
  +:+ nl +:+ nl.

Definition searchFooter : string :=
  "**Try Common Accession Patterns:**" +:+ nl
  +:+ "  • **ArrayExpress**: E-MTAB-1234, E-GEOD-1234, E-MEXP-1234" +:+ nl
  +:+ "  • **BioImages**: S-BIAD1234" +:+ nl
  +:+ "  • **EMPIAR**: EMPIAR-10001" +:+ nl
  +:+ "  • **BioStudies**: S-BSST1234" +:+ nl +:+ nl
  +:+ "**Available Functionality:**" +:+ nl
  +:+ "  ✅ Individual study retrieval: Use `get_study_details` with known accession numbers" +:+ nl
  +:+ "  ✅ Accession validation: Use `validate_study_accession` to check format" +:+ nl
  +:+ "  ✅ Batch study retrieval: Use `batch_get_studies` for multiple studies" +:+ nl +:+ nl
  +:+ "**Example Usage:**" +:+ nl
  +:+ "Try: get_study_details with accession " +:+ dq +:+ "E-MTAB-1234" +:+ dq
  +:+ " or similar known accession numbers".

Definition provideSearchAlternatives (searchParams : SearchParams)
  : Outcome ToolResult :=
  let output := searchHeading in
  match
    match sp_collection searchParams with
    | Some (String a s) => collectionBlock output (String a s)
    | _ => Returned output
    end
  with
  | Threw e => Threw e
  | Returned output =>
      let output :=
        match sp_query searchParams with
        | Some (String a s) => output +:+ queryStrategies (String a s)
        | _ => output
        end in
      Returned (content (output +:+ searchFooter))
  end.

(** *** The tools *)

(** [`${x}`] for an optional string. *)
Definition show (x : option string) : string := default "undefined" x.

(** [output += prefix + x] when [x] is truthy. *)
Definition line_if (output prefix : string) (x : option string) : string :=
  match x with
  | Some (String a s) => output +:+ prefix +:+ String a s
  | _ => output
  end.

(** The [stats] array of a search hit or a study. *)
Definition stats (views downloads : option Z) : list string :=
  (if truthy_num views then [pretty (default 0%Z views) +:+ " views"] else [])
  ++ (if truthy_num downloads
      then [pretty (default 0%Z downloads) +:+ " downloads"] else []).

(** One entry of a search result; [budget] is how many authors are shown. *)
Definition authorsLine (budget : nat) (output : string)
    (authors : option (list string)) : string :=
  match authors with
  | Some (a :: l) =>
      output +:+ nl +:+ "  Authors: " +:+ join ", " (take budget (a :: l))
        +:+ (if bool_decide (budget < length (a :: l)) then " et al." else "")
  | _ => output
  end.

Definition formatHit (study : StudySearchResult) : string :=
  let output := "• **" +:+ hit_accno study +:+ "**: " +:+ hit_title study in
  let output := authorsLine 3 output (hit_authors study) in
  let output := line_if output (nl +:+ "  Collection: ") (hit_collection study) in
  let output := line_if output (nl +:+ "  Type: ") (hit_type study) in
  let output := line_if output (nl +:+ "  Released: ") (hit_releaseDate study) in
  if truthy_num (hit_views study) || truthy_num (hit_downloads study)
  then output +:+ nl +:+ "  Stats: "
         +:+ join ", " (stats (hit_views study) (hit_downloads study))
  else output.

(** The two trailers of a page of search results. *)
Definition pageTrailer (page : Z) (shown : nat) (totalHits : Z) : string :=
  nl +:+ nl +:+ "Page " +:+ pretty (page + 1)%Z +:+ ", showing "
    +:+ pretty shown +:+ " of " +:+ pretty totalHits +:+ " total results.".

Definition firstTrailer (shown : nat) (totalHits : Z) : string :=
  nl +:+ nl +:+ "Showing first " +:+ pretty shown +:+ " of "
    +:+ pretty totalHits +:+ " total results.".

Definition pagination (page : Z) (shown : nat) (size totalHits : Z) : string :=
  if (0 <? page)%Z || (size <=? Z.of_nat shown)%Z
  then pageTrailer page shown totalHits
  else if (Z.of_nat shown <? totalHits)%Z
  then firstTrailer shown totalHits
  else "".

(** The trailer of a page of a collection's studies. *)
Definition collectionPagination (collection : string) (page : Z) (shown : nat)
    (size totalHits : Z) : string :=
  if (0 <? page)%Z || (size <=? Z.of_nat shown)%Z
  then nl +:+ nl +:+ "Page " +:+ pretty (page + 1)%Z +:+ ", showing "
         +:+ pretty shown +:+ " of " +:+ pretty totalHits
         +:+ " total studies in " +:+ collection +:+ "."
  else if (Z.of_nat shown <? totalHits)%Z
  then nl +:+ nl +:+ "Showing first " +:+ pretty shown +:+ " of "
         +:+ pretty totalHits +:+ " total studies in " +:+ collection +:+ "."
  else "".

(** The page and size handed to the client: [page] defaults to 0, [size]
    to 20 and is capped at 100. *)
Definition pageArg (page : option Z) : Z :=
  if truthy_num page then default 0%Z page else 0%Z.
Definition sizeArg (size : option Z) : Z :=
  if truthy_num size then Z.min (default 0%Z size) 100 else 20%Z.

(** [x || d] on numbers. *)
Definition num_or (x : option Z) (d : Z) : Z :=
  if truthy_num x then default 0%Z x else d.

Definition undefinedLength {A} : Outcome A :=
  typeError "Cannot read properties of undefined (reading 'length')".

Section Tools.
Variable up : Upstream.

(** The [searchParams] built from the arguments of the tool. *)
Definition searchParamsOf (args : SearchParams) : SearchParams :=
  {| sp_query := sp_query args; sp_collection := sp_collection args;
     sp_type := sp_type args; sp_author := sp_author args;
     sp_keywords := sp_keywords args;
     sp_page := Some (pageArg (sp_page args));
     sp_size := Some (sizeArg (sp_size args));
     sp_sortBy := sp_sortBy args; sp_sortOrder := sp_sortOrder args;
     sp_releaseDateFrom := sp_releaseDateFrom args;
     sp_releaseDateTo := sp_releaseDateTo args |}.

Definition searchStudies (args : SearchParams) : Io (Outcome ToolResult) :=
  if negb (truthy (sp_query args)) && negb (truthy (sp_collection args))
     && negb (truthy (sp_author args))
  then mret (throw "At least one search parameter (query, collection, or author) is required")
  else
    let searchParams := searchParamsOf args in
    result ← BioStudiesApiClient.searchStudies up searchParams;
    if truthy (error result) && (status result =? 404)%Z
    then mret (provideSearchAlternatives searchParams)
    else if truthy (error result)
    then mret (Returned (errorContent
                 ("Error searching BioStudies: " +:+ show (error result))))
    else
      let none := Returned (content "No studies found matching the search criteria") in
      mret
        match data result with
        | Some (Parsed response) =>
            if bool_decide (length (hits response) = 0) then none
            else
              let studies := hits response in
              let formattedResults := join (nl +:+ nl) (formatHit <$> studies) in
              Returned (content
                ("Found " +:+ pretty (totalHits response) +:+ " studies:"
                   +:+ nl +:+ nl +:+ formattedResults
                   +:+ pagination (page response) (length studies)
                         (num_or (sp_size searchParams) 20)
                         (totalHits response)))
        | Some (Raw (String _ _)) | Some (Problem _ _) => undefinedLength
        | _ => none
        end.

Definition formatCollectionHit (study : StudySearchResult) : string :=
  let output := "• **" +:+ hit_accno study +:+ "**: " +:+ hit_title study in
  let output := authorsLine 2 output (hit_authors study) in
  line_if output (nl +:+ "  Released: ") (hit_releaseDate study).

Definition getCollectionStudies (args : CollectionArgs)
  : Io (Outcome ToolResult) :=
  match ca_collection args with
  | Str (String a s) =>
      let collection := String a s in
      let page := pageArg (ca_page args) in
      let size := sizeArg (ca_size args) in
      result ← BioStudiesApiClient.getCollectionStudies up collection page size;
      if truthy (error result)
      then mret (Returned (errorContent
                   ("Error retrieving studies from collection " +:+ collection
                      +:+ ": " +:+ show (error result))))
      else
        let none := Returned (content ("No studies found in collection: " +:+ collection)) in
        mret
          match data result with
          | Some (Parsed response) =>
              if bool_decide (length (hits response) = 0) then none
              else
                let studies := hits response in
                let formattedResults :=
                  join (nl +:+ nl) (formatCollectionHit <$> studies) in
                Returned (content
                  ("Studies in collection " +:+ dq +:+ collection +:+ dq
                     +:+ " (" +:+ pretty (totalHits response) +:+ " total):"
                     +:+ nl +:+ nl +:+ formattedResults
                     +:+ collectionPagination collection page (length studies)
                           size (totalHits response)))
          | Some (Raw (String _ _)) | Some (Problem _ _) => undefinedLength
          | _ => none
          end
  | _ => mret (throw "Collection key is required and must be a string")
  end.

(** [sum + (file.size || 0)] over the files. *)
Definition totalSize (files : list FileInfo) : Z :=
  foldl (λ sum file, (sum + num_or (file_size file) 0)%Z) 0%Z files.

Definition sizeInfo (files : list FileInfo) : string :=
  if (0 <? totalSize files)%Z
  then nl +:+ "Total size: " +:+ formatFileSize (totalSize files)
  else "".

(** [file.path && file.path !== file.name]. *)
Definition pathDiffers (file : FileInfo) : bool :=
  truthy (file_path file) && negb (bool_decide (file_path file = file_name file)).

Definition sizeLine (output : string) (file : FileInfo) : string :=
  if truthy_num (file_size file)
  then output +:+ nl +:+ "  Size: "
         +:+ formatFileSize (default 0%Z (file_size file))
  else output.

(** A file of the dedicated files endpoint. *)
Definition formatFile (file : FileInfo) : string :=
  let output := "• **" +:+ show (file_name file) +:+ "**" in
  let output :=
    if pathDiffers file
    then output +:+ nl +:+ "  Path: " +:+ show (file_path file) else output in
  let output := sizeLine output file in
  line_if output (nl +:+ "  Type: ") (file_type file).

(** A file found in the study's metadata. *)
Definition formatExtractedFile (file : FileInfo) : string :=
  let output :=
    "• **" +:+ or_default (or_else (file_name file) (file_path file))
                 "Unknown filename" +:+ "**" in
  let output :=
    if pathDiffers file
    then output +:+ nl +:+ "  Path: " +:+ show (file_path file) else output in
  let output := sizeLine output file in
  let output := line_if output (nl +:+ "  Type: ") (file_type file) in
  line_if output (nl +:+ "  MD5: ") (file_md5 file).

(** [if (x?.files?.length) extractedFiles.push(...x.files)]. *)
Definition pushFiles (extractedFiles : list FileInfo)
    (files : option (list FileInfo)) : list FileInfo :=
  match files with
  | Some (f :: l) => extractedFiles ++ f :: l
  | _ => extractedFiles
  end.

(** The files gathered from a study: those of its section, then those of
    each subsection of that section. *)
Definition extractFiles (study : option (Payload StudyDetails))
  : list FileInfo :=
  let section := member study_section study in
  let extractedFiles := [] in
  let extractedFiles :=
    pushFiles extractedFiles (section ≫= section_files) in
  match section ≫= section_subsections with
  | Some (s :: l) =>
      foldl (λ extractedFiles subsection,
               pushFiles extractedFiles (section_files subsection))
        extractedFiles (s :: l)
  | _ => extractedFiles
  end.

Definition studyUrl (accno : string) : string :=
  "https://www.ebi.ac.uk/biostudies/studies/" +:+ accno.

Definition metadataUnavailable (accno err : string) : string :=
  "📁 **Files API Unavailable for " +:+ accno +:+ "**" +:+ nl +:+ nl
  +:+ "⚠️ The dedicated files API endpoint is currently not available (HTTP 404), and we couldn't retrieve study metadata to extract file information."
  +:+ nl +:+ nl +:+ "Error: " +:+ err +:+ nl +:+ nl
  +:+ "**Alternative Approaches:**" +:+ nl
  +:+ "• Visit the study page directly: " +:+ studyUrl accno +:+ nl
  +:+ "• Use `get_study_details` to see if file information is embedded in study metadata".

Definition extractionNote (accno : string) : string :=
  "📁 **Files for " +:+ accno +:+ " (via metadata extraction)**" +:+ nl +:+ nl
  +:+ "⚠️ **Note**: The dedicated files API endpoint is currently unavailable (HTTP 404). ".

Definition noFilesFound (accno : string) : string :=
  extractionNote accno
  +:+ "Extracted file information from study metadata." +:+ nl +:+ nl
  +:+ "No files found in the study metadata. This could mean:" +:+ nl
  +:+ "• The study has no associated files" +:+ nl
  +:+ "• File information is not embedded in the metadata" +:+ nl
  +:+ "• Files are referenced externally" +:+ nl +:+ nl
  +:+ "**Alternative Approaches:**" +:+ nl
  +:+ "• Check study details with `get_study_details` for external references" +:+ nl
  +:+ "• Visit the study page directly: " +:+ studyUrl accno.

Definition extractedListing (accno : string) (extractedFiles : list FileInfo)
  : string :=
  extractionNote accno
  +:+ "Extracted " +:+ pretty (length extractedFiles)
  +:+ " files from study metadata." +:+ sizeInfo extractedFiles +:+ nl +:+ nl
  +:+ join (nl +:+ nl) (formatExtractedFile <$> extractedFiles) +:+ nl +:+ nl
  +:+ "**Data Source:** Extracted from study section metadata via `get_study_details`".

Definition extractionFailed (accno err : string) : string :=
  "📁 **Files API Unavailable for " +:+ accno +:+ "**" +:+ nl +:+ nl
  +:+ "⚠️ The dedicated files API endpoint is currently not available (HTTP 404), and an error occurred while trying to extract file information from study metadata."
  +:+ nl +:+ nl +:+ "Error: " +:+ err +:+ nl +:+ nl
  +:+ "**Alternative Approaches:**" +:+ nl
  +:+ "• Visit the study page directly: " +:+ studyUrl accno +:+ nl
  +:+ "• Use `get_study_details` to view study metadata directly".

(** [try { body } catch (error) { handler }]. *)
Definition try_catch {A} (body : Io (Outcome A)) (handler : Error → A)
  : Io (Outcome A) :=
  outcome ← body;
  mret (match outcome with
        | Returned a => Returned a
        | Threw e => Returned (handler e)
        end).

Definition extractFilesFromStudyMetadata (accno : string)
  : Io (Outcome ToolResult) :=
  try_catch
    (studyResult ← BioStudiesApiClient.getStudyDetails up accno;
     if truthy (error studyResult)
     then mret (Returned (content
                  (metadataUnavailable accno (show (error studyResult)))))
     else
       let study := data studyResult in
       if negb (truthy_data study)
       then mret (Returned (content ("Study " +:+ accno +:+ " not found")))
       else
         let extractedFiles := extractFiles study in
         if bool_decide (length extractedFiles = 0)
         then mret (Returned (content (noFilesFound accno)))
         else mret (Returned (content (extractedListing accno extractedFiles))))
    (λ error, content (extractionFailed accno (message error))).

Definition getStudyFiles (args : FilesArgs) : Io (Outcome ToolResult) :=
  match fa_accno args with
  | Str (String a s) =>
      let accno := String a s in
      result ← BioStudiesApiClient.getStudyFiles up accno;
      if truthy (error result) && (status result =? 404)%Z
      then extractFilesFromStudyMetadata accno
      else if truthy (error result)
      then mret (Returned (errorContent
                   ("Error retrieving files for study " +:+ accno +:+ ": "
                      +:+ show (error result))))
      else
        let none := Returned (content ("No files found for study " +:+ accno)) in
        mret
          match data result with
          | Some (Parsed files) =>
              if bool_decide (length files = 0) then none
              else
                Returned (content
                  ("Files in study " +:+ accno +:+ " (" +:+ pretty (length files)
                     +:+ " files):" +:+ sizeInfo files +:+ nl +:+ nl
                     +:+ join (nl +:+ nl) (formatFile <$> files)))
          | Some (Raw (String _ _)) | Some (Problem _ _) =>
              typeError "files.map is not a function"
          | _ => none
          end
  | _ => mret (throw "Study accession number is required and must be a string")
  end.

(** [batchGetStudies]; [order] and the [option] are those of the
    client's method. *)
Definition formatBatch (batchResult : BulkOperationResult) : string :=
  let output := "**Batch Processing Results:**" +:+ nl +:+ nl in
  let output :=
    output +:+ "**Summary:** " +:+ pretty (successCount batchResult) +:+ "/"
      +:+ pretty (total batchResult) +:+ " studies retrieved successfully"
      +:+ nl +:+ nl in
  let output :=
    if bool_decide (0 < length (successful batchResult))
    then foldl (λ output accno, output +:+ "  ✅ " +:+ accno +:+ nl)
           (output +:+ "**Successfully Retrieved ("
              +:+ pretty (length (successful batchResult)) +:+ "):**" +:+ nl)
           (successful batchResult) +:+ nl
    else output in
  if bool_decide (0 < length (failed batchResult))
  then foldl (λ output failure,
                output +:+ "  ❌ " +:+ f_accno failure +:+ ": "
                  +:+ f_error failure +:+ nl)
         (output +:+ "**Failed (" +:+ pretty (length (failed batchResult))
            +:+ "):**" +:+ nl)
         (failed batchResult)
  else output.

Definition batchGetStudies (order : list nat) (args : BatchArgs)
  : Io (option (Outcome ToolResult)) :=
  match ba_accessions args with
  | None => mret (Some (throw "Accessions parameter is required and must be an array of strings"))
  | Some accessions =>
      if bool_decide (length accessions = 0)
      then mret (Some (Returned (content "No accession numbers provided")))
      else if bool_decide (50 < length accessions)
      then mret (Some (Returned (content "Maximum 50 studies can be processed at once")))
      else
        settled ← BioStudiesApiClient.batchGetStudies up order accessions;
        mret (result ← settled;
              Some
                (if truthy (error result)
                 then Returned (errorContent
                        ("Error in batch operation: " +:+ show (error result)))
                 else
                   match data result with
                   | Some (Parsed batchResult) => Returned (content (formatBatch batchResult))
                   | _ => typeError "Cannot read properties of undefined (reading 'successCount')"
                   end))
  end.
End Tools.

End BioStudiesHandlers.

(** ** A sample server and client, for the worked examples *)

Module Sample.

Definition study (accno : string) : StudyDetails :=
  {| study_accno := accno; study_title := "A study";
     study_collection := None; study_section := None;
     study_isPublic := Some true |}.

(** A server that knows every study and has withdrawn its search and files
    endpoints. *)
Definition up : Upstream :=
  {| studies := λ _ _, Response 200 "OK" (Json (Some (Parsed (study "S-BSST1"))));
     studyFiles := λ _ _, Response 404 "Not Found" (NotJson "");
     studyLinks := λ _ _, Response 200 "OK" (Json (Some (Parsed [])));
     authLogin := λ _ _, Response 401 "Unauthorized" (NotJson "");
     studySearch := λ _ _, Response 404 "Not Found" (NotJson "") |}.

Definition world : World :=
  {| this := BioStudiesApiClient.new; sent := [] |}.

Definition hit (accno : string) : StudySearchResult :=
  {| hit_accno := accno; hit_title := "A study"; hit_authors := None;
     hit_releaseDate := None; hit_collection := None; hit_type := None;
     hit_views := None; hit_downloads := None |}.

(** A server whose search endpoint works: 25 hits, served 20 to a page. *)
Definition firstPage : SearchResponse :=
  {| hits := hit <$> replicate 20 "S-BSST1"; totalHits := 25; page := 0;
     size := 20 |}.

Definition searching : Upstream :=
  {| studies := studies up; studyFiles := studyFiles up;
     studyLinks := studyLinks up; authLogin := authLogin up;
     studySearch := λ _ _, Response 200 "OK" (Json (Some (Parsed firstPage))) |}.

(** A server that reports a negative page index: 5 hits of 25. *)
Definition oddPage : SearchResponse :=
  {| hits := hit <$> replicate 5 "S-BSST1"; totalHits := 25; page := -1;
     size := 20 |}.

Definition odd : Upstream :=
  {| studies := studies up; studyFiles := studyFiles up;
     studyLinks := studyLinks up; authLogin := authLogin up;
     studySearch := λ _ _, Response 200 "OK" (Json (Some (Parsed oddPage))) |}.

(** A server whose study lookup fails with an [Error] that has no message;
    its files endpoint is withdrawn, as that of [up]. *)
Definition silent : Upstream :=
  {| studies := λ _ _, OtherError ""; studyFiles := studyFiles up;
     studyLinks := studyLinks up; authLogin := authLogin up;
     studySearch := studySearch up |}.

Definition file (name : string) : FileInfo :=
  {| file_name := Some name; file_path := None; file_size := None;
     file_type := None; file_md5 := None |}.

(** A study with a file at each of three depths. *)
Definition nested : StudyDetails :=
  {| study_accno := "S-BSST1"; study_title := "A study";
     study_collection := None;
     study_section :=
       Some (MkSection None (Some [file "top.txt"])
               (Some [ MkSection None (Some [file "child.txt"])
                         (Some [ MkSection None (Some [file "grandchild.txt"])
                                   None ]) ]));
     study_isPublic := None |}.

Definition query (q : option string) (collection : option string) : SearchParams :=
  {| sp_query := q; sp_collection := collection; sp_type := None;
     sp_author := None; sp_keywords := None; sp_page := None; sp_size := None;
     sp_sortBy := None; sp_sortOrder := None; sp_releaseDateFrom := None;
     sp_releaseDateTo := None |}.

End Sample.

(** ** The rest of [BioStudiesApiClient]

    The methods that manage the token, and the two list endpoints. *)

Record Collection : Type := {
  c_key : string;
  c_name : string;
  c_description : option string;
  c_releaseDate : option string;
  c_studyCount : option Z;
  c_url : option string;
}.

Record FileSearchParams : Type := {
  fs_accno : option string;
  fs_path : option string;
  fs_name : option string;
  fs_type : option string;
  fs_minSize : option Z;
  fs_maxSize : option Z;
}.

Record FileSearchResponse : Type := {
  fsr_files : list FileInfo;
  fsr_totalFiles : Z;
}.

(** The endpoints of the two lists. *)
Record Catalogue : Type := {
  collections : Server (list Collection);
  fileSearch : Server FileSearchResponse;
}.

Module BioStudiesApiClient2.

Definition clearAuthentication : Io unit := set_authToken None.

Definition setAuthToken (token : string) : Io unit := set_authToken (Some token).

(** [!!this.authToken]. *)
Definition isAuthenticated : Io bool :=
  λ w, (Js.truthy (authToken (this w)), w).

Section Methods.
Variable cat : Catalogue.

Definition getCollections : Io (ApiResponse (list Collection)) :=
  BioStudiesApiClient.makeRequest (collections cat)
    {| path := "/collections"; search := [] |} None None.

Definition searchFiles (p : FileSearchParams) : Io (ApiResponse FileSearchResponse) :=
  let sp := [] in
  let sp := BioStudiesApiClient.append_if "accno" (fs_accno p) sp in
  let sp := BioStudiesApiClient.append_if "path" (fs_path p) sp in
  let sp := BioStudiesApiClient.append_if "name" (fs_name p) sp in
  let sp := BioStudiesApiClient.append_if "type" (fs_type p) sp in
  let sp := BioStudiesApiClient.append_num "minSize" (fs_minSize p) sp in
  let sp := BioStudiesApiClient.append_num "maxSize" (fs_maxSize p) sp in
  BioStudiesApiClient.makeRequest (fileSearch cat)
    {| path := "/files?"; search := sp |} None None.
End Methods.

End BioStudiesApiClient2.

(** ** The rest of [BioStudiesHandlers]

    The tools that validate an accession, list the collections and search
    for files. *)

Record ValidateArgs : Type := { va_accno : Js.Value }.

Module BioStudiesHandlers2.

Import Js.

(** The table of [provideKnownCollections]. *)
Record KnownCollection : Type := {
  k_key : string;
  k_name : string;
  k_description : string;
  k_accessionPattern : string;
  k_website : string;
  k_examples : list string;
}.

Definition knownCollections : list KnownCollection :=
  [ {| k_key := "arrayexpress"; k_name := "ArrayExpress";
       k_description := "Functional genomics experiments including gene expression data";
       k_accessionPattern := "E-MTAB-####, E-GEOD-####, E-MEXP-####";
       k_website := "https://www.ebi.ac.uk/arrayexpress/";
       k_examples := ["E-MTAB-7249"; "E-MTAB-6819"; "E-MTAB-5061"] |};
    {| k_key := "bioimages"; k_name := "BioImages";
       k_description := "Biological imaging data from light and electron microscopy";
       k_accessionPattern := "S-BIAD####";
       k_website := "https://www.ebi.ac.uk/biostudies/bioimages/";
       k_examples := ["S-BIAD423"; "S-BIAD424"; "S-BIAD425"] |};
    {| k_key := "empiar"; k_name := "EMPIAR";
       k_description := "Electron Microscopy Public Image Archive";
       k_accessionPattern := "EMPIAR-#####";
       k_website := "https://www.ebi.ac.uk/empiar/";
       k_examples := ["EMPIAR-10001"; "EMPIAR-10002"; "EMPIAR-10003"] |};
    {| k_key := "biostudies"; k_name := "BioStudies General";
       k_description := "General biological studies and multi-omics data";
       k_accessionPattern := "S-BSST####";
       k_website := "https://www.ebi.ac.uk/biostudies/";
       k_examples := ["S-BSST1"; "S-BSST2"; "S-BSST3"] |} ].

Definition formatKnownCollection (collection : KnownCollection) : string :=
  let collectionOutput :=
    "• **" +:+ k_key collection +:+ "**: " +:+ k_name collection in
  let collectionOutput :=
    collectionOutput +:+ nl +:+ "  Description: " +:+ k_description collection in
  let collectionOutput :=
    collectionOutput +:+ nl +:+ "  Accession Pattern: "
      +:+ k_accessionPattern collection in
  let collectionOutput :=
    collectionOutput +:+ nl +:+ "  Website: " +:+ k_website collection in
  collectionOutput +:+ nl +:+ "  Example Accessions: "
    +:+ join ", " (k_examples collection).

Definition provideKnownCollections : ToolResult :=
  let output := "📚 **Known BioStudies Collections**" +:+ nl +:+ nl in
  let output :=
    output +:+ "⚠️ **Note**: The collections API endpoint is currently unavailable (HTTP 404). Below are the known major collections:"
      +:+ nl +:+ nl in
  let formattedCollections :=
    join (nl +:+ nl) (formatKnownCollection <$> knownCollections) in
  let output := output +:+ formattedCollections in
  let output := output +:+ nl +:+ nl +:+ "**How to Use:**" +:+ nl in
  let output :=
    output +:+ "• Use `get_study_details` with any of the example accession numbers above" +:+ nl in
  let output :=
    output +:+ "• Try `validate_study_accession` to check if a specific accession exists" +:+ nl in
  let output :=
    output +:+ "• Use `batch_get_studies` to retrieve multiple studies at once"
      +:+ nl +:+ nl in
  let output := output +:+ "**Collection-Specific Guidance:**" +:+ nl in
  let output :=
    output +:+ "• **ArrayExpress**: Focus on gene expression and functional genomics" +:+ nl in
  let output :=
    output +:+ "• **BioImages**: Look for microscopy and imaging studies" +:+ nl in
  let output :=
    output +:+ "• **EMPIAR**: Specialized for electron microscopy data" +:+ nl in
  let output :=
    output +:+ "• **BioStudies General**: Multi-omics and general biological studies" in
  content output.

(** The verdict texts of [validateStudyAccession]. *)
Definition invalidFormatText (accno : string) : string :=
  "❌ Invalid accession number format: " +:+ dq +:+ accno +:+ dq +:+ nl +:+ nl
  +:+ "Valid formats include:" +:+ nl
  +:+ "• S-BSST#### (BioStudies)" +:+ nl
  +:+ "• E-MTAB-#### (ArrayExpress)" +:+ nl
  +:+ "• EMPIAR-#### (EMPIAR)" +:+ nl
  +:+ "• S-BIAD#### (BioImages)".

Definition notFoundText (accno : string) : string :=
  "⚠️ Valid format but study not found: " +:+ dq +:+ accno +:+ dq +:+ nl +:+ nl
  +:+ "The accession number format is correct but no study exists with this identifier.".

Definition foundText (accno : string) (validation : StudyValidation) : string :=
  let output := "✅ Valid study accession: " +:+ dq +:+ accno +:+ dq +:+ nl in
  let output :=
    match v_title validation with
    | Some (String a s) => output +:+ "Title: " +:+ String a s +:+ nl
    | _ => output
    end in
  let output :=
    match v_collection validation with
    | Some (String a s) => output +:+ "Collection: " +:+ String a s +:+ nl
    | _ => output
    end in
  match v_isPublic validation with
  | Some isPublic =>
      output +:+ "Access: " +:+ (if isPublic then "Public" else "Restricted")
  | None => output
  end.

Section Tools.
Variable up : Upstream.
Variable cat : Catalogue.
(** [Number.prototype.toLocaleString], which depends on the locale of the
    process. *)
Variable toLocaleString : Z → string.

Definition validateStudyAccession (args : ValidateArgs) : Io (Outcome ToolResult) :=
  match va_accno args with
  | Str (String a s) =>
      let accno := String a s in
      result ← BioStudiesApiClient.validateStudyAccession up accno;
      if truthy (error result)
      then mret (Returned (errorContent
                   ("Error validating accession " +:+ accno +:+ ": "
                      +:+ BioStudiesHandlers.show (error result))))
      else
        mret
          match data result with
          | Some (Parsed validation) =>
              if negb (isValid validation)
              then Returned (content (invalidFormatText accno))
              else if negb (exists_ validation)
              then Returned (content (notFoundText accno))
              else Returned (content (foundText accno validation))
          | _ => BioStudiesHandlers.typeError
                   "Cannot read properties of undefined (reading 'isValid')"
          end
  | _ => mret (BioStudiesHandlers.throw
                 "Accession number is required and must be a string")
  end.

Definition formatCollection (collection : Collection) : string :=
  let output := "• **" +:+ c_key collection +:+ "**: " +:+ c_name collection in
  let output :=
    BioStudiesHandlers.line_if output (nl +:+ "  Description: ")
      (c_description collection) in
  let output :=
    match c_studyCount collection with
    | Some studyCount => output +:+ nl +:+ "  Studies: " +:+ toLocaleString studyCount
    | None => output
    end in
  let output :=
    BioStudiesHandlers.line_if output (nl +:+ "  Release Date: ")
      (c_releaseDate collection) in
  BioStudiesHandlers.line_if output (nl +:+ "  URL: ") (c_url collection).

Definition listCollections : Io (Outcome ToolResult) :=
  result ← BioStudiesApiClient2.getCollections cat;
  if truthy (error result) && (status result =? 404)%Z
  then mret (Returned provideKnownCollections)
  else if truthy (error result)
  then mret (Returned (errorContent
               ("Error retrieving collections: "
                  +:+ BioStudiesHandlers.show (error result))))
  else
    let none := Returned (content "No collections found") in
    mret
      match data result with
      | Some (Parsed collections) =>
          if bool_decide (length collections = 0) then none
          else
            Returned (content
              ("Available Collections (" +:+ pretty (length collections)
                 +:+ " total):" +:+ nl +:+ nl
                 +:+ join (nl +:+ nl) (formatCollection <$> collections)))
      | Some (Raw (String _ _)) | Some (Problem _ _) =>
          BioStudiesHandlers.typeError "collections.map is not a function"
      | _ => none
      end.

(** A file of a file search. *)
Definition formatFoundFile (file : FileInfo) : string :=
  let output := "• **" +:+ BioStudiesHandlers.show (file_name file) +:+ "**" in
  let output :=
    BioStudiesHandlers.line_if output (nl +:+ "  Path: ") (file_path file) in
  let output := BioStudiesHandlers.sizeLine output file in
  let output :=
    BioStudiesHandlers.line_if output (nl +:+ "  Type: ") (file_type file) in
  BioStudiesHandlers.line_if output (nl +:+ "  MD5: ") (file_md5 file).

(** [x && typeof x === 'number' ? x : undefined]. *)
Definition sizeBound (x : option Z) : option Z :=
  if truthy_num x then x else None.

Definition fileSearchParamsOf (args : FileSearchParams) : FileSearchParams :=
  {| fs_accno := fs_accno args; fs_path := fs_path args;
     fs_name := fs_name args; fs_type := fs_type args;
     fs_minSize := sizeBound (fs_minSize args);
     fs_maxSize := sizeBound (fs_maxSize args) |}.

Definition searchFiles (args : FileSearchParams) : Io (Outcome ToolResult) :=
  if negb (truthy (fs_accno args)) && negb (truthy (fs_name args))
     && negb (truthy (fs_type args))
  then mret (BioStudiesHandlers.throw
               "At least one search parameter (accno, name, or type) is required")
  else
    let searchParams := fileSearchParamsOf args in
    result ← BioStudiesApiClient2.searchFiles cat searchParams;
    if truthy (error result)
    then mret (Returned (errorContent
                 ("Error searching files: "
                    +:+ BioStudiesHandlers.show (error result))))
    else
      let none := Returned (content "No files found matching the search criteria") in
      mret
        match data result with
        | Some (Parsed response) =>
            if bool_decide (length (fsr_files response) = 0) then none
            else
              Returned (content
                ("Found " +:+ pretty (fsr_totalFiles response) +:+ " files:"
                   +:+ nl +:+ nl
                   +:+ join (nl +:+ nl) (formatFoundFile <$> fsr_files response)))
        | Some (Raw (String _ _)) | Some (Problem _ _) =>
            BioStudiesHandlers.undefinedLength
        | _ => none
        end.
End Tools.

End BioStudiesHandlers2.

(** ** The tools as the server calls them

    A handler receives the [arguments] of the call as [args].  A call that
    gives none hands it [undefined] ([None] here), and the first member of
    [args] that the handler reads then throws a [TypeError]; [listCollections]
    reads none.  On an arguments object the handlers are those of
    [BioStudiesHandlers] above. *)

Module Tool.

Import Js.

(** Reading [member] of [undefined]. *)
Definition undefinedMember {A} (member : string) : Outcome A :=
  BioStudiesHandlers.typeError
    ("Cannot read properties of undefined (reading '" +:+ member +:+ "')").

Section Tools.
Variable up : Upstream.
Variable cat : Catalogue.
Variable toLocaleString : Z → string.

Definition searchStudies (args : option SearchParams) : Io (Outcome ToolResult) :=
  match args with
  | Some args => BioStudiesHandlers.searchStudies up args
  | None => mret (undefinedMember "query")
  end.

Definition listCollections {A} (args : option A) : Io (Outcome ToolResult) :=
  BioStudiesHandlers2.listCollections cat toLocaleString.

Definition getCollectionStudies (args : option CollectionArgs)
  : Io (Outcome ToolResult) :=
  match args with
  | Some args => BioStudiesHandlers.getCollectionStudies up args
  | None => mret (undefinedMember "collection")
  end.

Definition searchFiles (args : option FileSearchParams)
  : Io (Outcome ToolResult) :=
  match args with
  | Some args => BioStudiesHandlers2.searchFiles cat args
  | None => mret (undefinedMember "accno")
  end.

Definition getStudyFiles (args : option FilesArgs) : Io (Outcome ToolResult) :=
  match args with
  | Some args => BioStudiesHandlers.getStudyFiles up args
  | None => mret (undefinedMember "accno")
  end.

Definition validateStudyAccession (args : option ValidateArgs)
  : Io (Outcome ToolResult) :=
  match args with
  | Some args => BioStudiesHandlers2.validateStudyAccession up args
  | None => mret (undefinedMember "accno")
  end.

Definition batchGetStudies (order : list nat) (args : option BatchArgs)
  : Io (option (Outcome ToolResult)) :=
  match args with
  | Some args => BioStudiesHandlers.batchGetStudies up order args
  | None => mret (Some (undefinedMember "accessions"))
  end.
End Tools.

End Tool.

(** ** The server: the handler of a tool call ([src/index.ts])

    The [try]/[catch] around the switch over the name of the tool.  The
    handler of [get_study_details] is a parameter here. *)

Module Mcp.

(** [String.prototype.startsWith] and [String.prototype.includes]. *)
Fixpoint startsWith (s sub : string) : bool :=
  match sub, s with
  | EmptyString, _ => true
  | String a sub', String b s' => bool_decide (a = b) && startsWith s' sub'
  | String _ _, EmptyString => false
  end.

Fixpoint includes (s sub : string) : bool :=
  startsWith s sub
  || match s with
     | EmptyString => false
     | String _ s' => includes s' sub
     end.

Inductive ErrorCode : Type := InvalidParams | MethodNotFound.

(** What a tool call ends with: a result is returned, or an [McpError] is
    thrown to the caller; [message] is the text the error is made with. *)
Inductive Reply : Type :=
| Result (result : ToolResult)
| McpError (code : ErrorCode) (message : string).

(** The [arguments] object of a call, with the members the three tools
    read.  A call need not give one: [callTool] takes an [option]. *)
Record CallArgs : Type := {
  accno : Js.Value;
  accessions : option (list string);
}.

(** The [catch] clause, for a thrown [Error]. *)
Definition caught (error : Js.Error) : Reply :=
  let errorMessage := Js.message error in
  if includes errorMessage "required"
  then McpError InvalidParams errorMessage
  else Result (errorContent ("Error: " +:+ errorMessage)).

Definition handled (outcome : Js.Outcome ToolResult) : Reply :=
  match outcome with
  | Js.Returned result => Result result
  | Js.Threw error => caught error
  end.

Section Server.
Variable up : Upstream.
Variable getStudyDetails : option CallArgs → Io (Js.Outcome ToolResult).

(** [order] and the [option] of the result are those of [batchGetStudies];
    [args] is [None] for a call without [arguments]. *)
Definition callTool (order : list nat) (name : string) (args : option CallArgs)
  : Io (option Reply) :=
  if bool_decide (name = "get_study_details") then
    outcome ← getStudyDetails args;
    mret (Some (handled outcome))
  else if bool_decide (name = "validate_study_accession") then
    outcome ← Tool.validateStudyAccession up
                 ((λ args, {| va_accno := accno args |}) <$> args);
    mret (Some (handled outcome))
  else if bool_decide (name = "batch_get_studies") then
    settled ← Tool.batchGetStudies up order
                 ((λ args, {| ba_accessions := accessions args |}) <$> args);
    mret (handled <$> settled)
  else
    mret (Some (McpError MethodNotFound
                  ("Unknown tool: " +:+ name
                     +:+ ". Available tools: get_study_details, validate_study_accession, batch_get_studies"))).
End Server.

End Mcp.

(** * Properties *)

(** ** Regular expressions: [test] decides the words of a pattern *)

Section RegExpFacts.
Import RegExp.
Variable ic : bool.

Lemma Matches_nil_nullable p : Matches ic p [] → nullable p = true.
Proof.
  intros H. remember [] as w eqn:Hw. induction H; simpl; try done.
  - apply app_eq_nil in Hw as [-> ->]. rewrite IHMatches1, IHMatches2; done.
  - rewrite IHMatches; done.
  - rewrite IHMatches. apply orb_true_r. done.
Qed.

Lemma nullable_Matches_nil p : nullable p = true → Matches ic p [].
Proof.
  induction p; simpl; intros H; try done.
  - constructor.
  - apply andb_true_iff in H as [H1 H2].
    change (@nil ascii) with (@nil ascii ++ []). constructor; auto.
  - apply orb_true_iff in H as [H|H]; [apply M_alt_l | apply M_alt_r]; auto.
  - constructor.
Qed.

Lemma Matches_cat_inv p q w :
  Matches ic (Cat p q) w →
  ∃ u v, w = u ++ v ∧ Matches ic p u ∧ Matches ic q v.
Proof. inversion 1; subst; eauto. Qed.

Lemma Matches_chr_inv cs w :
  Matches ic (Chr cs) w → ∃ c, w = [c] ∧ accepts ic cs c = true.
Proof. inversion 1; subst; eauto. Qed.

Lemma Matches_alt_inv p q w :
  Matches ic (Alt p q) w → Matches ic p w ∨ Matches ic q w.
Proof. inversion 1; subst; eauto. Qed.

Lemma Matches_star_cons p c w :
  Matches ic (Star p) (c :: w) →
  ∃ u v, w = u ++ v ∧ Matches ic p (c :: u) ∧ Matches ic (Star p) v.
Proof.
  intros H. remember (Star p) as r eqn:Hr. remember (c :: w) as x eqn:Hx.
  revert w Hx. induction H; intros w Hx; try discriminate.
  injection Hr as ->. destruct u as [|c' u].
  - simpl in Hx. subst v. apply IHMatches2; done.
  - simpl in Hx. injection Hx as -> <-. eauto.
Qed.

Lemma after_sound p : ∀ c w, Matches ic (after ic c p) w → Matches ic p (c :: w).
Proof.
  induction p; simpl; intros c w H.
  - inversion H.
  - inversion H.
  - destruct (accepts ic cs c) eqn:E; inversion H; subst. by constructor.
  - destruct (nullable p1) eqn:E.
    + apply Matches_alt_inv in H as [H|H].
      * apply Matches_cat_inv in H as (u & v & -> & Hu & Hv).
        change (c :: u ++ v) with ((c :: u) ++ v). constructor; auto.
      * change (c :: w) with ([] ++ c :: w).
        constructor; auto using nullable_Matches_nil.
    + apply Matches_cat_inv in H as (u & v & -> & Hu & Hv).
      change (c :: u ++ v) with ((c :: u) ++ v). constructor; auto.
  - apply Matches_alt_inv in H as [H|H]; [apply M_alt_l | apply M_alt_r]; auto.
  - apply Matches_cat_inv in H as (u & v & -> & Hu & Hv).
    change (c :: u ++ v) with ((c :: u) ++ v). constructor; auto.
Qed.

Lemma after_complete p : ∀ c w, Matches ic p (c :: w) → Matches ic (after ic c p) w.
Proof.
  induction p; simpl; intros c w H.
  - inversion H.
  - inversion H.
  - apply Matches_chr_inv in H as (c' & [= -> ->] & ->). constructor.
  - apply Matches_cat_inv in H as (u & v & Hw & Hu & Hv).
    destruct u as [|c' u]; simpl in Hw.
    + subst v. rewrite (Matches_nil_nullable _ Hu). apply M_alt_r; auto.
    + injection Hw as <- ->.
      destruct (nullable p1); [apply M_alt_l|]; constructor; auto.
  - apply Matches_alt_inv in H as [H|H]; [apply M_alt_l | apply M_alt_r]; auto.
  - apply Matches_star_cons in H as (u & v & -> & Hu & Hv). constructor; auto.
Qed.

Lemma run_Matches w : ∀ p, run ic p w = true ↔ Matches ic p w.
Proof.
  induction w as [|c w IH]; intros p; simpl.
  - split; auto using Matches_nil_nullable, nullable_Matches_nil.
  - rewrite IH. split; auto using after_sound, after_complete.
Qed.
End RegExpFacts.

Lemma test_FullMatch re s : RegExp.test re s = true ↔ RegExp.FullMatch re s.
Proof. apply run_Matches. Qed.

(** ** Characters and strings *)

Lemma all_ascii_complete (P : ascii → bool) :
  forallb P Js.all_ascii = true → ∀ c, P c = true.
Proof.
  intros H c. rewrite forallb_forall in H. apply H.
  rewrite <- (ascii_nat_embedding c). unfold Js.all_ascii.
  apply in_map, in_seq. pose proof (nat_ascii_bounded c). lia.
Qed.

Lemma accepts_Lit a c :
  RegExp.accepts true (RegExp.Lit a) c = true ↔ Js.upper c = Js.upper a.
Proof.
  revert c. revert a.
  assert (H : ∀ a c, eqb (RegExp.accepts true (RegExp.Lit a) c)
                         (bool_decide (Js.upper c = Js.upper a)) = true).
  { intros a. apply (all_ascii_complete (λ c, eqb _ _)). revert a.
    apply (all_ascii_complete (λ a, forallb _ _)). vm_compute. reflexivity. }
  intros a c. specialize (H a c). apply eqb_prop in H. rewrite H.
  apply bool_decide_eq_true.
Qed.

Lemma accepts_Digit c : RegExp.accepts true RegExp.Digit c = Js.is_digit c.
Proof.
  apply eqb_prop. revert c. apply (all_ascii_complete (λ c, eqb _ _)).
  vm_compute. reflexivity.
Qed.

Lemma accepts_Word c : RegExp.accepts true RegExp.Word c = Accession.is_word c.
Proof.
  apply eqb_prop. revert c. apply (all_ascii_complete (λ c, eqb _ _)).
  vm_compute. reflexivity.
Qed.

Lemma accepts_A_Z c :
  RegExp.accepts true (RegExp.Range "A" "Z") c = Accession.is_letter c.
Proof.
  apply eqb_prop. revert c. apply (all_ascii_complete (λ c, eqb _ _)).
  vm_compute. reflexivity.
Qed.

Lemma accepts_EDN c :
  RegExp.accepts true (RegExp.OneOf ["E"; "D"; "N"]%char) c = true
  ↔ Js.upper c ∈ ["E"; "D"; "N"]%char.
Proof.
  assert (H : eqb (RegExp.accepts true (RegExp.OneOf ["E"; "D"; "N"]%char) c)
                  (bool_decide (Js.upper c ∈ ["E"; "D"; "N"]%char)) = true).
  { revert c. apply (all_ascii_complete (λ c, eqb _ _)). vm_compute. reflexivity. }
  apply eqb_prop in H. rewrite H. apply bool_decide_eq_true.
Qed.

Lemma chars_app a b :
  list_ascii_of_string (a +:+ b) = list_ascii_of_string a ++ list_ascii_of_string b.
Proof. induction a as [|c a IH]; simpl; [done | by rewrite IH]. Qed.

Lemma chars_toUpperCase s :
  list_ascii_of_string (Js.toUpperCase s) = Js.upper <$> list_ascii_of_string s.
Proof. induction s as [|c s IH]; simpl; [done | by rewrite IH]. Qed.

Lemma chars_inj a b : list_ascii_of_string a = list_ascii_of_string b → a = b.
Proof.
  intros H. rewrite <- (string_of_list_ascii_of_string a),
    <- (string_of_list_ascii_of_string b). by rewrite H.
Qed.

Lemma chars_length s : length (list_ascii_of_string s) = String.length s.
Proof. induction s as [|c s IH]; simpl; [done | by rewrite IH]. Qed.

Lemma spells_chars t p :
  Accession.spells t p
  ↔ Js.upper <$> list_ascii_of_string p = Js.upper <$> list_ascii_of_string t.
Proof.
  unfold Accession.spells. rewrite <- !chars_toUpperCase. split.
  - by intros ->.
  - apply chars_inj.
Qed.

(** ** The words of the pieces the accession patterns are made of *)

Section Shapes.
Import RegExp.
Local Abbreviation M := (Matches true).

Lemma Matches_cat_iff p q w :
  M (Cat p q) w ↔ ∃ u v, w = u ++ v ∧ M p u ∧ M q v.
Proof.
  split; [apply Matches_cat_inv|]. intros (u & v & -> & Hu & Hv). by constructor.
Qed.

Lemma Matches_eps_iff w : M Eps w ↔ w = [].
Proof. split; [by inversion 1 | intros ->; constructor]. Qed.

Lemma Matches_chr_iff cs w : M (Chr cs) w ↔ ∃ c, w = [c] ∧ accepts true cs c = true.
Proof.
  split; [apply Matches_chr_inv|]. intros (c & -> & Hc). by constructor.
Qed.

(** A set followed by [q]. *)
Lemma Matches_chr_cat cs q w :
  M (Cat (Chr cs) q) w ↔ ∃ c r, w = c :: r ∧ accepts true cs c = true ∧ M q r.
Proof.
  rewrite Matches_cat_iff. split.
  - intros (u & v & -> & Hu & Hv).
    apply Matches_chr_iff in Hu as (c & -> & Hc). eauto.
  - intros (c & r & -> & Hc & Hr). exists [c], r.
    rewrite Matches_chr_iff. eauto.
Qed.

(** Literal text followed by [q]. *)
Lemma Matches_lit_cat t : ∀ q w,
  M (Cat (lit t) q) w
  ↔ ∃ p r, w = p ++ r
           ∧ Js.upper <$> p = Js.upper <$> list_ascii_of_string t ∧ M q r.
Proof.
  induction t as [|a t IH]; intros q w; csimpl.
  - rewrite Matches_cat_iff. split.
    + intros (u & v & -> & Hu & Hv). apply Matches_eps_iff in Hu as ->.
      by exists [], v.
    + intros (p & r & -> & Hp & Hr). apply fmap_nil_inv in Hp as ->.
      exists [], r. rewrite Matches_eps_iff. done.
  - split.
    + intros H. apply Matches_cat_iff in H as (u & v & -> & Hu & Hv).
      apply Matches_chr_cat in Hu as (c & r & -> & Hc & Hr).
      assert (Hrv : M (Cat (lit t) q) (r ++ v)) by by constructor.
      apply IH in Hrv as (p & r' & Heq & Hp & Hr').
      exists (c :: p), r'. csimpl. rewrite Heq.
      apply accepts_Lit in Hc. rewrite Hc, Hp. done.
    + intros (p & r & -> & Hp & Hr). destruct p as [|c p]; [done|].
      csimpl in Hp. injection Hp as Hc Hp.
      assert (Hpr : M (Cat (lit t) q) (p ++ r)) by (apply IH; eauto).
      apply Matches_cat_iff in Hpr as (u & v & Heq & Hu & Hv).
      csimpl. rewrite Heq. change (c :: u ++ v) with ((c :: u) ++ v).
      constructor; [|done]. apply Matches_chr_cat. exists c, u.
      by rewrite accepts_Lit.
Qed.

Lemma Matches_star_chr cs w :
  M (Star (Chr cs)) w ↔ Forall (λ c, accepts true cs c = true) w.
Proof.
  split.
  - intros H. remember (Star (Chr cs)) as r eqn:Hr.
    induction H; try discriminate; [constructor|].
    injection Hr as ->. apply Matches_chr_iff in H as (c & -> & Hc).
    constructor; auto.
  - induction 1 as [|c w Hc _ IH]; [constructor|].
    change (c :: w) with ([c] ++ w). constructor; [by constructor | done].
Qed.

(** [\d+]. *)
Lemma Matches_digits w :
  M BioStudiesApiClient.digits w
  ↔ w ≠ [] ∧ Forall (λ c, Js.is_digit c = true) w.
Proof.
  unfold BioStudiesApiClient.digits, plus. rewrite Matches_chr_cat.
  setoid_rewrite Matches_star_chr. setoid_rewrite accepts_Digit. split.
  - intros (c & r & -> & Hc & Hr). split; [done | by constructor].
  - intros [Hne H]. destruct H as [|c r Hc Hr]; [done|]. eauto.
Qed.

(** [cs{n}] followed by [q]. *)
Lemma Matches_times_cat cs n : ∀ q w,
  M (Cat (times n (Chr cs)) q) w
  ↔ ∃ x r, w = x ++ r ∧ length x = n
           ∧ Forall (λ c, accepts true cs c = true) x ∧ M q r.
Proof.
  induction n as [|n IH]; intros q w; simpl.
  - rewrite Matches_cat_iff. split.
    + intros (u & v & -> & Hu & Hv). apply Matches_eps_iff in Hu as ->.
      by exists [], v.
    + intros (x & r & -> & Hx & _ & Hr). apply nil_length_inv in Hx as ->.
      exists [], r. by rewrite Matches_eps_iff.
  - split.
    + intros H. apply Matches_cat_iff in H as (u & v & -> & Hu & Hv).
      apply Matches_chr_cat in Hu as (c & r & -> & Hc & Hr).
      assert (Hrv : M (Cat (times n (Chr cs)) q) (r ++ v)) by by constructor.
      apply IH in Hrv as (x & r' & Heq & Hx & Hall & Hr').
      exists (c :: x), r'. simpl. rewrite Heq, Hx. auto.
    + intros (x & r & -> & Hx & Hall & Hr). destruct x as [|c x]; [done|].
      simpl in Hx. injection Hx as Hx. inversion Hall; subst.
      assert (Hxr : M (Cat (times (length x) (Chr cs)) q) (x ++ r))
        by (apply IH; eauto 10).
      apply Matches_cat_iff in Hxr as (u & v & Heq & Hu & Hv).
      simpl. rewrite Heq. change (c :: u ++ v) with ((c :: u) ++ v).
      constructor; [|done]. apply Matches_chr_cat. eauto.
Qed.
End Shapes.

(** ** The six accession patterns *)

Section Families.
Import RegExp.

Let re (p : Pattern) : RegExp.t := {| source := p; ignoreCase := true |}.

Lemma digits_chars d :
  Accession.digits d
  ↔ list_ascii_of_string d ≠ []
    ∧ Forall (λ c, Js.is_digit c = true) (list_ascii_of_string d).
Proof.
  unfold Accession.digits, Accession.all. split; intros [Hne H]; split; try done.
  - intros Hnil. apply Hne. by destruct d.
  - intros ->. by apply Hne.
Qed.

Lemma chars_of l : list_ascii_of_string (string_of_list_ascii l) = l.
Proof. apply list_ascii_of_string_of_list_ascii. Qed.

(** [/^t\d+$/i]. *)
Lemma FullMatch_prefix_digits t s :
  FullMatch (re (Cat (lit t) BioStudiesApiClient.digits)) s
  ↔ ∃ p d, s = p +:+ d ∧ Accession.spells t p ∧ Accession.digits d.
Proof.
  unfold FullMatch; simpl. rewrite Matches_lit_cat.
  setoid_rewrite Matches_digits. split.
  - intros (p & r & Hs & Hp & Hr).
    exists (string_of_list_ascii p), (string_of_list_ascii r).
    rewrite spells_chars, digits_chars, !chars_of. split; [|done].
    apply chars_inj. by rewrite chars_app, !chars_of.
  - intros (p & d & -> & Hp & Hd).
    exists (list_ascii_of_string p), (list_ascii_of_string d).
    rewrite chars_app. by rewrite <- spells_chars, <- digits_chars.
Qed.

Lemma upper_hyphen c : Js.upper c = "-"%char → c = "-"%char.
Proof.
  assert (H : implb (bool_decide (Js.upper c = "-"%char))
                    (bool_decide (c = "-"%char)) = true).
  { revert c. apply (all_ascii_complete (λ c, implb _ _)).
    vm_compute. reflexivity. }
  intros Hc. rewrite (bool_decide_eq_true_2 _ Hc) in H.
  by apply bool_decide_eq_true_1 in H.
Qed.

(** [/^E-\w{4}-\d+$/i]. *)
Lemma FullMatch_ArrayExpress s :
  FullMatch (re (Cat (lit "E-")
                   (Cat (times 4 (Chr Word))
                      (Cat (lit "-") BioStudiesApiClient.digits)))) s
  ↔ ∃ p w d, s = p +:+ w +:+ "-" +:+ d ∧ Accession.spells "E-" p
             ∧ String.length w = 4 ∧ Accession.all Accession.is_word w
             ∧ Accession.digits d.
Proof.
  unfold FullMatch, re; cbn [source ignoreCase]. split.
  - intros H. apply Matches_lit_cat in H as (p & r & Hs & Hp & H).
    apply Matches_times_cat in H as (x & r2 & -> & Hx & Hall & H).
    apply Matches_lit_cat in H as (h & d & -> & Hh & Hd).
    apply Matches_digits in Hd as [Hne Hd].
    destruct h as [|c [|c' h]]; try done. csimpl in Hh. injection Hh as Hh.
    apply upper_hyphen in Hh as ->.
    exists (string_of_list_ascii p), (string_of_list_ascii x),
      (string_of_list_ascii d).
    rewrite spells_chars, digits_chars, <- chars_length. unfold Accession.all.
    rewrite !chars_of. repeat split; try done.
    + apply chars_inj. by rewrite !chars_app, !chars_of.
    + eapply Forall_impl; [exact Hall|]. intros c; cbv beta.
      by rewrite accepts_Word.
  - intros (p & w & d & -> & Hp & Hw & Hall & Hd).
    apply Matches_lit_cat.
    exists (list_ascii_of_string p),
      (list_ascii_of_string w ++ ["-"%char] ++ list_ascii_of_string d).
    rewrite !chars_app. rewrite <- spells_chars. repeat split; try done.
    apply Matches_times_cat.
    exists (list_ascii_of_string w), (["-"%char] ++ list_ascii_of_string d).
    rewrite chars_length. repeat split; try done.
    + eapply Forall_impl; [exact Hall|]. intros c; cbv beta.
      by rewrite accepts_Word.
    + apply Matches_lit_cat.
      exists ["-"%char], (list_ascii_of_string d).
      by rewrite Matches_digits, <- digits_chars.
Qed.

(** [/^PRJ[EDN][A-Z]\d+$/i]. *)
Lemma FullMatch_Project s :
  FullMatch (re (Cat (lit "PRJ")
                   (Cat (Chr (OneOf ["E"; "D"; "N"]%char))
                      (Cat (Chr (Range "A" "Z")) BioStudiesApiClient.digits)))) s
  ↔ ∃ p a b d, s = p +:+ String a (String b d) ∧ Accession.spells "PRJ" p
               ∧ Js.upper a ∈ ["E"; "D"; "N"]%char
               ∧ Accession.is_letter b = true ∧ Accession.digits d.
Proof.
  unfold FullMatch, re; cbn [source ignoreCase]. split.
  - intros H. apply Matches_lit_cat in H as (p & r & Hs & Hp & H).
    apply Matches_chr_cat in H as (a & r1 & -> & Ha & H).
    apply Matches_chr_cat in H as (b & d & -> & Hb & Hd).
    apply Matches_digits in Hd as [Hne Hd].
    exists (string_of_list_ascii p), a, b, (string_of_list_ascii d).
    rewrite spells_chars, digits_chars, !chars_of.
    rewrite accepts_EDN in Ha. rewrite accepts_A_Z in Hb.
    repeat split; try done.
    apply chars_inj. rewrite chars_app. simpl. by rewrite !chars_of.
  - intros (p & a & b & d & -> & Hp & Ha & Hb & Hd).
    apply Matches_lit_cat.
    exists (list_ascii_of_string p), (a :: b :: list_ascii_of_string d).
    rewrite chars_app.
    change (list_ascii_of_string (String a (String b d)))
      with (a :: b :: list_ascii_of_string d).
    rewrite <- spells_chars. repeat split; try done.
    apply Matches_chr_cat.
    exists a, (b :: list_ascii_of_string d). rewrite accepts_EDN.
    repeat split; try done.
    apply Matches_chr_cat.
    exists b, (list_ascii_of_string d). rewrite accepts_A_Z.
    by rewrite Matches_digits, <- digits_chars.
Qed.
End Families.

Lemma WellFormed_nonempty s : Accession.WellFormed s → s ≠ EmptyString.
Proof.
  assert (Hd : ∀ p d, Accession.digits d → p +:+ d ≠ EmptyString).
  { intros p d [Hne _] H. destruct p; simpl in H; [done | discriminate]. }
  intros W.
  destruct W as [p d _ Hdig | p w d _ _ _ Hdig | p d _ Hdig | p d _ Hdig
                | p d _ Hdig | p a b d _ _ _ Hdig]; auto.
  - intros E. destruct p; simpl in E; [|discriminate].
    destruct w; simpl in E; discriminate.
  - intros E. destruct p; simpl in E; discriminate.
Qed.

(** C3: [isValidAccessionNumber] returns [true] for exactly the strings that,
    as a whole and up to the case of their letters, have the shape of one of
    the six accession families; it returns [false] for every other value,
    among them [null], [undefined], the values that are no strings and the
    empty string.  It is a total function: it returns on every input. *)
Theorem isValidAccessionNumber_WellFormed (accno : Js.Value) :
  BioStudiesApiClient.isValidAccessionNumber accno = true
  ↔ ∃ s, accno = Js.Str s ∧ Accession.WellFormed s.
Proof.
  assert (Hs : ∀ s,
    existsb (λ pattern, RegExp.test pattern s) BioStudiesApiClient.patterns = true
    ↔ Accession.WellFormed s).
  { intros s. unfold BioStudiesApiClient.patterns. cbn [existsb].
    rewrite !orb_true_iff, !test_FullMatch, !FullMatch_prefix_digits,
      FullMatch_ArrayExpress, FullMatch_Project. split.
    - intros [H|[H|[H|[H|[H|[H|H]]]]]]; [ | | | | | | done].
      + destruct H as (p & d & -> & ? & ?). by apply Accession.BioStudies.
      + destruct H as (p & w & d & -> & ? & ? & ? & ?).
        by apply Accession.ArrayExpress.
      + destruct H as (p & d & -> & ? & ?). by apply Accession.Empiar.
      + destruct H as (p & d & -> & ? & ?). by apply Accession.BioImages.
      + destruct H as (p & d & -> & ? & ?). by apply Accession.BioSamples.
      + destruct H as (p & a & b & d & -> & ? & ? & ? & ?).
        by apply Accession.Project.
    - destruct 1;
        [ left | right; left | do 2 right; left | do 3 right; left
        | do 4 right; left | do 5 right; left ]; eauto 10. }
  unfold BioStudiesApiClient.isValidAccessionNumber.
  destruct accno as [| | b | z | s |];
    try (cbn [Js.is_string negb]; rewrite orb_true_r;
         split; [done | by intros (s' & [=] & _)]).
  destruct s as [|c s].
  - simpl. split; [done|]. intros (s' & [= <-] & H).
    by apply WellFormed_nonempty in H.
  - cbn [Js.falsy Js.is_string orb negb]. rewrite Hs. split; [eauto|].
    by intros (s' & [= <-] & H).
Qed.

(** ** The client: validation before any request *)

Section ClientFacts.
Import BioStudiesApiClient.
Variable up : Upstream.

Lemma makeRequest_run {T} (server : Server T) endpoint method body w :
  makeRequest server endpoint method body w
  = (respond (server (length (sent w)) (requestOf (this w) endpoint method body)),
     {| this := this w;
        sent := sent w ++ [requestOf (this w) endpoint method body] |}).
Proof. reflexivity. Qed.

(** C5: each of [getStudyDetails], [getStudyFiles] and [getStudyLinks]
    answers an accession the validator rejects with a failure of status 400
    and the invalid-format message, and leaves the client and the list of
    requests sent as they were; for an accession the validator accepts it
    sends exactly one request, to its own endpoint, and returns what
    [makeRequest] makes of the answer. *)
Theorem accession_methods_validate_first (accno : string) (w : World) :
  let sends {T} (server : Server T) (path : string)
          (run : ApiResponse T * World) : Prop :=
    let request :=
      requestOf (this w) {| path := path; search := [] |} None None in
    run = (respond (server (length (sent w)) request),
           {| this := this w; sent := sent w ++ [request] |}) in
  let rejects {T} (run : ApiResponse T * World) : Prop :=
    run = (failure ("Invalid accession number format: " +:+ accno) 400, w) in
  if isValidAccessionNumber (Js.Str accno)
  then sends (studies up) ("/studies/" +:+ accno) (getStudyDetails up accno w)
       ∧ sends (studyFiles up) ("/studies/" +:+ accno +:+ "/files")
           (getStudyFiles up accno w)
       ∧ sends (studyLinks up) ("/studies/" +:+ accno +:+ "/links")
           (getStudyLinks up accno w)
  else rejects (getStudyDetails up accno w)
       ∧ rejects (getStudyFiles up accno w)
       ∧ rejects (getStudyLinks up accno w).
Proof.
  cbv zeta. unfold getStudyDetails, getStudyFiles, getStudyLinks.
  destruct (isValidAccessionNumber (Js.Str accno)); cbn [negb].
  - by rewrite !makeRequest_run.
  - done.
Qed.
End ClientFacts.

(** ** The [Io] monad *)

Lemma Io_bind_run {A B} (m : Io A) (f : A → Io B) w :
  (m ≫= f) w = f (m w).1 (m w).2.
Proof. unfold mbind, Io_bind. by destruct (m w). Qed.

Lemma Io_ret_run {A} (a : A) w : (mret a : Io A) w = (a, w).
Proof. reflexivity. Qed.

Lemma Io_mapM_nil {A B} (f : A → Io B) w : mapM f [] w = ([], w).
Proof. reflexivity. Qed.

Lemma Io_mapM_cons {A B} (f : A → Io B) x l w :
  mapM f (x :: l) w
  = ((f x w).1 :: (mapM f l (f x w).2).1, (mapM f l (f x w).2).2).
Proof.
  cbn [mapM]. rewrite Io_bind_run, Io_bind_run. reflexivity.
Qed.

(** ** What [makeRequest] makes of an answer *)

Section RespondFacts.
Import BioStudiesApiClient.
Context {T : Type}.

(** A 2xx response is a success that carries the body; anything else is a
    failure that carries no data. *)
Lemma respond_delivered (wire : Wire T) :
  delivered wire = true → error (respond wire) = None.
Proof.
  destruct wire as [st txt body| | |]; try done. simpl. unfold ok.
  by intros ->.
Qed.

Lemma respond_undelivered (wire : Wire T) :
  delivered wire = false →
  data (respond wire) = None ∧ is_Some (error (respond wire)).
Proof.
  destruct wire as [st txt body| | |]; simpl; unfold ok; eauto.
  intros ->. simpl. eauto.
Qed.

(** The message of a failure is never empty, unless the thrown [Error]
    had an empty message. *)
Lemma respond_undelivered_truthy (wire : Wire T) :
  delivered wire = false → wire ≠ OtherError "" →
  Js.truthy (error (respond wire)) = true.
Proof.
  destruct wire as [st txt body| | msg |]; simpl; unfold ok; try done.
  - intros -> _. simpl.
    destruct (truthy_data _); [|done].
    unfold Js.or_default, Js.or_else.
    destruct (Js.truthy (message_of _)) eqn:E.
    + destruct (message_of _) as [[]|]; done.
    + destruct (error_of _) as [[]|]; done.
  - intros _ Hmsg. destruct msg; [done|done].
Qed.

(** A fetch succeeds exactly when it is answered with a 2xx response. *)
Lemma succeeded_delivered (wire : Wire T) :
  BatchSpec.succeeded (respond wire) = delivered wire.
Proof.
  unfold BatchSpec.succeeded. destruct (delivered wire) eqn:Hd.
  - by rewrite (respond_delivered _ Hd).
  - destruct (respond_undelivered _ Hd) as [_ [e ->]]. done.
Qed.

(** The code tests the message of the failure instead: a failure whose
    message is empty passes for a success. *)
Lemma truthy_error_succeeded (r : ApiResponse T) :
  error r ≠ Some "" →
  negb (Js.truthy (error r)) = BatchSpec.succeeded r.
Proof.
  unfold BatchSpec.succeeded. by destruct (error r) as [[|a e]|].
Qed.

(** A response of status 404 is a failure of status 404. *)
Lemma respond_404 statusText (body : Body T) :
  Js.truthy (error (respond (Response 404 statusText body))) = true
  ∧ status (respond (Response 404 statusText body)) = 404%Z.
Proof.
  split; [by apply respond_undelivered_truthy|done].
Qed.
End RespondFacts.

(** ** [authenticate] and [validateStudyAccession] *)

Section SessionFacts.
Import BioStudiesApiClient.
Variable up : Upstream.

(** C10: [authenticate] changes [authToken] only when the payload of the
    response has a [token] member, and then to that token; after a failed
    response, or one whose payload has no token, [authToken] is what it
    was; [baseUrl] and [defaultTimeout] are never changed. *)
Theorem authenticate_frame (credentials : AuthCredentials) (w : World) :
  let result := (authenticate up credentials w).1 in
  let w' := (authenticate up credentials w).2 in
  baseUrl (this w') = baseUrl (this w)
  ∧ defaultTimeout (this w') = defaultTimeout (this w)
  ∧ (authToken (this w') ≠ authToken (this w) →
     ∃ t, member token (data result) = Some t ∧ authToken (this w') = Some t)
  ∧ (is_Some (error result) ∨ member token (data result) = None →
     authToken (this w') = authToken (this w)).
Proof.
  cbv zeta. unfold authenticate. rewrite Io_bind_run, makeRequest_run.
  cbn [fst snd].
  set (wire := authLogin up _ _).
  assert (Hfail : is_Some (error (respond wire)) →
                  member token (data (respond wire)) = None).
  { intros He. destruct (delivered wire) eqn:Hd.
    - rewrite (respond_delivered _ Hd) in He. by destruct He.
    - by destruct (respond_undelivered _ Hd) as [-> _]. }
  destruct (member token (data (respond wire))) as [[|a t]|] eqn:Htok.
  - cbn. split; [done|]. split; [done|]. split; [by intros []|done].
  - rewrite Io_bind_run. unfold mret, Io_ret, set_authToken. cbn.
    split; [done|]. split; [done|].
    split; [eauto|]. intros [He|He]; [by apply Hfail in He | congruence].
  - cbn. split; [done|]. split; [done|]. split; [by intros []|done].
Qed.

(** C9: [validateStudyAccession] always returns a success of status 200
    that carries a verdict, never an error.  For an accession of invalid
    format the verdict is [isValid = false], [exists = false], and nothing is
    sent.  For one of valid format whose lookup is not answered with a 2xx
    response (an HTTP error, a timeout, a transport failure) the verdict is
    [isValid = true], [exists = false] with no other member set, whatever
    the failure was: an outage and a missing study give the same result. *)
Theorem validateStudyAccession_never_fails (accno : string) (w : World) :
  let result := (validateStudyAccession up accno w).1 in
  let w' := (validateStudyAccession up accno w).2 in
  let wire :=
    studies up (length (sent w))
      (requestOf (this w) {| path := "/studies/" +:+ accno; search := [] |}
         None None) in
  let verdict (valid : bool) : StudyValidation :=
    {| v_accno := accno; isValid := valid; exists_ := false;
       v_isPublic := None; v_collection := None; v_title := None |} in
  error result = None ∧ status result = 200%Z
  ∧ (∃ v, data result = Some (Parsed v) ∧ v_accno v = accno
          ∧ isValid v = isValidAccessionNumber (Js.Str accno))
  ∧ (if isValidAccessionNumber (Js.Str accno)
     then delivered wire = false →
          result = success (Some (Parsed (verdict true))) 200
     else result = success (Some (Parsed (verdict false))) 200 ∧ w' = w).
Proof.
  cbv zeta. unfold validateStudyAccession, getStudyDetails. cbn [isValid].
  destruct (isValidAccessionNumber (Js.Str accno)) eqn:Hvalid; cbn [negb].
  - rewrite Io_bind_run, makeRequest_run. cbn [fst snd].
    set (wire := studies up _ _). rewrite Io_ret_run. cbn [fst snd].
    split; [done|]. split; [done|]. split; [eauto|].
    intros Hd. destruct (respond_undelivered _ Hd) as [-> _].
    cbn. by rewrite andb_false_r.
  - rewrite Io_ret_run. cbn. eauto 10.
Qed.
End SessionFacts.

(** ** [Promise.allSettled]: the result does not depend on the order of
    completion *)

Section AllSettled.
Import BioStudiesApiClient.
Context {A : Type}.
Implicit Types (promises : list A) (slots : list (option A)) (order : list nat).

Lemma length_settle promises slots i :
  length (settle promises slots i) = length slots.
Proof. unfold settle. destruct (promises !! i); [apply length_insert | done]. Qed.

(** After the promises of [order] have settled, a slot named in [order]
    holds the value of its promise and any other slot is as before. *)
Lemma settle_foldl_lookup promises order : ∀ slots i,
  length slots = length promises →
  foldl (settle promises) slots order !! i
  = if decide (i ∈ order) then Some <$> promises !! i else slots !! i.
Proof.
  induction order as [|j order IH]; intros slots i Hlen; cbn [foldl].
  - by rewrite decide_False by apply not_elem_of_nil.
  - rewrite IH by by rewrite length_settle.
    destruct (decide (i ∈ order)) as [Hin|Hnin].
    + by rewrite decide_True by by right.
    + unfold settle. destruct (decide (i = j)) as [->|Hne].
      * rewrite decide_True by by left.
        destruct (promises !! j) as [r|] eqn:Hj.
        -- apply list_lookup_insert_eq. rewrite Hlen.
           by eapply lookup_lt_Some.
        -- apply lookup_ge_None. rewrite Hlen. by apply lookup_ge_None.
      * rewrite decide_False by (intros [?|?]%elem_of_cons; done).
        destruct (promises !! j); [by apply list_lookup_insert_ne | done].
Qed.

Lemma allSettled_all promises order :
  (∀ i, i < length promises → i ∈ order) →
  allSettled order promises = Some promises.
Proof.
  intros Hall. unfold allSettled.
  replace (foldl _ _ order) with (Some <$> promises).
  { by apply mapM_fmap_Some. }
  apply list_eq; intros i.
  rewrite settle_foldl_lookup by by rewrite length_replicate.
  rewrite list_lookup_fmap. destruct (decide (i ∈ order)) as [|Hnin]; [done|].
  destruct (decide (i < length promises)) as [Hlt|Hge]; [by apply Hall in Hlt|].
  rewrite (lookup_ge_None_2 promises i) by lia.
  symmetry. apply lookup_replicate_None. lia.
Qed.

Lemma allSettled_permutation promises order :
  order ≡ₚ seq 0 (length promises) →
  allSettled order promises = Some promises.
Proof.
  intros Hperm. apply allSettled_all. intros i Hi. rewrite Hperm.
  apply elem_of_seq. lia.
Qed.
End AllSettled.

(** ** [batchGetStudies] *)

Section BatchFacts.
Import BioStudiesApiClient BatchSpec.
Variable up : Upstream.

(** How the promise of one accession settles, given what its fetch
    returned. *)
Definition settledOf (ar : string * ApiResponse StudyDetails) : Settled :=
  match error ar.2 with
  | Some (String a s) =>
      Rejected {| Js.name := "Error"; Js.message := String a s |}
  | _ => Fulfilled ar.1
  end.

Lemma mapM_length_Io {X B} (f : X → Io B) l : ∀ w,
  length (mapM f l w).1 = length l.
Proof.
  induction l as [|x l IH]; intros w; [done|].
  rewrite Io_mapM_cons. cbn. by rewrite IH.
Qed.

Lemma mapM_fetchOne accessions : ∀ w,
  mapM (fetchOne up) accessions w
  = (settledOf <$> zip accessions (mapM (getStudyDetails up) accessions w).1,
     (mapM (getStudyDetails up) accessions w).2).
Proof.
  induction accessions as [|a l IH]; intros w; [done|].
  rewrite !Io_mapM_cons. cbn [fst snd].
  assert (H1 : fetchOne up a w
               = (settledOf (a, (getStudyDetails up a w).1),
                  (getStudyDetails up a w).2)).
  { unfold fetchOne. rewrite Io_bind_run. reflexivity. }
  rewrite H1. cbn [fst snd]. rewrite IH. reflexivity.
Qed.

(** The loop over the settled promises, started at position [length pre]
    of the input. *)
Lemma tally_foldl accessions : ∀ fetched pre acc,
  accessions = pre ++ fetched.*1 →
  Forall (λ ar, error ar.2 ≠ Some "") fetched →
  foldl (tally accessions) acc
    (imap (λ i, pair (length pre + i)) (settledOf <$> fetched))
  = (acc.1 ++ successfulOf fetched, acc.2 ++ failedOf fetched).
Proof.
  induction fetched as [|[a r] fetched IH]; intros pre acc Hacc Hmsg.
  - cbn. by rewrite !app_nil_r, <- surjective_pairing.
  - rewrite fmap_cons in Hacc. cbn [fst] in Hacc.
    apply Forall_cons in Hmsg as [Hr Hmsg]. cbn [snd] in Hr.
    rewrite fmap_cons, imap_cons. cbn [foldl].
    assert (Ha : accessions !! (length pre + 0) = Some a).
    { rewrite Hacc, Nat.add_0_r. by rewrite list_lookup_middle. }
    rewrite (imap_ext _ (λ i, pair (length (pre ++ [a]) + i))); last first.
    { intros i x _. cbn. rewrite length_app. cbn. f_equal. lia. }
    rewrite IH; [|by rewrite Hacc, <- app_assoc|done].
    unfold tally at 1 2. cbn [fst snd]. rewrite Ha. cbn [default].
    unfold successfulOf, failedOf, succeeded, settledOf. cbn [omap fst snd].
    destruct r as [d [[|c e]|] st]; cbn; cbn in Hr; try done;
      by rewrite <- ?app_assoc.
Qed.

Lemma successfulOf_sublist {T} (fetched : list (string * ApiResponse T)) :
  successfulOf fetched `sublist_of` fetched.*1.
Proof.
  induction fetched as [|[a r] l IH]; [constructor|].
  unfold successfulOf. cbn. destruct (succeeded r); by constructor.
Qed.

Lemma failedOf_sublist {T} (fetched : list (string * ApiResponse T)) :
  f_accno <$> failedOf fetched `sublist_of` fetched.*1.
Proof.
  induction fetched as [|[a r] l IH]; [constructor|].
  unfold failedOf. cbn. destruct (succeeded r); by constructor.
Qed.

Lemma batch_partition {T} (fetched : list (string * ApiResponse T)) :
  successfulOf fetched ++ (f_accno <$> failedOf fetched) ≡ₚ fetched.*1.
Proof.
  induction fetched as [|[a r] l IH]; [done|].
  unfold successfulOf, failedOf. cbn. destruct (succeeded r); cbn.
  - by constructor.
  - rewrite <- Permutation_middle. by constructor.
Qed.

Lemma batch_lengths {T} (fetched : list (string * ApiResponse T)) :
  length (successfulOf fetched) + length (failedOf fetched) = length fetched.
Proof.
  induction fetched as [|[a r] l IH]; [done|].
  unfold successfulOf, failedOf. cbn. destruct (succeeded r); cbn;
    unfold successfulOf, failedOf in IH; lia.
Qed.

(** For 1 to 50 accessions none of whose fetches fails with an empty
    message, and whatever the order in which the fetches complete,
    [batchGetStudies] returns a success of status 200 whose result lists
    every accession once: under [successful] when its own fetch succeeded,
    under [failed] with the message of the failure otherwise, both in the
    order of the input; [total] is the length of the input, the two counts
    are the lengths of the two lists and add up to [total].  The requests
    sent are those of fetching each accession in turn. *)
Lemma batchGetStudies_partitions (order : list nat)
    (accessions : list string) (w : World) :
  1 ≤ length accessions ≤ 50 →
  order ≡ₚ seq 0 (length accessions) →
  Forall (λ r, error r ≠ Some "") (mapM (getStudyDetails up) accessions w).1 →
  let fetches := mapM (getStudyDetails up) accessions w in
  let fetched := zip accessions fetches.1 in
  ∃ r,
    batchGetStudies up order accessions w
    = (Some (success (Some (Parsed r)) 200), fetches.2)
    ∧ fetched.*1 = accessions
    ∧ successful r = successfulOf fetched
    ∧ failed r = failedOf fetched
    ∧ total r = length accessions
    ∧ successCount r = length (successful r)
    ∧ failureCount r = length (failed r)
    ∧ successCount r + failureCount r = total r
    ∧ successful r `sublist_of` accessions
    ∧ f_accno <$> failed r `sublist_of` accessions
    ∧ successful r ++ (f_accno <$> failed r) ≡ₚ accessions.
Proof.
  intros [Hlo Hhi] Hperm Hmsg fetches fetched.
  assert (Hfst : fetched.*1 = accessions).
  { apply fst_zip. unfold fetches. by rewrite mapM_length_Io. }
  assert (Hfetched : Forall (λ ar, error ar.2 ≠ Some "") fetched).
  { apply Forall_forall. intros [a r] Hin. apply elem_of_zip_r in Hin.
    by eapply Forall_forall in Hmsg. }
  assert (Hlen : length fetched = length accessions).
  { transitivity (length fetched.*1); [by rewrite length_fmap | by rewrite Hfst]. }
  exists {| successful := successfulOf fetched; failed := failedOf fetched;
            total := length accessions;
            successCount := length (successfulOf fetched);
            failureCount := length (failedOf fetched) |}.
  cbn [successful failed total successCount failureCount].
  split; [|split; [done|]].
  - unfold batchGetStudies.
    rewrite bool_decide_eq_false_2 by lia.
    rewrite bool_decide_eq_false_2 by lia.
    rewrite Io_bind_run, mapM_fetchOne. cbn [fst snd]. fold fetches fetched.
    rewrite allSettled_permutation; last first.
    { by rewrite length_fmap, Hlen. }
    rewrite Io_ret_run. cbn [mbind option_bind].
    pose proof (tally_foldl accessions fetched [] ([], [])) as Ht.
    cbn [length fst snd app] in Ht.
    rewrite (imap_ext _ pair) in Ht by done.
    rewrite Ht by (by rewrite ?Hfst). reflexivity.
  - repeat split; try done.
    + rewrite batch_lengths. done.
    + rewrite <- Hfst. apply successfulOf_sublist.
    + rewrite <- Hfst. apply failedOf_sublist.
    + rewrite <- Hfst. apply batch_partition.
Qed.

(** C1 (a defect of the code): the claim fails for a fetch that fails with
    an empty message.  When the lookup of a well-formed accession throws an
    [Error] whose message is empty, the fetch is a failure (status 0, the
    empty message, no data), so the specification lists the accession under
    [failed]; [batchGetStudies] lists it under [successful] and counts one
    success and no failure.  The code tests the message of the failure for
    truthiness where it means to test for a failure. *)
Theorem batch_lists_failed_fetch_as_successful (accno : string) (w : World) :
  isValidAccessionNumber (Js.Str accno) = true →
  studies up (length (sent w))
    (requestOf (this w) {| path := "/studies/" +:+ accno; search := [] |}
       None None)
  = OtherError "" →
  let fetch := (getStudyDetails up accno w).1 in
  fetch = failure "" 0
  ∧ succeeded fetch = false
  ∧ successfulOf [(accno, fetch)] = []
  ∧ failedOf [(accno, fetch)] = [ {| f_accno := accno; f_error := "" |} ]
  ∧ (batchGetStudies up [0] [accno] w).1
    = Some (success
              (Some (Parsed {| successful := [accno]; failed := [];
                               total := 1; successCount := 1;
                               failureCount := 0 |}))
              200).
Proof.
  intros Hvalid Hwire fetch.
  assert (Hfetch : fetch = failure "" 0).
  { subst fetch. unfold getStudyDetails. rewrite Hvalid. cbn [negb].
    rewrite makeRequest_run. cbn [fst]. by rewrite Hwire. }
  split; [done|]. rewrite Hfetch. split; [done|]. split; [done|].
  split; [done|].
  unfold batchGetStudies. cbn [length].
  rewrite bool_decide_eq_false_2, bool_decide_eq_false_2 by lia.
  rewrite Io_bind_run, Io_mapM_cons, Io_mapM_nil. cbn [fst snd].
  unfold fetchOne at 1. rewrite Io_bind_run. fold fetch. rewrite Hfetch.
  by rewrite !Io_ret_run.
Qed.

(** C6: given no accession, or more than 50, the tool and the client's
    method both return at once: the tool a fixed advisory text, the client
    an empty result for no accession and a failure of status 400 for more
    than 50.  The world returned is the one received: no request is sent.
    The response depends on nothing but which bound was missed. *)
Theorem batch_outside_bounds_sends_nothing (order : list nat)
    (accessions : list string) (w : World) :
  length accessions = 0 ∨ 50 < length accessions →
  BioStudiesHandlers.batchGetStudies up order
      {| ba_accessions := Some accessions |} w
  = (Some (Js.Returned
             (content (if bool_decide (length accessions = 0)
                       then "No accession numbers provided"
                       else "Maximum 50 studies can be processed at once"))),
     w)
  ∧ batchGetStudies up order accessions w
    = (Some (if bool_decide (length accessions = 0)
             then success
                    (Some (Parsed {| successful := []; failed := [];
                                     total := 0; successCount := 0;
                                     failureCount := 0 |}))
                    200
             else failure "Maximum 50 accessions can be processed at once" 400),
       w).
Proof.
  intros Hlen.
  unfold BioStudiesHandlers.batchGetStudies, batchGetStudies. cbn [ba_accessions].
  destruct (bool_decide (length accessions = 0)) eqn:E0; [done|].
  apply bool_decide_eq_false in E0.
  rewrite bool_decide_eq_true_2 by lia. done.
Qed.
End BatchFacts.

(** The batch of the specification: three accessions of which the second
    fails, completing in the order third, first, second. *)
Lemma batchGetStudies_partitions_witness :
  let accessions := ["S-BSST1"; "B"; "EMPIAR-10001"] in
  (1 ≤ length accessions ≤ 50)
  ∧ [2; 0; 1] ≡ₚ seq 0 (length accessions)
  ∧ ∃ r, (BioStudiesApiClient.batchGetStudies Sample.up [2; 0; 1] accessions
            Sample.world).1
         = Some (success (Some (Parsed r)) 200)
         ∧ successful r = ["S-BSST1"; "EMPIAR-10001"]
         ∧ failed r = [ {| f_accno := "B";
                           f_error := "Invalid accession number format: B" |} ]
         ∧ total r = 3 ∧ successCount r = 2 ∧ failureCount r = 1.
Proof.
  intros accessions.
  assert (H1 : 1 ≤ length accessions ≤ 50) by (simpl; lia).
  assert (H2 : [2; 0; 1] ≡ₚ seq 0 (length accessions))
    by exact (Permutation_cons_append [0; 1] 2).
  split; [exact H1|]. split; [exact H2|].
  assert (H3 : Forall (λ r : ApiResponse StudyDetails, error r ≠ Some "")
                 (mapM (BioStudiesApiClient.getStudyDetails Sample.up)
                    accessions Sample.world).1)
    by (vm_compute; repeat constructor; discriminate).
  destruct (batchGetStudies_partitions Sample.up [2; 0; 1] accessions
              Sample.world H1 H2 H3)
    as (r & Hrun & _ & Hs & Hf & Ht & Hsc & Hfc & _).
  exists r. rewrite Hrun, Hsc, Hfc, Hs, Hf, Ht. vm_compute. repeat split.
Defined.

(** A batch of one accession whose lookup throws an [Error] without a
    message. *)
Lemma batch_lists_failed_fetch_as_successful_witness :
  (BioStudiesApiClient.getStudyDetails Sample.silent "S-BSST1" Sample.world).1
  = failure "" 0
  ∧ (BioStudiesApiClient.batchGetStudies Sample.silent [0] ["S-BSST1"]
       Sample.world).1
    = Some (success
              (Some (Parsed {| successful := ["S-BSST1"]; failed := [];
                               total := 1; successCount := 1;
                               failureCount := 0 |}))
              200).
Proof.
  assert (H1 : BioStudiesApiClient.isValidAccessionNumber (Js.Str "S-BSST1") = true)
    by reflexivity.
  assert (H2 : studies Sample.silent (length (sent Sample.world))
                 (BioStudiesApiClient.requestOf (this Sample.world)
                    {| path := "/studies/" +:+ "S-BSST1"; search := [] |}
                    None None)
               = OtherError "") by reflexivity.
  destruct (batch_lists_failed_fetch_as_successful Sample.silent "S-BSST1"
              Sample.world H1 H2) as (Hfetch & _ & _ & _ & Hbatch).
  split; [exact Hfetch|exact Hbatch].
Defined.

(** A batch of 51 accessions. *)
Lemma batch_outside_bounds_sends_nothing_witness :
  (length (replicate 51 "S-BSST1") = 0 ∨ 50 < length (replicate 51 "S-BSST1"))
  ∧ (BioStudiesHandlers.batchGetStudies Sample.up []
       {| ba_accessions := Some (replicate 51 "S-BSST1") |} Sample.world)
    = (Some (Js.Returned (content "Maximum 50 studies can be processed at once")),
       Sample.world).
Proof.
  assert (H : length (replicate 51 "S-BSST1") = 0
              ∨ 50 < length (replicate 51 "S-BSST1"))
    by (right; vm_compute; lia).
  split; [exact H|].
  exact (proj1 (batch_outside_bounds_sends_nothing Sample.up []
                  (replicate 51 "S-BSST1") Sample.world H)).
Defined.

(** ** The trailer of a page of search results *)

Section SearchFacts.
Import Js BioStudiesHandlers.
Variable up : Upstream.

Lemma trailers_distinct page shown totalHits shown' totalHits' :
  pageTrailer page shown totalHits ≠ firstTrailer shown' totalHits'
  ∧ pageTrailer page shown totalHits ≠ ""
  ∧ firstTrailer shown totalHits ≠ "".
Proof.
  unfold pageTrailer, firstTrailer, nl. cbn [append]. repeat split; discriminate.
Qed.

Lemma sizeArg_nonzero size : sizeArg size ≠ 0%Z.
Proof.
  unfold sizeArg, truthy_num. destruct size as [z|]; [|done].
  destruct (z =? 0)%Z eqn:E; cbn; [done|]. apply Z.eqb_neq in E. lia.
Qed.

Lemma num_or_sizeArg size : num_or (Some (sizeArg size)) 20 = sizeArg size.
Proof.
  unfold num_or, truthy_num.
  by rewrite (proj2 (Z.eqb_neq _ _) (sizeArg_nonzero size)).
Qed.

Lemma pagination_cases page shown size totalHits :
  let full := (0 < page ∨ size ≤ Z.of_nat shown)%Z in
  let more := (Z.of_nat shown < totalHits)%Z in
  (pagination page shown size totalHits = pageTrailer page shown totalHits
   ↔ full)
  ∧ (pagination page shown size totalHits = firstTrailer shown totalHits
     ↔ ¬ full ∧ more)
  ∧ (pagination page shown size totalHits = "" ↔ ¬ full ∧ ¬ more).
Proof.
  cbv zeta. unfold pagination.
  destruct (trailers_distinct page shown totalHits shown totalHits)
    as (Hpf & Hp & Hf).
  destruct (0 <? page)%Z eqn:E1; [apply Z.ltb_lt in E1 | apply Z.ltb_ge in E1];
    cbn [orb]; [intuition (try lia; try congruence)|].
  destruct (size <=? Z.of_nat shown)%Z eqn:E2;
    [apply Z.leb_le in E2 | apply Z.leb_gt in E2];
    [intuition (try lia; try congruence)|].
  destruct (Z.of_nat shown <? totalHits)%Z eqn:E3;
    [apply Z.ltb_lt in E3 | apply Z.ltb_ge in E3];
    intuition (try lia; try congruence).
Qed.

(** A page of a collection's studies follows the same rule, with the page
    index asked for and its own wording. *)
Lemma collectionPagination_cases collection page shown size totalHits :
  collectionPagination collection page shown size totalHits
  = if bool_decide (0 < page ∨ size ≤ Z.of_nat shown)%Z
    then nl +:+ nl +:+ "Page " +:+ pretty (page + 1)%Z +:+ ", showing "
           +:+ pretty shown +:+ " of " +:+ pretty totalHits
           +:+ " total studies in " +:+ collection +:+ "."
    else if bool_decide (Z.of_nat shown < totalHits)%Z
    then nl +:+ nl +:+ "Showing first " +:+ pretty shown +:+ " of "
           +:+ pretty totalHits +:+ " total studies in " +:+ collection +:+ "."
    else "".
Proof.
  unfold collectionPagination.
  destruct (0 <? page)%Z eqn:E1; [apply Z.ltb_lt in E1 | apply Z.ltb_ge in E1];
    cbn [orb]; [by rewrite bool_decide_eq_true_2 by by left|].
  destruct (size <=? Z.of_nat shown)%Z eqn:E2;
    [apply Z.leb_le in E2 | apply Z.leb_gt in E2];
    [by rewrite bool_decide_eq_true_2 by by right|].
  rewrite bool_decide_eq_false_2 by lia.
  destruct (Z.of_nat shown <? totalHits)%Z eqn:E3;
    [apply Z.ltb_lt in E3 | apply Z.ltb_ge in E3].
  - by rewrite bool_decide_eq_true_2.
  - by rewrite bool_decide_eq_false_2 by lia.
Qed.

(** C8 (amended): on every rendered page of search results the text ends
    with the trailer, which is the Page trailer exactly when the page index
    the server reports is greater than zero or the number of hits is at
    least the page size asked for; otherwise the Showing-first trailer exactly
    when the number of hits is less than [totalHits]; otherwise empty. *)
Theorem search_page_trailer (args : SearchParams) (w : World)
    (response : SearchResponse) (st : Z) :
  truthy (sp_query args) || truthy (sp_collection args)
    || truthy (sp_author args) = true →
  (BioStudiesApiClient.searchStudies up (searchParamsOf args) w).1
    = success (Some (Parsed response)) st →
  hits response ≠ [] →
  let shown := length (hits response) in
  let size := sizeArg (sp_size args) in
  let trailer := pagination (page response) shown size (totalHits response) in
  let full := (0 < page response ∨ size ≤ Z.of_nat shown)%Z in
  let more := (Z.of_nat shown < totalHits response)%Z in
  (searchStudies up args w).1
    = Returned (content
        ("Found " +:+ pretty (totalHits response) +:+ " studies:" +:+ nl +:+ nl
           +:+ join (nl +:+ nl) (formatHit <$> hits response) +:+ trailer))
  ∧ (trailer = pageTrailer (page response) shown (totalHits response) ↔ full)
  ∧ (trailer = firstTrailer shown (totalHits response) ↔ ¬ full ∧ more)
  ∧ (trailer = "" ↔ ¬ full ∧ ¬ more).
Proof.
  intros Hargs Hres Hhits. cbv zeta. split; [|apply pagination_cases].
  unfold searchStudies.
  replace (negb (truthy (sp_query args)) && negb (truthy (sp_collection args))
             && negb (truthy (sp_author args))) with false; last first.
  { destruct (truthy (sp_query args)), (truthy (sp_collection args)),
      (truthy (sp_author args)); done. }
  rewrite Io_bind_run, Hres. cbn [error success data truthy andb].
  rewrite Io_ret_run. cbn [fst].
  rewrite bool_decide_eq_false_2 by by destruct (hits response).
  change (sp_size (searchParamsOf args)) with (Some (sizeArg (sp_size args))).
  by rewrite num_or_sizeArg.
Qed.
End SearchFacts.

(** The two pages the specification works out. *)
Example pagination_first_page :
  BioStudiesHandlers.pagination 0 20 20 25
  = Js.nl +:+ Js.nl +:+ "Page 1, showing 20 of 25 total results.".
Proof. reflexivity. Qed.

Example pagination_second_page :
  BioStudiesHandlers.pagination 1 5 20 25
  = Js.nl +:+ Js.nl +:+ "Page 2, showing 5 of 25 total results.".
Proof. reflexivity. Qed.

(** The first page of 25 hits, 20 to a page. *)
Lemma search_page_trailer_witness :
  (BioStudiesHandlers.searchStudies Sample.searching
     (Sample.query (Some "cancer") None) Sample.world).1
  = Js.Returned (content
      ("Found 25 studies:" +:+ Js.nl +:+ Js.nl
         +:+ Js.join (Js.nl +:+ Js.nl)
               (replicate 20 "• **S-BSST1**: A study")
         +:+ Js.nl +:+ Js.nl +:+ "Page 1, showing 20 of 25 total results.")).
Proof.
  assert (H1 : Js.truthy (sp_query (Sample.query (Some "cancer") None))
               || Js.truthy (sp_collection (Sample.query (Some "cancer") None))
               || Js.truthy (sp_author (Sample.query (Some "cancer") None))
               = true) by reflexivity.
  assert (H2 : (BioStudiesApiClient.searchStudies Sample.searching
                  (BioStudiesHandlers.searchParamsOf
                     (Sample.query (Some "cancer") None)) Sample.world).1
               = success (Some (Parsed Sample.firstPage)) 200) by reflexivity.
  assert (H3 : hits Sample.firstPage ≠ []) by (vm_compute; discriminate).
  etransitivity;
    [exact (proj1 (search_page_trailer Sample.searching _ _ _ _ H1 H2 H3))|].
  vm_compute. reflexivity.
Defined.

(** C8 as stated fails where the page index is nonzero but negative: with 5
    hits of 25 on page -1 and a page size of 20 the condition of the claim
    holds and the page ends with the Showing-first trailer. *)
Lemma search_page_trailer_negative_page :
  (page Sample.oddPage ≠ 0
   ∨ BioStudiesHandlers.sizeArg None ≤ Z.of_nat (length (hits Sample.oddPage)))%Z
  ∧ (BioStudiesHandlers.searchStudies Sample.odd
       (Sample.query (Some "cancer") None) Sample.world).1
    = Js.Returned (content
        ("Found 25 studies:" +:+ Js.nl +:+ Js.nl
           +:+ Js.join (Js.nl +:+ Js.nl) (replicate 5 "• **S-BSST1**: A study")
           +:+ Js.nl +:+ Js.nl +:+ "Showing first 5 of 25 total results."))
  ∧ BioStudiesHandlers.pagination (page Sample.oddPage) 5 20 25
    ≠ BioStudiesHandlers.pageTrailer (page Sample.oddPage) 5 25.
Proof.
  split; [left; done|]. split; [vm_compute; reflexivity|].
  vm_compute. discriminate.
Qed.

(** ** The search fallback *)

Section FallbackFacts.
Import Js BioStudiesHandlers.
Variable up : Upstream.

Lemma append_assoc (a b c : string) : (a +:+ b) +:+ c = a +:+ b +:+ c.
Proof. apply chars_inj. by rewrite !chars_app, app_assoc. Qed.

Lemma append_nil_r (a : string) : a +:+ "" = a.
Proof. apply chars_inj. rewrite chars_app. apply app_nil_r. Qed.

Lemma append_nil_l (a : string) : "" +:+ a = a.
Proof. reflexivity. Qed.

Lemma foldl_append {X} (f : X → string) (l : list X) : ∀ output,
  foldl (λ output x, output +:+ f x) output l
  = output +:+ foldl (λ output x, output +:+ f x) "" l.
Proof.
  induction l as [|x l IH]; intros output; cbn [foldl].
  - by rewrite append_nil_r.
  - rewrite IH, (IH ("" +:+ f x)). by rewrite append_nil_l, append_assoc.
Qed.

(** A search that the server answers with a failure of status 404 returns
    what [provideSearchAlternatives] makes of the search parameters: the
    error of the response is not part of it. *)
Lemma search_404_falls_back (args : SearchParams) (w : World) :
  truthy (sp_query args) || truthy (sp_collection args)
    || truthy (sp_author args) = true →
  let result := (BioStudiesApiClient.searchStudies up (searchParamsOf args) w).1 in
  truthy (error result) = true → status result = 404%Z →
  (searchStudies up args w).1 = provideSearchAlternatives (searchParamsOf args).
Proof.
  intros Hargs result Herr Hst. unfold searchStudies.
  replace (negb (truthy (sp_query args)) && negb (truthy (sp_collection args))
             && negb (truthy (sp_author args))) with false; last first.
  { destruct (truthy (sp_query args)), (truthy (sp_collection args)),
      (truthy (sp_author args)); done. }
  rewrite Io_bind_run. fold result. by rewrite Herr, Hst.
Qed.

(** The collections with examples. *)
Lemma suggestions_keys key :
  is_Some (suggestions !! key)
  ↔ key ∈ ["arrayexpress"; "bioimages"; "empiar"; "biostudies"].
Proof.
  unfold suggestions. rewrite <- elem_of_dom, dom_list_to_map_L.
  cbn [fmap list_fmap fst]. rewrite elem_of_list_to_set. done.
Qed.

(** Every list of examples has 5 accessions, each of valid format. *)
Lemma suggestions_examples key examples :
  suggestions !! key = Some examples →
  length examples = 5
  ∧ Forall (λ accno,
              BioStudiesApiClient.isValidAccessionNumber (Str accno) = true)
      examples.
Proof.
  intros H. assert (Hk : is_Some (suggestions !! key)) by eauto.
  apply suggestions_keys in Hk.
  repeat (apply elem_of_cons in Hk as [->|Hk]);
    [ | | | | by apply elem_of_nil in Hk];
    vm_compute in H; injection H as <-; (split; [done|]);
    repeat constructor.
Qed.

(** With a collection filter that has examples, the fallback lists each of
    them as an accession to try. *)
Lemma search_fallback_examples (searchParams : SearchParams)
    (collection : string) (examples : list string) :
  sp_collection searchParams = Some collection →
  suggestions !! toLowerCase collection = Some examples →
  provideSearchAlternatives searchParams
  = Returned (content
      (searchHeading +:+ "**Collection-Based Discovery for " +:+ dq
         +:+ collection +:+ dq +:+ ":**" +:+ nl
         +:+ foldl (λ output suggestion, output +:+ tryAccession suggestion)
               "" examples
         +:+ nl
         +:+ match sp_query searchParams with
             | Some (String a s) => queryStrategies (String a s)
             | _ => ""
             end
         +:+ searchFooter)).
Proof.
  intros Hc Hex. destruct (suggestions_examples _ _ Hex) as [Hlen _].
  unfold provideSearchAlternatives. rewrite Hc.
  destruct collection as [|a c]; [by vm_compute in Hex|].
  unfold collectionBlock, getCollectionSuggestions. rewrite Hex.
  rewrite bool_decide_eq_true_2 by lia. rewrite foldl_append.
  destruct (sp_query searchParams) as [[|b q]|];
    by rewrite ?append_assoc, ?append_nil_r.
Qed.

(** With a collection filter that is neither a key of the table nor the name
    of a member of [Object.prototype], the fallback gives the generic
    guidance. *)
Lemma search_fallback_generic (searchParams : SearchParams)
    (collection : string) :
  collection ≠ "" →
  sp_collection searchParams = Some collection →
  suggestions !! toLowerCase collection = None →
  Object_prototype !! toLowerCase collection = None →
  provideSearchAlternatives searchParams
  = Returned (content
      (searchHeading +:+ "**Collection-Based Discovery for " +:+ dq
         +:+ collection +:+ dq +:+ ":**" +:+ nl
         +:+ genericGuidance collection +:+ nl
         +:+ match sp_query searchParams with
             | Some (String a s) => queryStrategies (String a s)
             | _ => ""
             end
         +:+ searchFooter)).
Proof.
  intros Hne Hc Hs Hp. unfold provideSearchAlternatives. rewrite Hc.
  destruct collection as [|a c]; [done|].
  unfold collectionBlock, getCollectionSuggestions.
  rewrite Hs, Hp. cbn [length].
  rewrite bool_decide_eq_false_2 by (cbn; lia).
  destruct (sp_query searchParams) as [[|b q]|];
    by rewrite ?append_assoc, ?append_nil_r.
Qed.

(** The only lower-case key that is inherited with a positive [length]. *)
Lemma inherited_callable key n :
  toLowerCase key = key →
  suggestions !! key = None → Object_prototype !! key = Some (Some (S n)) →
  key = "constructor".
Proof.
  intros Hlow _ H.
  assert (Hk : key ∈ dom Object_prototype) by (apply elem_of_dom; eauto).
  unfold Object_prototype in Hk. rewrite dom_list_to_map_L in Hk.
  cbn [fmap list_fmap fst] in Hk. rewrite elem_of_list_to_set in Hk.
  repeat (apply elem_of_cons in Hk as [->|Hk]);
    try (by apply elem_of_nil in Hk); try done;
    try (by vm_compute in Hlow); by vm_compute in H.
Qed.

Lemma toLowerCase_idem s : toLowerCase (toLowerCase s) = toLowerCase s.
Proof.
  assert (H : ∀ c, lower (lower c) = lower c).
  { intros c. apply (bool_decide_eq_true_1 (lower (lower c) = lower c)).
    revert c. apply (all_ascii_complete (λ c, bool_decide _)).
    vm_compute. reflexivity. }
  induction s as [|c s IH]; cbn [toLowerCase]; [done|]. by rewrite H, IH.
Qed.

(** Whatever the collection filter, unless it lower-cases to [constructor],
    the fallback returns a text that is not flagged as an error. *)
Lemma search_fallback_returns (searchParams : SearchParams) :
  (∀ collection, sp_collection searchParams = Some collection →
                 toLowerCase collection ≠ "constructor") →
  ∃ text, provideSearchAlternatives searchParams = Returned (content text).
Proof.
  intros Hc. unfold provideSearchAlternatives.
  destruct (sp_collection searchParams) as [[|a c]|] eqn:E; [eauto|..|eauto].
  specialize (Hc _ eq_refl). unfold collectionBlock, getCollectionSuggestions.
  destruct (suggestions !! toLowerCase (String a c)) as [examples|] eqn:Hs.
  { destruct (bool_decide (0 < length examples)); eauto. }
  destruct (Object_prototype !! toLowerCase (String a c)) as [[[|n]|]|] eqn:Hp;
    [eauto| |eauto|eauto].
  by apply inherited_callable in Hp; [|apply toLowerCase_idem|].
Qed.
End FallbackFacts.

(** C2: a search with the collection filter [constructor], answered by the
    server with status 404, does not return the fallback text: the key is
    found on [Object.prototype], is no array, and the handler throws a
    [TypeError]. *)
Theorem search_fallback_constructor_throws :
  let args := Sample.query None (Some "constructor") in
  (BioStudiesApiClient.searchStudies Sample.up
     (BioStudiesHandlers.searchParamsOf args) Sample.world).1
  = failure "HTTP 404: Not Found" 404
  ∧ (BioStudiesHandlers.searchStudies Sample.up args Sample.world).1
    = Js.Threw {| Js.name := "TypeError";
                  Js.message := "suggestions.forEach is not a function" |}.
Proof. split; vm_compute; reflexivity. Qed.

(** ** The files fallback *)

Section FilesFacts.
Import Js BioStudiesHandlers.
Variable up : Upstream.

Lemma pushFiles_default extractedFiles files :
  pushFiles extractedFiles files = extractedFiles ++ default [] files.
Proof. destruct files as [[|f l]|]; cbn; by rewrite ?app_nil_r. Qed.

Lemma pushFiles_subsections subsections : ∀ extractedFiles,
  foldl (λ extractedFiles subsection,
           pushFiles extractedFiles (section_files subsection))
    extractedFiles subsections
  = extractedFiles ++ concat (FilesSpec.ownFiles <$> subsections).
Proof.
  induction subsections as [|s l IH]; intros extractedFiles; cbn [foldl].
  - cbn. by rewrite app_nil_r.
  - rewrite IH, pushFiles_default, fmap_cons. cbn [concat].
    by rewrite <- app_assoc.
Qed.

(** The files the fallback gathers are those of the top-level section
    followed by those of each direct subsection; a payload that is no study
    has none. *)
Lemma extractFiles_embedded (payload : option (Payload StudyDetails)) :
  extractFiles payload
  = match payload with
    | Some (Parsed study) => FilesSpec.embeddedFiles study
    | _ => []
    end.
Proof.
  unfold extractFiles, FilesSpec.embeddedFiles.
  destruct payload as [[study| |]|]; try done. cbn [member].
  destruct (study_section study) as [[t files subsections]|]; [|done].
  cbn [mbind option_bind section_files section_subsections].
  rewrite pushFiles_default. cbn [app FilesSpec.ownFiles section_files].
  destruct subsections as [[|s l]|]; cbn [default fmap list_fmap concat];
    rewrite ?app_nil_r; try done.
  by rewrite pushFiles_subsections.
Qed.

(** Files below the direct subsections are not gathered. *)
Example extractFiles_one_level :
  extractFiles (Some (Parsed Sample.nested))
  = [Sample.file "top.txt"; Sample.file "child.txt"].
Proof. reflexivity. Qed.

(** When the files endpoint answers with a failure of status 404, the tool
    fetches the study's details (the two requests are the only ones sent) and
    returns a result that is not flagged as an error: the unavailable text
    with the message of that fetch when it failed with a message that is not
    empty; the not-found text when it brought no data, or failed with an
    empty message; the no-files-found text when the study's section and its
    direct subsections hold no file; otherwise the listing of exactly those
    files, in that order.  With payloads of the declared types nothing in
    the [try] block throws. *)
Lemma files_fallback (accno : string) (w : World) :
  let filesRun := BioStudiesApiClient.getStudyFiles up accno w in
  truthy (error filesRun.1) = true → status filesRun.1 = 404%Z →
  let detailsRun := BioStudiesApiClient.getStudyDetails up accno filesRun.2 in
  let studyResult := detailsRun.1 in
  let files :=
    match data studyResult with
    | Some (Parsed study) => FilesSpec.embeddedFiles study
    | _ => []
    end in
  let endpoint suffix :=
    BioStudiesApiClient.requestOf (this w)
      {| path := "/studies/" +:+ accno +:+ suffix; search := [] |} None None in
  getStudyFiles up {| fa_accno := Str accno |} w
  = (Returned (content
       (if truthy (error studyResult)
        then metadataUnavailable accno (show (error studyResult))
        else if negb (truthy_data (data studyResult))
        then "Study " +:+ accno +:+ " not found"
        else if bool_decide (files = [])
        then noFilesFound accno
        else extractedListing accno files)),
     detailsRun.2)
  ∧ this detailsRun.2 = this w
  ∧ sent detailsRun.2 = sent w ++ [endpoint "/files"; endpoint ""].
Proof.
  intros filesRun Herr Hst detailsRun studyResult files endpoint. split.
  - unfold getStudyFiles. cbn [fa_accno].
    destruct accno as [|a s]; [by vm_compute in Hst|].
    rewrite Io_bind_run. fold filesRun. rewrite Herr, Hst. cbn [andb Z.eqb Pos.eqb].
    unfold extractFilesFromStudyMetadata, try_catch.
    rewrite Io_bind_run, Io_bind_run. fold detailsRun studyResult.
    assert (Hfiles : bool_decide (length (extractFiles (data studyResult)) = 0)
                     = bool_decide (files = [])).
    { rewrite extractFiles_embedded. fold files. by destruct files. }
    destruct (truthy (error studyResult)); [done|].
    destruct (truthy_data (data studyResult)); cbn [negb]; [|done].
    rewrite Hfiles. destruct (bool_decide (files = [])); [done|].
    rewrite Io_ret_run. cbn [fst snd]. rewrite Io_ret_run.
    by rewrite extractFiles_embedded.
  - subst detailsRun filesRun. revert Herr Hst.
    unfold BioStudiesApiClient.getStudyFiles, BioStudiesApiClient.getStudyDetails.
    destruct (BioStudiesApiClient.isValidAccessionNumber (Str accno)); cbn [negb].
    + intros _ _. rewrite !makeRequest_run. cbn [fst snd this sent].
      subst endpoint. cbv beta. rewrite append_nil_r, <- app_assoc. done.
    + by rewrite Io_ret_run.
Qed.

(** Whatever its body does, a [try] with this [catch] clause returns: what
    the body returned, or what the clause makes of the [Error] thrown. *)
Lemma try_catch_returns {A} (body : Io (Outcome A)) (handler : Error → A)
    (w : World) :
  ∃ a, try_catch body handler w = (Returned a, (body w).2)
       ∧ (∀ a', (body w).1 = Returned a' → a = a')
       ∧ (∀ e, (body w).1 = Threw e → a = handler e).
Proof.
  unfold try_catch. rewrite Io_bind_run, Io_ret_run.
  destruct (body w).1 as [a|e]; eexists; (split; [reflexivity|]);
    split; by intros ? [= <-].
Qed.

(** So the extraction never throws, by its [catch] clause alone; and it
    never flags its result as an error. *)
Lemma extractFilesFromStudyMetadata_returns (accno : string) (w : World) :
  ∃ t, (extractFilesFromStudyMetadata up accno w).1 = Returned (content t).
Proof.
  unfold extractFilesFromStudyMetadata.
  match goal with
  | |- ∃ t, (try_catch ?body ?handler w).1 = _ =>
      destruct (try_catch_returns body handler w) as (a & Hrun & Hret & Hthrew);
      rewrite Hrun; cbn [fst];
      destruct (body w).1 as [r|e] eqn:Hbody
  end.
  - rewrite (Hret r eq_refl). revert Hbody. rewrite Io_bind_run.
    destruct (truthy (error _)); [rewrite Io_ret_run; intros [= <-]; eauto|].
    destruct (negb (truthy_data _)); [rewrite Io_ret_run; intros [= <-]; eauto|].
    destruct (bool_decide _); rewrite Io_ret_run; intros [= <-]; eauto.
  - rewrite (Hthrew e eq_refl). eauto.
Qed.

(** What the texts of the fallback say. *)
Lemma startsWith_app (sub t : string) : Mcp.startsWith (sub +:+ t) sub = true.
Proof.
  induction sub as [|c sub IH]; [by destruct t|].
  change (String c sub +:+ t) with (String c (sub +:+ t)). cbn.
  by rewrite bool_decide_eq_true_2, IH.
Qed.

Lemma startsWith_app_l (a b sub : string) :
  Mcp.startsWith a sub = true → Mcp.startsWith (a +:+ b) sub = true.
Proof.
  revert a. induction sub as [|c sub IH]; intros a; [by destruct (a +:+ b)|].
  destruct a as [|c' a]; [done|].
  change (String c' a +:+ b) with (String c' (a +:+ b)). cbn.
  intros [-> H]%andb_true_iff. by rewrite (IH a H).
Qed.

Lemma startsWith_self (s : string) : Mcp.startsWith s s = true.
Proof.
  induction s as [|c s IH]; [done|]. cbn. by rewrite bool_decide_eq_true_2, IH.
Qed.

Lemma includes_app_l (a b sub : string) :
  Mcp.includes a sub = true → Mcp.includes (a +:+ b) sub = true.
Proof.
  induction a as [|c a IH]; intros H.
  - destruct sub; [by destruct b|done].
  - change (String c a +:+ b) with (String c (a +:+ b)).
    cbn [Mcp.includes] in *. apply orb_true_iff.
    apply orb_true_iff in H as [H|H]; [left|right; by apply IH].
    exact (startsWith_app_l (String c a) b sub H).
Qed.

Lemma includes_app_r (a b sub : string) :
  Mcp.includes b sub = true → Mcp.includes (a +:+ b) sub = true.
Proof.
  intros H. induction a as [|c a IH]; [exact H|].
  change (String c a +:+ b) with (String c (a +:+ b)).
  cbn [Mcp.includes]. rewrite IH. by rewrite orb_true_r.
Qed.

Lemma includes_self (s : string) : Mcp.includes s s = true.
Proof. destruct s; [done|]. cbn [Mcp.includes]. by rewrite startsWith_self. Qed.

Lemma includes_join (sep x : string) (l : list string) :
  x ∈ l → Mcp.includes (join sep l) x = true.
Proof.
  induction l as [|y l IH]; [by intros ?%elem_of_nil|].
  intros [->|Hx]%elem_of_cons.
  - destruct l as [|z l]; [apply includes_self|].
    cbn [join]. apply includes_app_l, includes_self.
  - destruct l as [|z l]; [by apply elem_of_nil in Hx|].
    change (join sep (y :: z :: l)) with (y +:+ sep +:+ join sep (z :: l)).
    by apply includes_app_r, includes_app_r, IH.
Qed.

Local Ltac included :=
  first [ apply includes_self
        | apply includes_app_l; solve [apply includes_self | vm_compute; reflexivity]
        | apply includes_app_r; included
        | vm_compute; reflexivity ].

(** Each of the three texts without a listing names the alternative
    approaches and the page of the study; the one for a failed fetch quotes
    the message of the failure, the one for a study without files says that
    none were found.  The listing has an entry for every file, and the entry
    names the file. *)
Lemma fallback_texts_explain (accno err : string) (files : list FileInfo) :
  let explains (text : string) : Prop :=
    text ≠ ""
    ∧ Mcp.includes text "**Alternative Approaches:**" = true
    ∧ Mcp.includes text (studyUrl accno) = true in
  (explains (metadataUnavailable accno err)
   ∧ Mcp.includes (metadataUnavailable accno err) ("Error: " +:+ err) = true)
  ∧ (explains (noFilesFound accno)
     ∧ Mcp.includes (noFilesFound accno) "No files found in the study metadata"
       = true)
  ∧ (explains (extractionFailed accno err)
     ∧ Mcp.includes (extractionFailed accno err) ("Error: " +:+ err) = true)
  ∧ (∀ file, file ∈ files →
       Mcp.includes (extractedListing accno files) (formatExtractedFile file)
       = true
       ∧ Mcp.includes (formatExtractedFile file)
           ("• **" +:+ or_default (or_else (file_name file) (file_path file))
                         "Unknown filename" +:+ "**")
         = true).
Proof.
  cbv zeta. split_and!; try done.
  - unfold metadataUnavailable. included.
  - unfold metadataUnavailable. included.
  - unfold metadataUnavailable. rewrite <- (append_assoc "Error: " err).
    included.
  - unfold noFilesFound, extractionNote. included.
  - unfold noFilesFound, extractionNote. included.
  - unfold noFilesFound, extractionNote. included.
  - unfold extractionFailed. included.
  - unfold extractionFailed. included.
  - unfold extractionFailed. rewrite <- (append_assoc "Error: " err).
    included.
  - intros file Hfile. split.
    { unfold extractedListing, extractionNote.
      assert (Hentry : formatExtractedFile file ∈ formatExtractedFile <$> files)
        by by apply list_elem_of_fmap_2.
      repeat first [ apply includes_app_l, includes_join; exact Hentry
                   | apply includes_app_r ]. }
    unfold formatExtractedFile. cbv zeta.
    set (label := "• **" +:+ _ +:+ "**").
    assert (Hsize : ∀ output, Mcp.includes output label = true →
                              Mcp.includes (sizeLine output file) label = true).
    { intros output H. unfold sizeLine. destruct (truthy_num _); [|done].
      by apply includes_app_l. }
    assert (Hline : ∀ output prefix x,
              Mcp.includes output label = true →
              Mcp.includes (line_if output prefix x) label = true).
    { intros output prefix [[|a s]|] H; cbn; try done. by apply includes_app_l. }
    apply Hline, Hline, Hsize.
    destruct (pathDiffers file); [apply includes_app_l|]; apply includes_self.
Qed.

(** C4 (a defect of the code): the claim fails when the fetch of the
    study's details fails with an empty message.  With the files endpoint
    answering 404 and the lookup of the details throwing an [Error] whose
    message is empty, that fetch is a failure (status 0, the empty message,
    no data), for which the specification asks for the explanatory text with
    the alternative approaches; the tool answers [Study <accno> not found]
    and nothing more.  The code tests the message of the failure for
    truthiness where it means to test for a failure. *)
Theorem files_fallback_takes_failed_lookup_for_no_study (accno : string)
    (w : World) :
  let filesRun := BioStudiesApiClient.getStudyFiles up accno w in
  truthy (error filesRun.1) = true → status filesRun.1 = 404%Z →
  studies up (length (sent filesRun.2))
    (BioStudiesApiClient.requestOf (this filesRun.2)
       {| path := "/studies/" +:+ accno; search := [] |} None None)
  = OtherError "" →
  (BioStudiesApiClient.getStudyDetails up accno filesRun.2).1 = failure "" 0
  ∧ (getStudyFiles up {| fa_accno := Str accno |} w).1
    = Returned (content ("Study " +:+ accno +:+ " not found")).
Proof.
  intros filesRun Herr Hst Hwire.
  assert (Hvalid : BioStudiesApiClient.isValidAccessionNumber (Str accno) = true).
  { subst filesRun. revert Hst. unfold BioStudiesApiClient.getStudyFiles.
    by destruct (BioStudiesApiClient.isValidAccessionNumber (Str accno)). }
  assert (Hdetails :
    (BioStudiesApiClient.getStudyDetails up accno filesRun.2).1 = failure "" 0).
  { unfold BioStudiesApiClient.getStudyDetails. rewrite Hvalid. cbn [negb].
    rewrite makeRequest_run. cbn [fst]. by rewrite Hwire. }
  split; [done|].
  rewrite (proj1 (files_fallback accno w Herr Hst)). cbn [fst].
  fold filesRun. by rewrite Hdetails.
Qed.
End FilesFacts.

(** A study without files, on a server whose files endpoint is withdrawn. *)
Lemma files_fallback_witness :
  (BioStudiesHandlers.getStudyFiles Sample.up {| fa_accno := Js.Str "S-BSST1" |}
     Sample.world).1
  = Js.Returned (content (BioStudiesHandlers.noFilesFound "S-BSST1")).
Proof.
  assert (H1 : Js.truthy
                 (error (BioStudiesApiClient.getStudyFiles Sample.up "S-BSST1"
                           Sample.world).1) = true) by reflexivity.
  assert (H2 : status (BioStudiesApiClient.getStudyFiles Sample.up "S-BSST1"
                         Sample.world).1 = 404%Z) by reflexivity.
  rewrite (proj1 (files_fallback Sample.up "S-BSST1" Sample.world H1 H2)).
  vm_compute. reflexivity.
Defined.

(** The same study when the lookup of its details throws an [Error] without
    a message. *)
Lemma files_fallback_takes_failed_lookup_for_no_study_witness :
  (BioStudiesHandlers.getStudyFiles Sample.silent
     {| fa_accno := Js.Str "S-BSST1" |} Sample.world).1
  = Js.Returned (content "Study S-BSST1 not found").
Proof.
  assert (H1 : Js.truthy
                 (error (BioStudiesApiClient.getStudyFiles Sample.silent
                           "S-BSST1" Sample.world).1) = true) by reflexivity.
  assert (H2 : status (BioStudiesApiClient.getStudyFiles Sample.silent "S-BSST1"
                         Sample.world).1 = 404%Z) by reflexivity.
  assert (H3 : studies Sample.silent
                 (length (sent (BioStudiesApiClient.getStudyFiles Sample.silent
                                  "S-BSST1" Sample.world).2))
                 (BioStudiesApiClient.requestOf
                    (this (BioStudiesApiClient.getStudyFiles Sample.silent
                             "S-BSST1" Sample.world).2)
                    {| path := "/studies/" +:+ "S-BSST1"; search := [] |}
                    None None)
               = OtherError "") by reflexivity.
  exact (proj2 (files_fallback_takes_failed_lookup_for_no_study Sample.silent
                  "S-BSST1" Sample.world H1 H2 H3)).
Defined.

(** ** [formatFileSize] *)

Section SizeFacts.
Import BioStudiesHandlers.

(** [floor_log_1024] is the integer logarithm to the base 1024, except at
    the three integers just below 1024^5. *)
Lemma floor_log_1024_spec (bytes : Z) :
  (0 < bytes)%Z → (bytes < 1024 ^ 5 - 3 ∨ 1024 ^ 5 ≤ bytes)%Z →
  (0 ≤ floor_log_1024 bytes
   ∧ 1024 ^ floor_log_1024 bytes ≤ bytes < 1024 ^ (floor_log_1024 bytes + 1))%Z.
Proof.
  intros Hpos Hout. unfold floor_log_1024.
  replace ((1024 ^ 5 - 3 <=? bytes)%Z && (bytes <? 1024 ^ 5)%Z) with false;
    last first.
  { symmetry. apply andb_false_iff.
    destruct Hout; [left; by apply Z.leb_gt|right; by apply Z.ltb_ge]. }
  cbv iota.
  pose proof (Z.log2_nonneg bytes) as Hl.
  pose proof (Z.log2_spec bytes Hpos) as [Hlo Hhi].
  set (l := Z.log2 bytes) in *. set (i := (l / 10)%Z).
  assert (Hi : (0 ≤ i ∧ 10 * i ≤ l < 10 * i + 10)%Z).
  { subst i. pose proof (Z.div_mod l 10). pose proof (Z.mod_pos_bound l 10).
    split; [apply Z.div_pos; lia | lia]. }
  change 1024%Z with (2 ^ 10)%Z. rewrite <- !Z.pow_mul_r by lia.
  split; [lia|]. split.
  - etransitivity; [|exact Hlo]. apply Z.pow_le_mono_r; lia.
  - eapply Z.lt_le_trans; [exact Hhi|]. apply Z.pow_le_mono_r; lia.
Qed.

(** Below 1024^5 - 3 bytes the unit is one of the five of [sizes], the one
    of the magnitude of the byte count. *)
Lemma formatFileSize_unit (bytes : Z) :
  (0 < bytes < 1024 ^ 5 - 3)%Z →
  ∃ unit,
    sizes !! Z.to_nat (floor_log_1024 bytes) = Some unit
    ∧ formatFileSize bytes
      = show_hundredths (hundredths bytes (1024 ^ floor_log_1024 bytes))
          +:+ " " +:+ unit.
Proof.
  intros [Hpos Hlt].
  destruct (floor_log_1024_spec bytes Hpos ltac:(by left)) as (H0 & Hlo & _).
  assert (Hi : (floor_log_1024 bytes < 5)%Z).
  { destruct (Z.lt_ge_cases (floor_log_1024 bytes) 5) as [|Hge]; [done|].
    assert (1024 ^ 5 ≤ 1024 ^ floor_log_1024 bytes)%Z
      by (apply Z.pow_le_mono_r; lia). lia. }
  unfold formatFileSize.
  rewrite (proj2 (Z.eqb_neq _ _)) by lia. rewrite (proj2 (Z.ltb_ge _ _)) by lia.
  destruct (sizes !! Z.to_nat (floor_log_1024 bytes)) as [unit|] eqn:E; [eauto|].
  apply lookup_ge_None in E. cbn in E. lia.
Qed.

(** At the three integers just below 1024^5 the unit is already looked up
    past the end of [sizes]. *)
Lemma formatFileSize_just_below_1024_5 (bytes : Z) :
  (1024 ^ 5 - 3 ≤ bytes < 1024 ^ 5)%Z → formatFileSize bytes = "1 undefined".
Proof.
  intros H.
  assert (Hcases : bytes = 1125899906842621%Z ∨ bytes = 1125899906842622%Z
                   ∨ bytes = 1125899906842623%Z) by lia.
  destruct Hcases as [-> | [-> | ->]]; vm_compute; reflexivity.
Qed.
End SizeFacts.

(** C7: [formatFileSize] gives the three values of the specification; from
    1024^5 bytes on (and at the three integers just below), the unit is
    looked up past the end of the five units and the text reads [undefined]
    in its place. *)
Theorem formatFileSize_values :
  BioStudiesHandlers.formatFileSize 0 = "0 B"
  ∧ BioStudiesHandlers.formatFileSize 1536 = "1.5 KB"
  ∧ BioStudiesHandlers.formatFileSize 1073741824 = "1 GB"
  ∧ BioStudiesHandlers.formatFileSize 1688849860263936 = "1.5 undefined".
Proof. repeat split; vm_compute; reflexivity. Qed.

(** * Further properties of the client *)

(** ** Results of the client's methods *)

Section ResultFacts.
Import BioStudiesApiClient.

Lemma ok_spec st : ok st = true ↔ (200 ≤ st ≤ 299)%Z.
Proof. unfold ok. rewrite andb_true_iff, !Z.leb_le. done. Qed.

(** What [makeRequest] returns has a status outside 200-299 exactly when it
    carries an error, and then no data. *)
Lemma respond_shaped {T} (wire : Wire T) :
  (is_Some (error (respond wire)) → data (respond wire) = None)
  ∧ (is_Some (error (respond wire))
     ↔ ¬ (200 ≤ status (respond wire) ≤ 299)%Z).
Proof.
  destruct wire as [st txt body| | msg |]; cbn;
    [|split; [done|]; split; [lia | eauto]..].
  destruct (ok st) eqn:E; cbn.
  - apply ok_spec in E. split; [by intros [? ?]|]. split; [by intros [? ?]|done].
  - split; [done|]. split; [|eauto]. intros _ H. apply ok_spec in H. congruence.
Qed.

Lemma batchGetStudies_cases up order accessions w r :
  (batchGetStudies up order accessions w).1 = Some r →
  r = failure "Maximum 50 accessions can be processed at once" 400
  ∨ ∃ b, r = success (Some (Parsed b)) 200.
Proof.
  unfold batchGetStudies.
  destruct (bool_decide (length accessions = 0)); [intros [= <-]; eauto|].
  destruct (bool_decide (50 < length accessions)); [intros [= <-]; eauto|].
  rewrite Io_bind_run, Io_ret_run. cbn [fst].
  destruct (allSettled order _) as [results|]; [|done]. cbn [mbind option_bind].
  destruct (foldl _ _ _). intros [= <-]. eauto.
Qed.

(** X1: whatever the server does, the result of every method of the client
    carries an error exactly when its status lies outside 200-299, and a
    result that carries an error carries no data. *)
Theorem results_error_iff_status (up : Upstream) (cat : Catalogue)
    (accno : string) (credentials : AuthCredentials) (p : SearchParams)
    (fp : FileSearchParams) (order : list nat) (accessions : list string)
    (w : World) :
  let shaped {T} (r : ApiResponse T) : Prop :=
    (is_Some (error r) → data r = None)
    ∧ (is_Some (error r) ↔ ¬ (200 ≤ status r ≤ 299)%Z) in
  shaped (getStudyDetails up accno w).1
  ∧ shaped (getStudyFiles up accno w).1
  ∧ shaped (getStudyLinks up accno w).1
  ∧ shaped (searchStudies up p w).1
  ∧ shaped (authenticate up credentials w).1
  ∧ shaped (validateStudyAccession up accno w).1
  ∧ shaped (BioStudiesApiClient2.getCollections cat w).1
  ∧ shaped (BioStudiesApiClient2.searchFiles cat fp w).1
  ∧ ∀ r, (batchGetStudies up order accessions w).1 = Some r → shaped r.
Proof.
  cbv zeta.
  assert (Hinv : ∀ T, (is_Some (error (@invalidFormat T accno))
                       → data (@invalidFormat T accno) = None)
                      ∧ (is_Some (error (@invalidFormat T accno))
                         ↔ ¬ (200 ≤ status (@invalidFormat T accno) ≤ 299)%Z)).
  { intros T. cbn. split; [done|]. split; [lia | eauto]. }
  assert (Hthree :
    ((is_Some (error (getStudyDetails up accno w).1)
      → data (getStudyDetails up accno w).1 = None)
     ∧ (is_Some (error (getStudyDetails up accno w).1)
        ↔ ¬ (200 ≤ status (getStudyDetails up accno w).1 ≤ 299)%Z))
    ∧ ((is_Some (error (getStudyFiles up accno w).1)
        → data (getStudyFiles up accno w).1 = None)
       ∧ (is_Some (error (getStudyFiles up accno w).1)
          ↔ ¬ (200 ≤ status (getStudyFiles up accno w).1 ≤ 299)%Z))
    ∧ ((is_Some (error (getStudyLinks up accno w).1)
        → data (getStudyLinks up accno w).1 = None)
       ∧ (is_Some (error (getStudyLinks up accno w).1)
          ↔ ¬ (200 ≤ status (getStudyLinks up accno w).1 ≤ 299)%Z))).
  { unfold getStudyDetails, getStudyFiles, getStudyLinks.
    destruct (isValidAccessionNumber (Js.Str accno)); cbn [negb].
    - rewrite !makeRequest_run. cbn [fst].
      split; [apply respond_shaped|]. split; apply respond_shaped.
    - rewrite !Io_ret_run. cbn [fst]. split; [apply Hinv|]. split; apply Hinv. }
  destruct Hthree as (H1 & H2 & H3).
  split; [exact H1|]. split; [exact H2|]. split; [exact H3|].
  split. { unfold searchStudies. rewrite makeRequest_run. apply respond_shaped. }
  split.
  { unfold authenticate. rewrite Io_bind_run, makeRequest_run. cbn [fst snd].
    destruct (member token _) as [[|a t]|]; apply respond_shaped. }
  split.
  { unfold validateStudyAccession. cbn [isValid].
    destruct (isValidAccessionNumber (Js.Str accno)); cbn [negb];
      rewrite ?Io_bind_run, Io_ret_run; cbn;
      (split; [by intros [? ?]|]); (split; [by intros [? ?] | lia]). }
  split. { apply respond_shaped. }
  split.
  { unfold BioStudiesApiClient2.searchFiles. rewrite makeRequest_run.
    apply respond_shaped. }
  intros r [->|[b ->]]%batchGetStudies_cases; cbn.
  - split; [done|]. split; [lia | eauto].
  - split; [by intros [? ?]|]. split; [by intros [? ?] | lia].
Qed.
End ResultFacts.

(** ** The token *)

Section TokenFacts.
Import BioStudiesApiClient BioStudiesApiClient2.
Variable up : Upstream.

(** X2: a request made after [setAuthToken] carries the token as a Bearer
    authorization, unless the token is the empty string; a request made after
    [clearAuthentication] carries none; [isAuthenticated] tells whether a
    non-empty token is stored. *)
Theorem token_lifecycle {T} (server : Server T) (endpoint : Endpoint)
    (method : option string) (body : option AuthCredentials) (token : string)
    (w : World) :
  let requested (prepare : Io unit) : option Request :=
    last (sent ((prepare;; makeRequest server endpoint method body) w).2) in
  authorization <$> requested (setAuthToken token)
    = Some (if bool_decide (token = "") then None
            else Some ("Bearer " +:+ token))
  ∧ authorization <$> requested clearAuthentication = Some None
  ∧ authorization <$> requested (setAuthToken token;; clearAuthentication)
    = Some None
  ∧ ((setAuthToken token;; isAuthenticated) w).1 = negb (bool_decide (token = ""))
  ∧ ((setAuthToken token;; clearAuthentication;; isAuthenticated) w).1 = false.
Proof.
  cbv zeta. rewrite !Io_bind_run. cbn [fst snd]. rewrite !makeRequest_run.
  cbn [fst snd sent]. rewrite !last_snoc. cbn.
  destruct token; cbn; done.
Qed.

(** X3: a request sent after [authenticate] carries the token of the login
    response when that response had one, and the token stored before
    otherwise. *)
Theorem authenticated_requests_carry_token (credentials : AuthCredentials)
    (accno : string) (w : World) :
  isValidAccessionNumber (Js.Str accno) = true →
  let login := authenticate up credentials w in
  let fetch := getStudyDetails up accno login.2 in
  ∃ request,
    sent fetch.2
    = sent w ++ [requestOf (this w) {| path := "/auth/login"; search := [] |}
                   (Some "POST") (Some credentials); request]
    ∧ url request = baseUrl (this w) +:+ "/studies/" +:+ accno
    ∧ authorization request
      = match member token (data login.1) with
        | Some (String a s) => Some ("Bearer " +:+ String a s)
        | _ => bearer (this w)
        end.
Proof.
  intros Hvalid login fetch. subst fetch login.
  unfold getStudyDetails. rewrite Hvalid. cbn [negb].
  unfold authenticate. rewrite Io_bind_run, !makeRequest_run. cbn [fst snd].
  set (result := respond _).
  destruct (member token (data result)) as [[|a t]|] eqn:E;
    rewrite ?Io_bind_run, ?Io_ret_run; cbn [fst snd this sent set_authToken];
    rewrite <- app_assoc; (eexists; split; [reflexivity|]);
    rewrite ?E; done.
Qed.
End TokenFacts.

Lemma authenticated_requests_carry_token_witness :
  ∃ request,
    last (sent (BioStudiesApiClient.getStudyDetails Sample.up "S-BSST1"
                  (BioStudiesApiClient.authenticate Sample.up
                     {| login := "me"; password := "secret" |} Sample.world).2).2)
    = Some request
    ∧ authorization request = None.
Proof.
  assert (H : BioStudiesApiClient.isValidAccessionNumber (Js.Str "S-BSST1") = true)
    by reflexivity.
  destruct (authenticated_requests_carry_token Sample.up
              {| login := "me"; password := "secret" |} "S-BSST1" Sample.world H)
    as (request & Hsent & _ & Hauth).
  exists request. rewrite Hsent. split; [reflexivity|]. rewrite Hauth. reflexivity.
Defined.

(** ** The query of a search *)

Lemma pretty_N_go_length (x : N) (s : string) :
  String.length s ≤ String.length (pretty_N_go x s).
Proof.
  revert s. induction (N.lt_wf_0 x) as [x _ IH]; intros s.
  destruct (decide (x = 0%N)) as [->|Hx]; [by rewrite pretty_N_go_0|].
  rewrite pretty_N_go_step by lia.
  etrans; [|apply IH, N.div_lt; lia]. cbn. lia.
Qed.

Lemma pretty_Z_nonempty (z : Z) : pretty z ≠ "".
Proof.
  assert (Hpos : ∀ x : positive, pretty x ≠ "").
  { intros x. unfold pretty, pretty_positive, pretty, pretty_N.
    destruct (decide _) as [|_]; [done|].
    rewrite pretty_N_go_step by lia. intros E.
    pose proof (pretty_N_go_length (N.pos x `div` 10)
                  (String (pretty_N_char (N.pos x `mod` 10)) "")) as Hlen.
    rewrite E in Hlen. cbn in Hlen. lia. }
  destruct z as [|x|x]; [done|apply Hpos|].
  change (pretty (Z.neg x)) with (String "-" (pretty x)). done.
Qed.

Section QueryFacts.
Import BioStudiesApiClient.
Variable up : Upstream.

Lemma append_if_app k v l : append_if k v l = l ++ append_if k v [].
Proof. by destruct v as [[|a s]|]; cbn; rewrite ?app_nil_r. Qed.

Lemma append_num_app k n l : append_num k n l = l ++ append_num k n [].
Proof. by destruct n; cbn; rewrite ?app_nil_r. Qed.

Lemma append_if_values k v :
  Forall (λ kv : string * string, kv.1 = "keywords" ∨ kv.2 ≠ "") (append_if k v []).
Proof.
  destruct v as [[|a s]|]; cbn; [apply Forall_nil_2| |apply Forall_nil_2].
  apply Forall_singleton. by right.
Qed.

Lemma append_num_values k n :
  Forall (λ kv : string * string, kv.1 = "keywords" ∨ kv.2 ≠ "") (append_num k n []).
Proof.
  destruct n; cbn; [apply Forall_singleton|apply Forall_nil_2].
  right. apply pretty_Z_nonempty.
Qed.

Lemma append_if_keys k v : (append_if k v []).*1 `sublist_of` [k].
Proof.
  destruct v as [[|a s]|]; cbn; [apply sublist_nil_l|done|apply sublist_nil_l].
Qed.

Lemma append_num_keys k n : (append_num k n []).*1 `sublist_of` [k].
Proof. destruct n; cbn; [done|apply sublist_nil_l]. Qed.

Lemma keywords_keys (l : list string) :
  filter (λ k, k ≠ "keywords") ((λ keyword, ("keywords", keyword)) <$> l).*1 = [].
Proof. induction l as [|x l IH]; [done|]. csimpl. by rewrite filter_cons_False by (by intros []). Qed.

Lemma keywords_values (l : list string) :
  (filter (λ kv : string * string, kv.1 = "keywords")
     ((λ keyword, ("keywords", keyword)) <$> l)).*2 = l.
Proof.
  induction l as [|x l IH]; [done|].
  rewrite fmap_cons, filter_cons_True by done. by rewrite fmap_cons, IH.
Qed.

Lemma append_if_no_keywords k v :
  k ≠ "keywords" →
  filter (λ kv : string * string, kv.1 = "keywords") (append_if k v []) = [].
Proof.
  intros Hk. destruct v as [[|a s]|]; try done.
  change (append_if k (Some (String a s)) []) with [(k, String a s)].
  by rewrite filter_cons_False by (cbn; done).
Qed.

Lemma append_num_no_keywords k n :
  k ≠ "keywords" →
  filter (λ kv : string * string, kv.1 = "keywords") (append_num k n []) = [].
Proof.
  intros Hk. destruct n as [z|]; try done.
  change (append_num k (Some z) []) with [(k, pretty z)].
  by rewrite filter_cons_False by (cbn; done).
Qed.

Lemma append_if_other k k' v x : k ≠ k' → (k', x) ∉ append_if k v [].
Proof.
  intros Hk. destruct v as [[|a s]|]; cbn; try apply not_elem_of_nil.
  intros [= E _]%list_elem_of_singleton. by apply Hk.
Qed.

Lemma append_num_other k k' n x : k ≠ k' → (k', x) ∉ append_num k n [].
Proof.
  intros Hk. destruct n; cbn; try apply not_elem_of_nil.
  intros [= E _]%list_elem_of_singleton. by apply Hk.
Qed.

Lemma append_num_elem k n z :
  (k, pretty z) ∈ append_num k n [] ↔ n = Some z.
Proof.
  destruct n as [y|]; cbn.
  - rewrite list_elem_of_singleton. split.
    + intros [= E]. by apply (inj pretty) in E as ->.
    + by intros [= ->].
  - split; [by intros ?%elem_of_nil|done].
Qed.

Lemma keywords_other (l : list string) k x :
  k ≠ "keywords" → (k, x) ∉ (λ keyword, ("keywords", keyword)) <$> l.
Proof. intros Hk (y & [= -> _] & _)%list_elem_of_fmap. done. Qed.

(** X4: [searchStudies] sends one request, to [/studies?]; in its query no
    parameter other than a keyword has an empty value, the parameters other
    than the keywords come in one fixed order and each at most once, the
    keywords are the ones given, in their order, and a page or a size is
    sent whenever it was given (zero too). *)
Theorem searchStudies_query (p : SearchParams) (w : World) :
  ∃ query : list (string * string),
    sent (searchStudies up p w).2
    = sent w ++ [requestOf (this w) {| path := "/studies?"; search := query |}
                   None None]
    ∧ Forall (λ kv, kv.1 = "keywords" ∨ kv.2 ≠ "") query
    ∧ filter (λ k, k ≠ "keywords") query.*1
        `sublist_of` ["query"; "collection"; "type"; "author"; "page"; "size";
                      "sortBy"; "sortOrder"; "releaseDateFrom"; "releaseDateTo"]
    ∧ (filter (λ kv, kv.1 = "keywords") query).*2 = default [] (sp_keywords p)
    ∧ (∀ z, ("page", pretty z) ∈ query ↔ sp_page p = Some z)
    ∧ (∀ z, ("size", pretty z) ∈ query ↔ sp_size p = Some z).
Proof.
  unfold searchStudies. cbv zeta. rewrite makeRequest_run. cbn [snd sent].
  eexists. split; [reflexivity|].
  rewrite (append_if_app "releaseDateTo"), (append_if_app "releaseDateFrom"),
    (append_if_app "sortOrder"), (append_if_app "sortBy"),
    (append_num_app "size"), (append_num_app "page"),
    (append_if_app "author"), (append_if_app "type"),
    (append_if_app "collection").
  split_and!.
  - rewrite !Forall_app. split_and!;
      auto using append_if_values, append_num_values.
    apply Forall_fmap, Forall_true. by left.
  - rewrite !fmap_app, !filter_app, keywords_keys, app_nil_r.
    change ["query"; "collection"; "type"; "author"; "page"; "size";
            "sortBy"; "sortOrder"; "releaseDateFrom"; "releaseDateTo"]
      with ((((((((((["query"] ++ ["collection"]) ++ ["type"]) ++ ["author"])
                   ++ ["page"]) ++ ["size"]) ++ ["sortBy"]) ++ ["sortOrder"])
               ++ ["releaseDateFrom"]) ++ ["releaseDateTo"])).
    repeat apply sublist_app;
      (etrans; [apply sublist_filter|]);
      auto using append_if_keys, append_num_keys.
  - rewrite !filter_app, !fmap_app.
    rewrite !append_if_no_keywords, !append_num_no_keywords by done.
    rewrite keywords_values, !fmap_nil, !app_nil_r. done.
  - intros z. rewrite !elem_of_app, append_num_elem.
    pose proof (λ k v, append_if_other k "page" v (pretty z)) as Hif.
    pose proof (append_num_other "size" "page" (sp_size p) (pretty z)) as Hnum.
    pose proof (keywords_other (default [] (sp_keywords p)) "page" (pretty z)) as Hkw.
    split; [|tauto]. intros H.
    repeat match type of H with
    | _ ∨ _ => destruct H as [H|H]
    end; try done; exfalso;
      first [ by eapply Hif; [|exact H] | by eapply Hnum; [|exact H]
            | by eapply Hkw; [|exact H] | by eapply elem_of_nil ].
  - intros z. rewrite !elem_of_app, append_num_elem.
    pose proof (λ k v, append_if_other k "size" v (pretty z)) as Hif.
    pose proof (append_num_other "page" "size" (sp_page p) (pretty z)) as Hnum.
    pose proof (keywords_other (default [] (sp_keywords p)) "size" (pretty z)) as Hkw.
    split; [|tauto]. intros H.
    repeat match type of H with
    | _ ∨ _ => destruct H as [H|H]
    end; try done; exfalso;
      first [ by eapply Hif; [|exact H] | by eapply Hnum; [|exact H]
            | by eapply Hkw; [|exact H] | by eapply elem_of_nil ].
Qed.
End QueryFacts.

(** ** The validator and [formatAccessionNumber] *)

Lemma upper_cases c :
  Js.upper (Js.upper c) = Js.upper c
  ∧ Js.lower (Js.upper c) = Js.lower c
  ∧ (c = Js.upper c ∨ c = Js.lower c)
  ∧ Js.is_lower (Js.upper c) = false.
Proof.
  assert (H : bool_decide (Js.upper (Js.upper c) = Js.upper c)
              && bool_decide (Js.lower (Js.upper c) = Js.lower c)
              && (bool_decide (c = Js.upper c) || bool_decide (c = Js.lower c))
              && negb (Js.is_lower (Js.upper c)) = true).
  { revert c. apply (all_ascii_complete (λ c, _ && _)). vm_compute. reflexivity. }
  apply andb_true_iff in H as [H H4]. apply andb_true_iff in H as [H H3].
  apply andb_true_iff in H as [H1 H2]. apply orb_true_iff in H3.
  apply bool_decide_eq_true_1 in H1, H2. apply negb_true_iff in H4.
  split_and!; try done.
  destruct H3 as [H3|H3]; apply bool_decide_eq_true_1 in H3; auto.
Qed.

Lemma accepts_upper cs c :
  RegExp.accepts true cs (Js.upper c) = RegExp.accepts true cs c.
Proof.
  destruct (upper_cases c) as (H1 & H2 & H3 & _).
  unfold RegExp.accepts. rewrite H1, H2.
  destruct H3 as [H3|H3]; rewrite H3 at 4;
    by destruct (RegExp.contains cs (Js.upper c)),
                (RegExp.contains cs (Js.lower c)).
Qed.

Lemma after_upper p c :
  RegExp.after true (Js.upper c) p = RegExp.after true c p.
Proof.
  induction p as [| |cs|p IHp q IHq|p IHp q IHq|p IHp]; cbn [RegExp.after];
    rewrite ?accepts_upper, ?IHp, ?IHq; done.
Qed.

Lemma run_upper w : ∀ p,
  RegExp.run true p (Js.upper <$> w) = RegExp.run true p w.
Proof.
  induction w as [|c w IH]; intros p; [done|].
  rewrite fmap_cons. cbn [RegExp.run]. by rewrite after_upper, IH.
Qed.

Lemma upper_word c a :
  Js.upper c = Js.upper a →
  Accession.is_word a || bool_decide (a = "-"%char) = true →
  Accession.is_word c || bool_decide (c = "-"%char) = true.
Proof.
  assert (H : ∀ c, Accession.is_word (Js.upper c) || bool_decide (Js.upper c = "-"%char)
                   = Accession.is_word c || bool_decide (c = "-"%char)).
  { intros c'. apply eqb_prop. revert c'.
    apply (all_ascii_complete (λ c, eqb _ _)). vm_compute. reflexivity. }
  intros E. by rewrite <- (H c), <- (H a), E.
Qed.

Section ValidatorFacts.
Import BioStudiesApiClient.

Let safe (c : ascii) : Prop := Accession.is_word c = true ∨ c = "-"%char.

Lemma safe_bool c :
  safe c ↔ Accession.is_word c || bool_decide (c = "-"%char) = true.
Proof.
  unfold safe. rewrite orb_true_iff.
  split; (intros [H|H]; [by left|right]).
  - by apply bool_decide_eq_true_2.
  - by apply bool_decide_eq_true_1 in H.
Qed.

Lemma spells_safe t p :
  Accession.spells t p → Forall safe (list_ascii_of_string t) →
  Forall safe (list_ascii_of_string p) ∧ String.length p = String.length t.
Proof.
  rewrite spells_chars, <- !chars_length.
  generalize (list_ascii_of_string t) as l2.
  induction (list_ascii_of_string p) as [|c l1 IH]; intros [|a l2] E Hsafe;
    try done.
  rewrite !fmap_cons in E. injection E as Hc E.
  apply Forall_cons in Hsafe as [Ha Hsafe].
  destruct (IH l2 E Hsafe) as [IH1 IH2]. split; [|cbn; by rewrite IH2].
  apply Forall_cons. split; [|done].
  apply safe_bool. apply (upper_word c a Hc). by apply safe_bool.
Qed.

Lemma digits_safe d :
  Accession.digits d →
  Forall safe (list_ascii_of_string d) ∧ 1 ≤ String.length d
  ∧ ∃ c, last (list_ascii_of_string d) = Some c ∧ Js.is_digit c = true.
Proof.
  intros [Hne Hall]. unfold Accession.all in Hall. split_and!.
  - eapply Forall_impl; [exact Hall|]. intros c Hc. left.
    unfold Accession.is_word. by rewrite Hc.
  - destruct d; [done|cbn; lia].
  - destruct (last (list_ascii_of_string d)) as [c|] eqn:E.
    + exists c. split; [done|].
      apply last_Some_elem_of in E. by eapply Forall_forall in Hall.
    + apply last_None in E. by destruct d.
Qed.

Lemma length_append a b : String.length (a +:+ b) = String.length a + String.length b.
Proof. by rewrite <- !chars_length, chars_app, length_app. Qed.

Lemma valid_WellFormed s :
  isValidAccessionNumber (Js.Str s) = true → Accession.WellFormed s.
Proof.
  unfold isValidAccessionNumber. destruct s as [|c s]; [done|].
  cbn [Js.falsy Js.is_string orb negb]. unfold patterns. cbn [existsb].
  rewrite !orb_true_iff, !test_FullMatch, !FullMatch_prefix_digits,
    FullMatch_ArrayExpress, FullMatch_Project.
  intros [H|[H|[H|[H|[H|[H|H]]]]]]; [ | | | | | | done].
  - destruct H as (p & d & -> & ? & ?). by apply Accession.BioStudies.
  - destruct H as (p & w & d & -> & ? & ? & ? & ?).
    by apply Accession.ArrayExpress.
  - destruct H as (p & d & -> & ? & ?). by apply Accession.Empiar.
  - destruct H as (p & d & -> & ? & ?). by apply Accession.BioImages.
  - destruct H as (p & d & -> & ? & ?). by apply Accession.BioSamples.
  - destruct H as (p & a & b & d & -> & ? & ? & ? & ?).
    by apply Accession.Project.
Qed.

(** X5: [formatAccessionNumber] takes an accession the validator accepts to
    one it accepts too, of the same length and without a lower-case letter,
    and formatting a second time changes nothing. *)
Theorem formatAccessionNumber_valid (accno : string) :
  isValidAccessionNumber (Js.Str accno) = true →
  let formatted := formatAccessionNumber accno in
  isValidAccessionNumber (Js.Str formatted) = true
  ∧ formatAccessionNumber formatted = formatted
  ∧ String.length formatted = String.length accno
  ∧ Forall (λ c, Js.is_lower c = false) (list_ascii_of_string formatted).
Proof.
  intros Hvalid formatted. subst formatted.
  destruct accno as [|c s]; [done|].
  change (formatAccessionNumber (String c s)) with (Js.toUpperCase (String c s)).
  set (u := Js.toUpperCase (String c s)).
  assert (Hu : u = String (Js.upper c) (Js.toUpperCase s)) by done.
  split_and!.
  - rewrite Hu. rewrite <- Hu. revert Hvalid. unfold isValidAccessionNumber.
    rewrite Hu at 1 2. cbn [Js.falsy Js.is_string orb negb].
    unfold patterns, RegExp.test. cbn [existsb RegExp.ignoreCase RegExp.source].
    subst u. by rewrite chars_toUpperCase, !run_upper.
  - rewrite Hu. change (formatAccessionNumber (String ?a ?b))
      with (Js.toUpperCase (String a b)). rewrite <- Hu.
    apply chars_inj. subst u. rewrite !chars_toUpperCase, <- list_fmap_compose.
    apply list_fmap_ext. intros _ x _. apply upper_cases.
  - subst u. by rewrite <- !chars_length, chars_toUpperCase, length_fmap.
  - subst u. rewrite chars_toUpperCase. apply Forall_fmap, Forall_true.
    intros x. apply upper_cases.
Qed.

(** X6: an accession the validator accepts consists of ASCII letters,
    digits, underscores and hyphens only, has at least six characters and
    ends with a digit; so the path [/studies/<accno>] built from it has no
    slash, dot, question mark, percent sign or white space of its own. *)
Theorem valid_accession_alphabet (accno : string) :
  isValidAccessionNumber (Js.Str accno) = true →
  Forall (λ c, Accession.is_word c = true ∨ c = "-"%char)
    (list_ascii_of_string accno)
  ∧ 6 ≤ String.length accno
  ∧ ∃ c, last (list_ascii_of_string accno) = Some c ∧ Js.is_digit c = true.
Proof.
  intros W%valid_WellFormed.
  assert (Hprefix : ∀ t p d,
    Forall safe (list_ascii_of_string t) → 5 ≤ String.length t →
    Accession.spells t p → Accession.digits d →
    Forall safe (list_ascii_of_string (p +:+ d))
    ∧ 6 ≤ String.length (p +:+ d)
    ∧ ∃ c, last (list_ascii_of_string (p +:+ d)) = Some c ∧ Js.is_digit c = true).
  { intros t p d Ht Hlen Hp Hd.
    destruct (spells_safe t p Hp Ht) as [Hps Hpl].
    destruct (digits_safe d Hd) as (Hds & Hdl & c & Hc & Hdig).
    rewrite chars_app, length_append, last_app, Hc, Forall_app.
    split_and!; [done|done|lia|eauto]. }
  assert (Hlit : ∀ t : string,
    forallb (λ c, Accession.is_word c || bool_decide (c = "-"%char))
      (list_ascii_of_string t) = true →
    Forall safe (list_ascii_of_string t)).
  { intros t H. apply Forall_forall. intros c Hc%list_elem_of_In.
    apply safe_bool. by eapply forallb_forall in H. }
  destruct W as [p d Hp Hd | p w d Hp Hw Hall Hd | p d Hp Hd | p d Hp Hd
                | p d Hp Hd | p a b d Hp Ha Hb Hd].
  - apply (Hprefix "S-BSST"); [by apply Hlit|cbn; lia|done..].
  - destruct (spells_safe "E-" p Hp (Hlit "E-" eq_refl)) as [Hps Hpl].
    destruct (digits_safe d Hd) as (Hds & Hdl & c & Hc & Hdig).
    rewrite !chars_app, !length_append, !last_app, Hc, !Forall_app, Hpl, Hw.
    split_and!; try done.
    + eapply Forall_impl; [exact Hall|]. intros x Hx. by left.
    + apply Forall_singleton. by right.
    + cbn. lia.
    + eauto.
  - apply (Hprefix "EMPIAR-"); [by apply Hlit|cbn; lia|done..].
  - apply (Hprefix "S-BIAD"); [by apply Hlit|cbn; lia|done..].
  - apply (Hprefix "S-BSMS"); [by apply Hlit|cbn; lia|done..].
  - destruct (spells_safe "PRJ" p Hp (Hlit "PRJ" eq_refl)) as [Hps Hpl].
    destruct (digits_safe d Hd) as (Hds & Hdl & c & Hc & Hdig).
    rewrite chars_app, length_append, Hpl.
    change (list_ascii_of_string (String a (String b d)))
      with ([a; b] ++ list_ascii_of_string d).
    rewrite !last_app, Hc, !Forall_app. split_and!; try done.
    + apply Forall_cons. split.
      * apply safe_bool.
        assert (He : ∃ e, e ∈ ["E"; "D"; "N"]%char ∧ Js.upper a = Js.upper e).
        { exists (Js.upper a). split; [done|]. symmetry. apply upper_cases. }
        destruct He as (e & He & Hae). apply (upper_word a e Hae).
        repeat (apply elem_of_cons in He as [->|He]; [done|]).
        by apply elem_of_nil in He.
      * apply Forall_singleton. left. unfold Accession.is_word.
        rewrite Hb. by rewrite orb_true_r.
    + cbn. lia.
    + eauto.
Qed.
End ValidatorFacts.

Lemma formatAccessionNumber_valid_witness :
  BioStudiesApiClient.isValidAccessionNumber
    (Js.Str (BioStudiesApiClient.formatAccessionNumber "e-mtab-7249")) = true
  ∧ BioStudiesApiClient.formatAccessionNumber "e-mtab-7249" = "E-MTAB-7249".
Proof.
  assert (H : BioStudiesApiClient.isValidAccessionNumber (Js.Str "e-mtab-7249") = true)
    by reflexivity.
  split; [apply (formatAccessionNumber_valid "e-mtab-7249" H)|reflexivity].
Defined.

Lemma valid_accession_alphabet_witness :
  6 ≤ String.length "PRJEB1".
Proof.
  assert (H : BioStudiesApiClient.isValidAccessionNumber (Js.Str "PRJEB1") = true)
    by reflexivity.
  apply (valid_accession_alphabet "PRJEB1" H).
Defined.

(** ** What the client sends for a batch, and what [exists] means *)

Section LookupFacts.
Import BioStudiesApiClient.
Variable up : Upstream.

Let lookup (c : Client) (accno : string) : Request :=
  requestOf c {| path := "/studies/" +:+ accno; search := [] |} None None.

Lemma mapM_getStudyDetails_sent accessions : ∀ w,
  (mapM (getStudyDetails up) accessions w).2
  = {| this := this w;
       sent := sent w
               ++ (lookup (this w)
                     <$> filter (λ accno, isValidAccessionNumber (Js.Str accno) = true)
                           accessions) |}.
Proof.
  induction accessions as [|a l IH]; intros w.
  { rewrite Io_mapM_nil. cbn. rewrite app_nil_r. by destruct w. }
  rewrite Io_mapM_cons. cbn [snd]. rewrite IH.
  destruct (isValidAccessionNumber (Js.Str a)) eqn:Hvalid.
  - assert (E : (getStudyDetails up a w).2
                = {| this := this w; sent := sent w ++ [lookup (this w) a] |}).
    { unfold getStudyDetails. by rewrite Hvalid. }
    rewrite E, filter_cons_True by done. cbn [this sent].
    by rewrite fmap_cons, <- app_assoc.
  - assert (E : (getStudyDetails up a w).2 = w).
    { unfold getStudyDetails. by rewrite Hvalid. }
    rewrite E, filter_cons_False by (by rewrite Hvalid). done.
Qed.

(** X7: for between 1 and 50 accessions [batchGetStudies] sends one request
    for each accession the validator accepts, to [/studies/<accno>] and in
    the order of the input, and none for the others; what it sends does not
    depend on the order in which the answers arrive, and the client itself
    is left as it was. *)
Theorem batchGetStudies_requests (order : list nat) (accessions : list string)
    (w : World) :
  0 < length accessions ≤ 50 →
  (batchGetStudies up order accessions w).2
  = {| this := this w;
       sent := sent w
               ++ ((λ accno,
                      requestOf (this w)
                        {| path := "/studies/" +:+ accno; search := [] |}
                        None None)
                     <$> filter (λ accno, isValidAccessionNumber (Js.Str accno) = true)
                           accessions) |}.
Proof.
  intros Hlen. unfold batchGetStudies.
  rewrite bool_decide_eq_false_2, bool_decide_eq_false_2 by lia.
  rewrite Io_bind_run, Io_ret_run. cbn [snd].
  rewrite mapM_fetchOne. cbn [snd]. apply mapM_getStudyDetails_sent.
Qed.

(** X8: the verdict of [validateStudyAccession] says that the study exists
    exactly when the accession is well-formed and the lookup was answered
    with a 2xx response whose body is truthy: a JSON document other than
    [null], or any text that is not empty, a page of HTML for instance.  When
    it says the study does not exist, it sets no other member. *)
Theorem validateStudyAccession_exists (accno : string) (w : World) :
  let wire :=
    studies up (length (sent w))
      (requestOf (this w) {| path := "/studies/" +:+ accno; search := [] |}
         None None) in
  let truthy_body : bool :=
    match wire with
    | Response _ _ (Json doc) => truthy_data doc
    | Response _ _ (NotJson text) => Js.truthy (Some text)
    | _ => false
    end in
  ∃ verdict,
    (validateStudyAccession up accno w).1 = success (Some (Parsed verdict)) 200
    ∧ exists_ verdict
      = isValidAccessionNumber (Js.Str accno) && delivered wire && truthy_body
    ∧ (exists_ verdict = false →
       v_isPublic verdict = None ∧ v_collection verdict = None
       ∧ v_title verdict = None).
Proof.
  cbv zeta. unfold validateStudyAccession, getStudyDetails. cbn [isValid].
  destruct (isValidAccessionNumber (Js.Str accno)) eqn:Hvalid; cbn [negb andb].
  - rewrite Io_bind_run, makeRequest_run. cbn [fst snd].
    rewrite Io_ret_run. cbn [fst]. eexists. split; [reflexivity|].
    cbn [exists_ v_isPublic v_collection v_title v_accno].
    unfold lookup.
    destruct (studies up _ _) as [st statusText [doc|txt]| |message|]; cbn;
      try (fold (ok st); destruct (ok st); cbn);
      rewrite ?andb_false_r; (split; [done|]);
      try (intros ->); try destruct txt; auto.
  - rewrite Io_ret_run. cbn. eexists. split; [reflexivity|]. cbn. auto.
Qed.
End LookupFacts.

Lemma batchGetStudies_requests_witness :
  length (sent (BioStudiesApiClient.batchGetStudies Sample.up [2; 1; 0]
                  ["S-BSST1"; "not an accession"; "E-MTAB-7249"] Sample.world).2)
  = 2.
Proof.
  rewrite (batchGetStudies_requests Sample.up [2; 1; 0]
             ["S-BSST1"; "not an accession"; "E-MTAB-7249"] Sample.world);
    [reflexivity | cbn; lia].
Defined.

(** ** What the queries leave as it was *)

Section FrameFacts.
Import BioStudiesApiClient.
Variable up : Upstream.
Variable cat : Catalogue.

Let kept (budget : nat) (w w' : World) : Prop :=
  this w' = this w ∧ sent w `prefix_of` sent w'
  ∧ length (sent w') ≤ length (sent w) + budget.

Lemma kept_refl budget w : kept budget w w.
Proof. unfold kept. split_and!; [done|done|lia]. Qed.

Lemma kept_makeRequest {T} (server : Server T) endpoint method body w :
  kept 1 w (makeRequest server endpoint method body w).2.
Proof.
  rewrite makeRequest_run. unfold kept. cbn [snd this sent].
  split_and!; [done|by apply prefix_app_r|]. rewrite length_app. cbn. lia.
Qed.

Lemma kept_getStudyDetails accno w : kept 1 w (getStudyDetails up accno w).2.
Proof.
  unfold getStudyDetails. destruct (isValidAccessionNumber _); cbn [negb];
    [apply kept_makeRequest|apply kept_refl].
Qed.

(** X9: no method of the client other than [authenticate], [setAuthToken]
    and [clearAuthentication] changes the client: the token, the base URL and
    the timeout are what they were.  Each keeps the requests sent before and
    adds at most one, [batchGetStudies] at most one for each accession. *)
Theorem queries_leave_client (accno : string) (p : SearchParams)
    (collection : string) (page size : Z) (files : FileSearchParams)
    (order : list nat) (accessions : list string) (w : World) :
  let kept (budget : nat) (w' : World) : Prop :=
    this w' = this w ∧ sent w `prefix_of` sent w'
    ∧ length (sent w') ≤ length (sent w) + budget in
  kept 1 (getStudyDetails up accno w).2
  ∧ kept 1 (getStudyFiles up accno w).2
  ∧ kept 1 (getStudyLinks up accno w).2
  ∧ kept 1 (searchStudies up p w).2
  ∧ kept 1 (getCollectionStudies up collection page size w).2
  ∧ kept 1 (validateStudyAccession up accno w).2
  ∧ kept 1 (BioStudiesApiClient2.getCollections cat w).2
  ∧ kept 1 (BioStudiesApiClient2.searchFiles cat files w).2
  ∧ kept 0 (BioStudiesApiClient2.isAuthenticated w).2
  ∧ kept (length accessions) (batchGetStudies up order accessions w).2.
Proof.
  intros kept'. split_and!; subst kept'; cbv beta.
  - apply kept_getStudyDetails.
  - unfold getStudyFiles. destruct (isValidAccessionNumber _); cbn [negb];
      [apply kept_makeRequest|apply (kept_refl 1)].
  - unfold getStudyLinks. destruct (isValidAccessionNumber _); cbn [negb];
      [apply kept_makeRequest|apply (kept_refl 1)].
  - apply kept_makeRequest.
  - apply kept_makeRequest.
  - unfold validateStudyAccession. cbn [isValid].
    destruct (isValidAccessionNumber _) eqn:Hvalid; cbn [negb];
      [|apply (kept_refl 1)].
    rewrite Io_bind_run, Io_ret_run. apply kept_getStudyDetails.
  - apply kept_makeRequest.
  - apply kept_makeRequest.
  - apply (kept_refl 0).
  - unfold batchGetStudies.
    destruct (bool_decide (length accessions = 0)); [apply kept_refl|].
    destruct (bool_decide (50 < length accessions)); [apply kept_refl|].
    rewrite Io_bind_run, Io_ret_run. cbn [snd].
    rewrite mapM_fetchOne. cbn [snd]. rewrite mapM_getStudyDetails_sent.
    cbn [this sent]. split_and!; [done|by apply prefix_app_r|].
    rewrite length_app, length_fmap.
    pose proof (length_filter
                  (λ accno, isValidAccessionNumber (Js.Str accno) = true)
                  accessions).
    lia.
Qed.
End FrameFacts.

(** * Further properties of the tools *)

(** ** Which results are flagged as errors *)

Section FlagFacts.
Import Js.
Variable up : Upstream.
Variable cat : Catalogue.
Variable toLocaleString : Z → string.

(** A returned result [out] is flagged exactly when [result] carries an
    error message (and, for a tool with a fallback, its status is not 404);
    its text is then [prefix] and the message. *)
Let flags {T} (fallback : bool) (prefix : string) (result : ApiResponse T)
    (out : Outcome ToolResult) : Prop :=
  ∀ r, out = Returned r →
    (isError r = true
     ↔ truthy (error result) = true ∧ (fallback = true → status result ≠ 404%Z))
    ∧ (isError r = true → text r = prefix +:+ BioStudiesHandlers.show (error result)).

Lemma provideSearchAlternatives_unflagged searchParams r :
  BioStudiesHandlers.provideSearchAlternatives searchParams = Returned r →
  isError r = false.
Proof.
  unfold BioStudiesHandlers.provideSearchAlternatives.
  destruct (match sp_collection searchParams with
            | Some (String a s) => _ | _ => _ end); [|done].
  by intros [= <-].
Qed.

Lemma extractFilesFromStudyMetadata_unflagged accno w r :
  (BioStudiesHandlers.extractFilesFromStudyMetadata up accno w).1 = Returned r →
  isError r = false.
Proof.
  unfold BioStudiesHandlers.extractFilesFromStudyMetadata,
    BioStudiesHandlers.try_catch.
  rewrite !Io_bind_run. cbn [fst snd].
  set (studyResult := (BioStudiesApiClient.getStudyDetails up accno w).1).
  destruct (truthy (error studyResult)).
  { rewrite !Io_ret_run. cbn. by intros [= <-]. }
  destruct (negb (truthy_data (data studyResult))).
  { rewrite !Io_ret_run. cbn. by intros [= <-]. }
  destruct (bool_decide _); rewrite !Io_ret_run; cbn; by intros [= <-].
Qed.

Lemma flags_search (args : SearchParams) (w : World) :
  flags true "Error searching BioStudies: "
    (BioStudiesApiClient.searchStudies up (BioStudiesHandlers.searchParamsOf args) w).1
    (BioStudiesHandlers.searchStudies up args w).1.
Proof.
  unfold flags, BioStudiesHandlers.searchStudies. intros r.
  destruct (_ && _ && _); [by rewrite Io_ret_run|].
  cbv zeta. rewrite Io_bind_run.
  set (result := (BioStudiesApiClient.searchStudies up _ w).1).
  destruct (truthy (error result)) eqn:He; cbn [andb].
  - destruct (status result =? 404)%Z eqn:Hs.
    + rewrite Io_ret_run. cbn [fst]. intros Hr%provideSearchAlternatives_unflagged.
      rewrite Hr. apply Z.eqb_eq in Hs. split; [|done].
      split; [done|]. intros [_ H]. by destruct H.
    + rewrite Io_ret_run. cbn [fst]. intros [= <-]. cbn.
      apply Z.eqb_neq in Hs. done.
  - rewrite Io_ret_run. cbn [fst].
    destruct (data result) as [[response|m e|[|a s]]|];
      try destruct (bool_decide _); try done;
      intros [= <-]; cbn; (split; [|done]); split; try done; by intros [? _].
Qed.

Lemma flags_collection (args : CollectionArgs) (collection : string) (w : World) :
  ca_collection args = Str collection →
  flags false
    ("Error retrieving studies from collection " +:+ collection +:+ ": ")
    (BioStudiesApiClient.getCollectionStudies up collection
       (BioStudiesHandlers.pageArg (ca_page args))
       (BioStudiesHandlers.sizeArg (ca_size args)) w).1
    (BioStudiesHandlers.getCollectionStudies up args w).1.
Proof.
  unfold flags, BioStudiesHandlers.getCollectionStudies. intros -> r.
  destruct collection as [|a s]; [by rewrite Io_ret_run|].
  cbv zeta. rewrite Io_bind_run.
  set (result := (BioStudiesApiClient.getCollectionStudies up _ _ _ w).1).
  destruct (truthy (error result)) eqn:He.
  - rewrite Io_ret_run. cbn [fst]. intros [= <-]. cbn.
    rewrite append_assoc, append_assoc. done.
  - rewrite Io_ret_run. cbn [fst].
    destruct (data result) as [[response|m e|[|a' s']]|];
      try destruct (bool_decide _); try done;
      intros [= <-]; cbn; (split; [|done]); split; try done; by intros [? _].
Qed.

Lemma flags_files (args : FilesArgs) (accno : string) (w : World) :
  fa_accno args = Str accno →
  flags true ("Error retrieving files for study " +:+ accno +:+ ": ")
    (BioStudiesApiClient.getStudyFiles up accno w).1
    (BioStudiesHandlers.getStudyFiles up args w).1.
Proof.
  unfold flags, BioStudiesHandlers.getStudyFiles. intros -> r.
  destruct accno as [|a s]; [by rewrite Io_ret_run|].
  cbv zeta. rewrite Io_bind_run.
  set (result := (BioStudiesApiClient.getStudyFiles up _ w).1).
  destruct (truthy (error result)) eqn:He; cbn [andb].
  - destruct (status result =? 404)%Z eqn:Hs.
    + intros Hr%extractFilesFromStudyMetadata_unflagged.
      rewrite Hr. apply Z.eqb_eq in Hs. split; [|done].
      split; [done|]. intros [_ H]. by destruct H.
    + rewrite Io_ret_run. cbn [fst]. intros [= <-]. cbn.
      apply Z.eqb_neq in Hs. rewrite append_assoc, append_assoc. done.
  - rewrite Io_ret_run. cbn [fst].
    destruct (data result) as [[files|m e|[|a' s']]|];
      try destruct (bool_decide _); try done;
      intros [= <-]; cbn; (split; [|done]); split; try done; by intros [? _].
Qed.

Lemma flags_collections (w : World) :
  flags true "Error retrieving collections: "
    (BioStudiesApiClient2.getCollections cat w).1
    (BioStudiesHandlers2.listCollections cat toLocaleString w).1.
Proof.
  unfold flags, BioStudiesHandlers2.listCollections. intros r.
  rewrite Io_bind_run.
  set (result := (BioStudiesApiClient2.getCollections cat w).1).
  destruct (truthy (error result)) eqn:He; cbn [andb].
  - destruct (status result =? 404)%Z eqn:Hs.
    + rewrite Io_ret_run. cbn [fst]. intros [= <-]. cbn.
      apply Z.eqb_eq in Hs. split; [|done].
      split; [done|]. intros [_ H]. by destruct H.
    + rewrite Io_ret_run. cbn [fst]. intros [= <-]. cbn.
      apply Z.eqb_neq in Hs. done.
  - rewrite Io_ret_run. cbn [fst].
    destruct (data result) as [[collections|m e|[|a' s']]|];
      try destruct (bool_decide _); try done;
      intros [= <-]; cbn; (split; [|done]); split; try done; by intros [? _].
Qed.

Lemma flags_fileSearch (args : FileSearchParams) (w : World) :
  flags false "Error searching files: "
    (BioStudiesApiClient2.searchFiles cat
       (BioStudiesHandlers2.fileSearchParamsOf args) w).1
    (BioStudiesHandlers2.searchFiles cat args w).1.
Proof.
  unfold flags, BioStudiesHandlers2.searchFiles. intros r.
  destruct (_ && _ && _); [by rewrite Io_ret_run|].
  cbv zeta. rewrite Io_bind_run.
  set (result := (BioStudiesApiClient2.searchFiles cat _ w).1).
  destruct (truthy (error result)) eqn:He.
  - rewrite Io_ret_run. cbn [fst]. intros [= <-]. cbn. done.
  - rewrite Io_ret_run. cbn [fst].
    destruct (data result) as [[response|m e|[|a' s']]|];
      try destruct (bool_decide _); try done;
      intros [= <-]; cbn; (split; [|done]); split; try done; by intros [? _].
Qed.

(** X10: a result returned by a tool that queries the server is flagged as an
    error exactly when the client's result carries an error message and, for
    the three tools with a fallback (the study search, the files of a study,
    the list of collections), its status is not 404; the text of a flagged
    result is the tool's prefix followed by that message.  The search of a
    collection and the search of files have no fallback: they flag a 404
    too. *)
Theorem tools_flag_failures (search : SearchParams) (collection : string)
    (page size : option Z) (accno : string) (files : FileSearchParams)
    (w : World) :
  let flags {T} (fallback : bool) (prefix : string) (result : ApiResponse T)
      (out : Outcome ToolResult) : Prop :=
    ∀ r, out = Returned r →
      (isError r = true
       ↔ truthy (error result) = true
         ∧ (fallback = true → status result ≠ 404%Z))
      ∧ (isError r = true
         → text r = prefix +:+ BioStudiesHandlers.show (error result)) in
  flags true "Error searching BioStudies: "
    (BioStudiesApiClient.searchStudies up
       (BioStudiesHandlers.searchParamsOf search) w).1
    (BioStudiesHandlers.searchStudies up search w).1
  ∧ flags false
      ("Error retrieving studies from collection " +:+ collection +:+ ": ")
      (BioStudiesApiClient.getCollectionStudies up collection
         (BioStudiesHandlers.pageArg page) (BioStudiesHandlers.sizeArg size) w).1
      (BioStudiesHandlers.getCollectionStudies up
         {| ca_collection := Str collection; ca_page := page; ca_size := size |}
         w).1
  ∧ flags true ("Error retrieving files for study " +:+ accno +:+ ": ")
      (BioStudiesApiClient.getStudyFiles up accno w).1
      (BioStudiesHandlers.getStudyFiles up {| fa_accno := Str accno |} w).1
  ∧ flags true "Error retrieving collections: "
      (BioStudiesApiClient2.getCollections cat w).1
      (BioStudiesHandlers2.listCollections cat toLocaleString w).1
  ∧ flags false "Error searching files: "
      (BioStudiesApiClient2.searchFiles cat
         (BioStudiesHandlers2.fileSearchParamsOf files) w).1
      (BioStudiesHandlers2.searchFiles cat files w).1.
Proof.
  cbv zeta. split_and!.
  - apply flags_search.
  - by apply (flags_collection
                {| ca_collection := Str collection; ca_page := page;
                   ca_size := size |}).
  - by apply (flags_files {| fa_accno := Str accno |}).
  - apply flags_collections.
  - apply flags_fileSearch.
Qed.
End FlagFacts.

(** ** The verdict of the validation tool, and the report of a batch *)

Local Ltac thrown :=
  eexists; split; [reflexivity|]; split; [done|by vm_compute].

Local Ltac unread :=
  eexists; split; [reflexivity|]; split; [done|]; split; [done|by vm_compute].

Section VerdictFacts.
Import Js.
Variable up : Upstream.

Lemma validate_tool_returns (a : ascii) (s : string) (w : World) :
  ∃ t, (BioStudiesHandlers2.validateStudyAccession up
          {| va_accno := Str (String a s) |} w).1
       = Returned (content t).
Proof.
  unfold BioStudiesHandlers2.validateStudyAccession.
  cbn [va_accno]. rewrite Io_bind_run.
  unfold BioStudiesApiClient.validateStudyAccession,
    BioStudiesApiClient.getStudyDetails. cbn [isValid].
  destruct (BioStudiesApiClient.isValidAccessionNumber (Str (String a s)));
    cbn [negb].
  - rewrite Io_bind_run, makeRequest_run. cbn [fst snd].
    set (wire := studies up _ _). rewrite !Io_ret_run. cbn [fst snd].
    cbn [success error data truthy isValid negb exists_].
    rewrite Io_ret_run. cbn [fst].
    destruct (negb (truthy (error (BioStudiesApiClient.respond wire))) && _);
      cbn [negb]; eauto.
  - rewrite !Io_ret_run. cbn. eauto.
Qed.

(** X11: for a non-empty string the validation tool always returns a result
    that is not flagged as an error, and never throws.  For an accession of
    invalid format the result is the invalid-format text and nothing is sent.
    For one of valid format whose lookup is not answered with a 2xx response
    (a timeout, a transport failure, a server error) the result is the
    text that says the study was not found. *)
Theorem validate_tool_verdicts (a : ascii) (s : string) (w : World) :
  let accno := String a s in
  let out :=
    BioStudiesHandlers2.validateStudyAccession up {| va_accno := Str accno |} w in
  let wire :=
    studies up (length (sent w))
      (BioStudiesApiClient.requestOf (this w)
         {| path := "/studies/" +:+ accno; search := [] |} None None) in
  (∃ t, out.1 = Returned (content t))
  ∧ (BioStudiesApiClient.isValidAccessionNumber (Str accno) = false →
     out = (Returned (content (BioStudiesHandlers2.invalidFormatText accno)), w))
  ∧ (BioStudiesApiClient.isValidAccessionNumber (Str accno) = true →
     delivered wire = false →
     out.1 = Returned (content (BioStudiesHandlers2.notFoundText accno))).
Proof.
  cbv zeta. split; [apply validate_tool_returns|].
  unfold BioStudiesHandlers2.validateStudyAccession.
  cbn [va_accno]. rewrite Io_bind_run.
  unfold BioStudiesApiClient.validateStudyAccession,
    BioStudiesApiClient.getStudyDetails. cbn [isValid].
  destruct (BioStudiesApiClient.isValidAccessionNumber (Str (String a s)))
    eqn:Hvalid; cbn [negb].
  - rewrite Io_bind_run, makeRequest_run. cbn [fst snd].
    set (wire := studies up _ _). rewrite !Io_ret_run. cbn [fst snd].
    cbn [success error data truthy isValid negb exists_].
    rewrite Io_ret_run. cbn [fst]. split; [done|].
    intros _ Hd. destruct (respond_undelivered _ Hd) as [-> _].
    cbn [truthy_data]. by rewrite andb_false_r.
  - rewrite !Io_ret_run. cbn. split; done.
Qed.

Lemma batchGetStudies_in_range order accessions w r :
  0 < length accessions ≤ 50 →
  (BioStudiesApiClient.batchGetStudies up order accessions w).1 = Some r →
  ∃ b, r = success (Some (Parsed b)) 200 ∧ total b = length accessions.
Proof.
  intros Hlen. unfold BioStudiesApiClient.batchGetStudies.
  rewrite bool_decide_eq_false_2, bool_decide_eq_false_2 by lia.
  rewrite Io_bind_run, Io_ret_run. cbn [fst].
  destruct (BioStudiesApiClient.allSettled order _) as [results|]; [|done].
  cbn [mbind option_bind].
  destruct (foldl _ _ _). intros [= <-]. eauto.
Qed.

Lemma batch_tool_in_range (order : list nat) (accessions : list string)
    (w : World) (outcome : Outcome ToolResult) :
  0 < length accessions ≤ 50 →
  (BioStudiesHandlers.batchGetStudies up order
     {| ba_accessions := Some accessions |} w).1 = Some outcome →
  ∃ b, (BioStudiesApiClient.batchGetStudies up order accessions w).1
       = Some (success (Some (Parsed b)) 200)
       ∧ total b = length accessions
       ∧ outcome = Returned (content (BioStudiesHandlers.formatBatch b)).
Proof.
  intros Hlen. unfold BioStudiesHandlers.batchGetStudies. cbn [ba_accessions].
  rewrite bool_decide_eq_false_2, bool_decide_eq_false_2 by lia.
  rewrite Io_bind_run, Io_ret_run. cbn [fst].
  destruct (BioStudiesApiClient.batchGetStudies up order accessions w).1
    as [r|] eqn:Hr; [|done].
  destruct (batchGetStudies_in_range _ _ _ _ Hlen Hr) as (b & -> & Hb).
  cbn. intros [= <-]. eauto.
Qed.

Lemma batch_tool_outside (order : list nat) (accessions : list string)
    (w : World) :
  (length accessions = 0 →
   BioStudiesHandlers.batchGetStudies up order
     {| ba_accessions := Some accessions |} w
   = (Some (Returned (content "No accession numbers provided")), w))
  ∧ (50 < length accessions →
     BioStudiesHandlers.batchGetStudies up order
       {| ba_accessions := Some accessions |} w
     = (Some (Returned (content "Maximum 50 studies can be processed at once")), w)).
Proof.
  unfold BioStudiesHandlers.batchGetStudies. cbn [ba_accessions]. split.
  - intros H0. by rewrite bool_decide_eq_true_2.
  - intros H50. rewrite bool_decide_eq_false_2 by lia.
    by rewrite bool_decide_eq_true_2.
Qed.

Lemma batch_tool_returns (order : list nat) (accessions : list string)
    (w : World) (outcome : Outcome ToolResult) :
  (BioStudiesHandlers.batchGetStudies up order
     {| ba_accessions := Some accessions |} w).1 = Some outcome →
  ∃ t, outcome = Returned (content t).
Proof.
  destruct (batch_tool_outside order accessions w) as [H0 H50].
  destruct (decide (length accessions = 0)) as [Hlen|Hlen].
  { rewrite (H0 Hlen). intros [= <-]. eauto. }
  destruct (decide (50 < length accessions)) as [Hlen'|Hlen'].
  { rewrite (H50 Hlen'). intros [= <-]. eauto. }
  intros Ho.
  destruct (batch_tool_in_range order accessions w outcome ltac:(lia) Ho)
    as (b & _ & _ & ->).
  eauto.
Qed.

(** X12: the batch tool never throws for an array of accessions and never
    flags its result as an error: the failures of single studies are part of
    the text.  For an empty array and for more than 50 accessions it
    answers with a fixed text and sends nothing; otherwise its text is the
    report of the client's result, which counts every accession given. *)
Theorem batch_tool_reports (order : list nat) (accessions : list string)
    (w : World) :
  let out :=
    BioStudiesHandlers.batchGetStudies up order
      {| ba_accessions := Some accessions |} w in
  (∀ outcome, out.1 = Some outcome → ∃ t, outcome = Returned (content t))
  ∧ (length accessions = 0 →
     out = (Some (Returned (content "No accession numbers provided")), w))
  ∧ (50 < length accessions →
     out = (Some (Returned (content "Maximum 50 studies can be processed at once")), w))
  ∧ (0 < length accessions ≤ 50 →
     ∀ outcome, out.1 = Some outcome →
       ∃ b, (BioStudiesApiClient.batchGetStudies up order accessions w).1
            = Some (success (Some (Parsed b)) 200)
            ∧ total b = length accessions
            ∧ outcome = Returned (content (BioStudiesHandlers.formatBatch b))).
Proof.
  cbv zeta. destruct (batch_tool_outside order accessions w) as [H0 H50].
  split_and!; [|done|done|].
  - intros outcome. apply batch_tool_returns.
  - intros Hlen outcome. by apply batch_tool_in_range.
Qed.

(** X13: a tool called with an arguments object that lacks the argument it
    requires throws an [Error] whose message includes the word the server
    looks for to report invalid parameters, and sends nothing.  For the three
    tools that take one identifier this is so for every value that is not a
    non-empty string; the two searches need one of their three main
    parameters, the batch tool its array.  A tool called without any
    arguments object throws a [TypeError] instead, for the first member it
    reads; its message does not include that word, and nothing is sent
    either. *)
Theorem tools_require_arguments (v : Value) (page size : option Z)
    (search : SearchParams) (files : FileSearchParams) (cat : Catalogue)
    (order : list nat) (w : World) :
  falsy v || negb (is_string v) = true →
  let rejected (out : Outcome ToolResult * World) : Prop :=
    ∃ e, out = (Threw e, w) ∧ name e = "Error"
         ∧ Mcp.includes (message e) "required" = true in
  let unread (member : string) (out : Outcome ToolResult * World) : Prop :=
    ∃ e, out = (Threw e, w) ∧ name e = "TypeError"
         ∧ message e
           = "Cannot read properties of undefined (reading '" +:+ member +:+ "')"
         ∧ Mcp.includes (message e) "required" = false in
  (rejected (Tool.getStudyFiles up (Some {| fa_accno := v |}) w)
   ∧ rejected (Tool.validateStudyAccession up (Some {| va_accno := v |}) w)
   ∧ rejected (Tool.getCollectionStudies up
                 (Some {| ca_collection := v; ca_page := page; ca_size := size |})
                 w)
   ∧ (truthy (sp_query search) || truthy (sp_collection search)
      || truthy (sp_author search) = false →
      rejected (Tool.searchStudies up (Some search) w))
   ∧ (truthy (fs_accno files) || truthy (fs_name files)
      || truthy (fs_type files) = false →
      rejected (Tool.searchFiles cat (Some files) w))
   ∧ ∃ e, Tool.batchGetStudies up order (Some {| ba_accessions := None |}) w
          = (Some (Threw e), w)
          ∧ name e = "Error" ∧ Mcp.includes (message e) "required" = true)
  ∧ (unread "accno" (Tool.getStudyFiles up None w)
     ∧ unread "accno" (Tool.validateStudyAccession up None w)
     ∧ unread "collection" (Tool.getCollectionStudies up None w)
     ∧ unread "query" (Tool.searchStudies up None w)
     ∧ unread "accno" (Tool.searchFiles cat None w)
     ∧ ∃ e, Tool.batchGetStudies up order None w = (Some (Threw e), w)
            ∧ name e = "TypeError"
            ∧ message e
              = "Cannot read properties of undefined (reading 'accessions')"
            ∧ Mcp.includes (message e) "required" = false).
Proof.
  intros Hv rejected unread. subst rejected unread. cbv beta.
  unfold Tool.getStudyFiles, Tool.validateStudyAccession,
    Tool.getCollectionStudies, Tool.searchStudies, Tool.searchFiles,
    Tool.batchGetStudies.
  split; split_and!.
  - unfold BioStudiesHandlers.getStudyFiles. cbn [fa_accno].
    destruct v as [| | | |[|c s]|]; try done;
      thrown.
  - unfold BioStudiesHandlers2.validateStudyAccession. cbn [va_accno].
    destruct v as [| | | |[|c s]|]; try done;
      thrown.
  - unfold BioStudiesHandlers.getCollectionStudies. cbn [ca_collection].
    destruct v as [| | | |[|c s]|]; try done;
      thrown.
  - intros H. apply orb_false_iff in H as [H H3].
    apply orb_false_iff in H as [H1 H2].
    unfold BioStudiesHandlers.searchStudies. rewrite H1, H2, H3. cbn [negb andb].
    thrown.
  - intros H. apply orb_false_iff in H as [H H3].
    apply orb_false_iff in H as [H1 H2].
    unfold BioStudiesHandlers2.searchFiles. rewrite H1, H2, H3. cbn [negb andb].
    thrown.
  - thrown.
  - unread.
  - unread.
  - unread.
  - unread.
  - unread.
  - unread.
Qed.
End VerdictFacts.

Lemma tools_require_arguments_witness :
  ∃ e, Tool.getStudyFiles Sample.up (Some {| fa_accno := Js.Number 7 |})
         Sample.world = (Js.Threw e, Sample.world)
       ∧ Js.name e = "Error" ∧ Mcp.includes (Js.message e) "required" = true.
Proof.
  assert (H : Js.falsy (Js.Number 7) || negb (Js.is_string (Js.Number 7)) = true)
    by reflexivity.
  apply (tools_require_arguments Sample.up (Js.Number 7) None None
           (Sample.query None None)
           {| fs_accno := None; fs_path := None; fs_name := None;
              fs_type := None; fs_minSize := None; fs_maxSize := None |}
           {| collections := λ _ _, NonError; fileSearch := λ _ _, NonError |}
           [] Sample.world H).
Defined.

(** ** What the searches ask the server for *)

Section RequestFacts.
Import Js.
Variable up : Upstream.
Variable cat : Catalogue.

Lemma sizeArg_bounds (size : option Z) :
  (BioStudiesHandlers.sizeArg size ≤ 100)%Z
  ∧ BioStudiesHandlers.sizeArg size ≠ 0%Z
  ∧ (∀ z, size = Some z → z ≠ 0%Z → BioStudiesHandlers.sizeArg size = Z.min z 100)
  ∧ (size = None ∨ size = Some 0%Z → BioStudiesHandlers.sizeArg size = 20%Z).
Proof.
  unfold BioStudiesHandlers.sizeArg, truthy_num.
  destruct size as [z|]; cbn [default negb];
    [destruct (z =? 0)%Z eqn:E; [apply Z.eqb_eq in E|apply Z.eqb_neq in E];
     cbn [negb]|];
    split_and!; intros; try destruct_or!; simplify_eq; unfold id; try lia; done.
Qed.

Lemma pageArg_cases (page : option Z) :
  (page = None ∨ page = Some 0%Z → BioStudiesHandlers.pageArg page = 0%Z)
  ∧ (∀ z, page = Some z → BioStudiesHandlers.pageArg page = z).
Proof.
  unfold BioStudiesHandlers.pageArg, truthy_num.
  destruct page as [z|]; cbn [default negb];
    [destruct (z =? 0)%Z eqn:E; [apply Z.eqb_eq in E|apply Z.eqb_neq in E];
     cbn [negb]|];
    split_and!; intros; try destruct_or!; simplify_eq; unfold id; try lia; done.
Qed.

Lemma searchStudies_page_size (p : SearchParams) (w : World) (page size : Z) :
  sp_page p = Some page → sp_size p = Some size →
  ∃ query,
    (BioStudiesApiClient.searchStudies up p w).2
    = {| this := this w;
         sent := sent w
                 ++ [BioStudiesApiClient.requestOf (this w)
                       {| path := "/studies?"; search := query |} None None] |}
    ∧ ("page", pretty page) ∈ query ∧ ("size", pretty size) ∈ query.
Proof.
  intros Hpage Hsize. unfold BioStudiesApiClient.searchStudies. cbv zeta.
  rewrite makeRequest_run. cbn [snd]. eexists. split; [reflexivity|].
  rewrite Hpage, Hsize.
  rewrite (append_if_app "releaseDateTo"), (append_if_app "releaseDateFrom"),
    (append_if_app "sortOrder"), (append_if_app "sortBy"),
    (append_num_app "size"), (append_num_app "page").
  rewrite !elem_of_app.
  assert (H1 : ("page", pretty page)
               ∈ BioStudiesApiClient.append_num "page" (Some page) [])
    by (by apply append_num_elem).
  assert (H2 : ("size", pretty size)
               ∈ BioStudiesApiClient.append_num "size" (Some size) [])
    by (by apply append_num_elem).
  tauto.
Qed.

(** X14: when one of its three main parameters is given, the search tool
    sends one request to [/studies?], always with a page and a size.  The
    size sent is never more than 100 and never 0: it is the size asked for,
    capped at 100, and 20 when none or 0 was asked for.  The page sent is the
    one asked for, 0 when none was. *)
Theorem search_tool_paging (args : SearchParams) (w : World) :
  truthy (sp_query args) || truthy (sp_collection args)
    || truthy (sp_author args) = true →
  let page := BioStudiesHandlers.pageArg (sp_page args) in
  let size := BioStudiesHandlers.sizeArg (sp_size args) in
  (∃ query,
     (BioStudiesHandlers.searchStudies up args w).2
     = {| this := this w;
          sent := sent w
                  ++ [BioStudiesApiClient.requestOf (this w)
                        {| path := "/studies?"; search := query |} None None] |}
     ∧ ("page", pretty page) ∈ query ∧ ("size", pretty size) ∈ query)
  ∧ (size ≤ 100)%Z ∧ size ≠ 0%Z
  ∧ (∀ z, sp_size args = Some z → z ≠ 0%Z → size = Z.min z 100)
  ∧ (sp_size args = None ∨ sp_size args = Some 0%Z → size = 20%Z)
  ∧ (sp_page args = None ∨ sp_page args = Some 0%Z → page = 0%Z)
  ∧ (∀ z, sp_page args = Some z → page = z).
Proof.
  intros Hargs. cbv zeta.
  destruct (sizeArg_bounds (sp_size args)) as (Hs1 & Hs2 & Hs3 & Hs4).
  destruct (pageArg_cases (sp_page args)) as (Hp1 & Hp2).
  split_and!; try done.
  unfold BioStudiesHandlers.searchStudies.
  replace (negb (truthy (sp_query args)) && negb (truthy (sp_collection args))
             && negb (truthy (sp_author args))) with false; last first.
  { destruct (truthy (sp_query args)), (truthy (sp_collection args)),
      (truthy (sp_author args)); done. }
  cbv zeta. rewrite Io_bind_run.
  destruct (searchStudies_page_size (BioStudiesHandlers.searchParamsOf args) w
              (BioStudiesHandlers.pageArg (sp_page args))
              (BioStudiesHandlers.sizeArg (sp_size args)) eq_refl eq_refl)
    as (query & Hsent & Hp & Hs).
  exists query. split; [|done]. rewrite <- Hsent.
  destruct (truthy (error _) && _); [done|].
  by destruct (truthy (error _)).
Qed.

Lemma searchFiles_query (p : FileSearchParams) (w : World) :
  ∃ query,
    (BioStudiesApiClient2.searchFiles cat p w).2
    = {| this := this w;
         sent := sent w
                 ++ [BioStudiesApiClient.requestOf (this w)
                       {| path := "/files?"; search := query |} None None] |}
    ∧ Forall (λ kv, kv.2 ≠ "") query
    ∧ (∀ z, ("minSize", pretty z) ∈ query ↔ fs_minSize p = Some z)
    ∧ (∀ z, ("maxSize", pretty z) ∈ query ↔ fs_maxSize p = Some z).
Proof.
  unfold BioStudiesApiClient2.searchFiles. cbv zeta.
  rewrite makeRequest_run. cbn [snd]. eexists. split; [reflexivity|].
  rewrite (append_num_app "maxSize"), (append_num_app "minSize"),
    (append_if_app "type"), (append_if_app "name"), (append_if_app "path").
  assert (Hnum : ∀ k n, Forall (λ kv : string * string, kv.2 ≠ "")
                          (BioStudiesApiClient.append_num k n [])).
  { intros k [z|]; cbn; [|by apply Forall_nil_2].
    apply Forall_singleton. apply pretty_Z_nonempty. }
  assert (Hif : ∀ k v, Forall (λ kv : string * string, kv.2 ≠ "")
                         (BioStudiesApiClient.append_if k v [])).
  { intros k [[|a s]|]; cbn; try by apply Forall_nil_2.
    by apply Forall_singleton. }
  split_and!.
  - rewrite !Forall_app. split_and!; auto.
  - intros z. rewrite !elem_of_app, <- (append_num_elem "minSize").
    pose proof (λ k v, append_if_other k "minSize" v (pretty z)) as Hi.
    pose proof (append_num_other "maxSize" "minSize" (fs_maxSize p) (pretty z)) as Hn.
    split; [|tauto]. intros H.
    repeat match type of H with
    | _ ∨ _ => destruct H as [H|H]
    end; try done; exfalso;
      first [ by eapply Hi; [|exact H] | by eapply Hn; [|exact H] ].
  - intros z. rewrite !elem_of_app, <- (append_num_elem "maxSize").
    pose proof (λ k v, append_if_other k "maxSize" v (pretty z)) as Hi.
    pose proof (append_num_other "minSize" "maxSize" (fs_minSize p) (pretty z)) as Hn.
    split; [|tauto]. intros H.
    repeat match type of H with
    | _ ∨ _ => destruct H as [H|H]
    end; try done; exfalso;
      first [ by eapply Hi; [|exact H] | by eapply Hn; [|exact H] ].
Qed.

Lemma sizeBound_Some (x : option Z) (z : Z) :
  BioStudiesHandlers2.sizeBound x = Some z ↔ x = Some z ∧ z ≠ 0%Z.
Proof.
  unfold BioStudiesHandlers2.sizeBound, truthy_num.
  destruct x as [y|]; [|split; [done|by intros [? _]]].
  destruct (y =? 0)%Z eqn:E; [apply Z.eqb_eq in E|apply Z.eqb_neq in E];
    cbn [negb].
  - subst y. split; [done|]. by intros [[= <-] H].
  - split; [by intros [= <-]|by intros [? _]].
Qed.

(** X15: when one of [accno], [name] and [type] is given, the file-search
    tool sends one request to [/files?]; no parameter of its query has an
    empty value, and a size bound is part of the query exactly when it was
    given and is not 0: a bound of 0 bytes cannot be asked for. *)
Theorem file_search_tool_request (args : FileSearchParams) (w : World) :
  truthy (fs_accno args) || truthy (fs_name args) || truthy (fs_type args) = true →
  ∃ query,
    (BioStudiesHandlers2.searchFiles cat args w).2
    = {| this := this w;
         sent := sent w
                 ++ [BioStudiesApiClient.requestOf (this w)
                       {| path := "/files?"; search := query |} None None] |}
    ∧ Forall (λ kv, kv.2 ≠ "") query
    ∧ (∀ z, ("minSize", pretty z) ∈ query ↔ fs_minSize args = Some z ∧ z ≠ 0%Z)
    ∧ (∀ z, ("maxSize", pretty z) ∈ query ↔ fs_maxSize args = Some z ∧ z ≠ 0%Z).
Proof.
  intros Hargs. unfold BioStudiesHandlers2.searchFiles.
  replace (negb (truthy (fs_accno args)) && negb (truthy (fs_name args))
             && negb (truthy (fs_type args))) with false; last first.
  { destruct (truthy (fs_accno args)), (truthy (fs_name args)),
      (truthy (fs_type args)); done. }
  cbv zeta. rewrite Io_bind_run.
  destruct (searchFiles_query (BioStudiesHandlers2.fileSearchParamsOf args) w)
    as (query & Hsent & Hvalues & Hmin & Hmax).
  exists query. split_and!.
  - rewrite <- Hsent. by destruct (truthy (error _)).
  - done.
  - intros z. rewrite Hmin. apply sizeBound_Some.
  - intros z. rewrite Hmax. apply sizeBound_Some.
Qed.
End RequestFacts.

Lemma search_tool_paging_witness :
  ∃ query,
    last (sent (BioStudiesHandlers.searchStudies Sample.up
                  (Sample.query (Some "cancer") None) Sample.world).2)
    = Some (BioStudiesApiClient.requestOf BioStudiesApiClient.new
              {| path := "/studies?"; search := query |} None None)
    ∧ ("page", "0") ∈ query ∧ ("size", "20") ∈ query.
Proof.
  assert (H : Js.truthy (Some "cancer") || Js.truthy None || Js.truthy None = true)
    by reflexivity.
  destruct (search_tool_paging Sample.up (Sample.query (Some "cancer") None)
              Sample.world H) as [(query & Hsent & Hp & Hs) _].
  exists query. rewrite Hsent. cbn [sent]. rewrite last_snoc. done.
Defined.

Lemma file_search_tool_request_witness :
  ∃ query,
    last (sent (BioStudiesHandlers2.searchFiles
                  {| collections := λ _ _, NonError; fileSearch := λ _ _, NonError |}
                  {| fs_accno := Some "S-BSST1"; fs_path := None; fs_name := None;
                     fs_type := None; fs_minSize := Some 0%Z;
                     fs_maxSize := Some 1024%Z |} Sample.world).2)
    = Some (BioStudiesApiClient.requestOf BioStudiesApiClient.new
              {| path := "/files?"; search := query |} None None)
    ∧ ("maxSize", "1024") ∈ query ∧ ("minSize", "0") ∉ query.
Proof.
  assert (H : Js.truthy (Some "S-BSST1") || Js.truthy None || Js.truthy None = true)
    by reflexivity.
  destruct (file_search_tool_request
              {| collections := λ _ _, NonError; fileSearch := λ _ _, NonError |}
              {| fs_accno := Some "S-BSST1"; fs_path := None; fs_name := None;
                 fs_type := None; fs_minSize := Some 0%Z;
                 fs_maxSize := Some 1024%Z |} Sample.world H)
    as (query & Hsent & _ & Hmin & Hmax).
  exists query. rewrite Hsent. cbn [sent]. rewrite last_snoc. split; [done|].
  split.
  - apply (Hmax 1024%Z). done.
  - intros H0. apply (Hmin 0%Z) in H0 as [_ H0]. done.
Defined.

(** ** A page of a collection, the known collections, and sizes *)

Section ListingFacts.
Import Js.
Variable up : Upstream.
Variable cat : Catalogue.
Variable toLocaleString : Z → string.

(** X16: a rendered page of a collection's studies ends with a trailer
    chosen by the page index that was asked for, not by the one the server
    reports: the Page trailer when that index is greater than zero or the
    number of hits is at least the size asked for, otherwise the
    Showing-first trailer when there are more hits than shown, otherwise
    nothing. *)
Theorem collection_page_trailer (a : ascii) (s : string) (page size : option Z)
    (w : World) (response : SearchResponse) (st : Z) :
  let collection := String a s in
  let asked := BioStudiesHandlers.pageArg page in
  let limit := BioStudiesHandlers.sizeArg size in
  (BioStudiesApiClient.getCollectionStudies up collection asked limit w).1
    = success (Some (Parsed response)) st →
  hits response ≠ [] →
  let shown := length (hits response) in
  let counts :=
    pretty shown +:+ " of " +:+ pretty (totalHits response)
      +:+ " total studies in " +:+ collection +:+ "." in
  ∃ trailer,
    (BioStudiesHandlers.getCollectionStudies up
       {| ca_collection := Str collection; ca_page := page; ca_size := size |}
       w).1
    = Returned (content
        ("Studies in collection " +:+ dq +:+ collection +:+ dq +:+ " ("
           +:+ pretty (totalHits response) +:+ " total):" +:+ nl +:+ nl
           +:+ join (nl +:+ nl)
                 (BioStudiesHandlers.formatCollectionHit <$> hits response)
           +:+ trailer))
    ∧ trailer
      = if bool_decide (0 < asked ∨ limit ≤ Z.of_nat shown)%Z
        then nl +:+ nl +:+ "Page " +:+ pretty (asked + 1)%Z +:+ ", showing "
               +:+ counts
        else if bool_decide (Z.of_nat shown < totalHits response)%Z
        then nl +:+ nl +:+ "Showing first " +:+ counts
        else "".
Proof.
  cbv zeta. intros Hres Hhits. eexists. split.
  - unfold BioStudiesHandlers.getCollectionStudies. cbn [ca_collection ca_page ca_size].
    cbv zeta. rewrite Io_bind_run, Hres. cbn [error success data truthy].
    rewrite Io_ret_run. cbn [fst].
    rewrite bool_decide_eq_false_2 by by destruct (hits response).
    reflexivity.
  - apply collectionPagination_cases.
Qed.

(** X17: when the list of collections is answered with status 404, whatever
    the body of the answer, the tool returns the fixed text about the known
    collections, not flagged as an error.  Each example accession of that
    text is accepted by the validator, and the examples of a collection are
    the first of those that the search fallback suggests for it. *)
Theorem collections_fallback (w : World) (statusText : string)
    (body : Body (list Collection)) :
  collections cat (length (sent w))
    (BioStudiesApiClient.requestOf (this w)
       {| path := "/collections"; search := [] |} None None)
  = Response 404 statusText body →
  (BioStudiesHandlers2.listCollections cat toLocaleString w).1
  = Returned BioStudiesHandlers2.provideKnownCollections
  ∧ isError BioStudiesHandlers2.provideKnownCollections = false
  ∧ ∀ known, known ∈ BioStudiesHandlers2.knownCollections →
      Forall (λ accno,
                BioStudiesApiClient.isValidAccessionNumber (Str accno) = true)
        (BioStudiesHandlers2.k_examples known)
      ∧ ∃ suggested,
          BioStudiesHandlers.getCollectionSuggestions
            (BioStudiesHandlers2.k_key known)
          = BioStudiesHandlers.Examples suggested
          ∧ BioStudiesHandlers2.k_examples known `prefix_of` suggested.
Proof.
  intros Hwire. split_and!.
  - unfold BioStudiesHandlers2.listCollections,
      BioStudiesApiClient2.getCollections.
    rewrite Io_bind_run, makeRequest_run. cbn [fst snd]. rewrite Hwire.
    destruct (respond_404 statusText body) as [-> ->]. done.
  - done.
  - intros known Hk. unfold BioStudiesHandlers2.knownCollections in Hk.
    repeat (apply elem_of_cons in Hk as [->|Hk]);
      [ | | | | by apply elem_of_nil in Hk];
      (split; [by repeat constructor|]);
      eexists; (split; [vm_compute; reflexivity|]); by eexists [_; _].
Qed.
End ListingFacts.

Section RangeFacts.
Import BioStudiesHandlers.

(** X18: for a file of less than 1024^4 bytes (one that is not empty)
    [formatFileSize] gives a number and one of the units B, KB, MB and GB:
    the unit of the magnitude of the byte count, and the count in that unit
    rounded to hundredths, so a number from 1 to 1024. *)
Theorem formatFileSize_range (bytes : Z) :
  (0 < bytes < 1024 ^ 4)%Z →
  ∃ (i : nat) (unit : string) (h : Z),
    formatFileSize bytes = show_hundredths h +:+ " " +:+ unit
    ∧ ["B"; "KB"; "MB"; "GB"] !! i = Some unit
    ∧ (1024 ^ Z.of_nat i ≤ bytes < 1024 ^ (Z.of_nat i + 1))%Z
    ∧ (100 ≤ h ≤ 102400)%Z
    ∧ (Z.abs (100 * bytes - h * 1024 ^ Z.of_nat i) * 2 ≤ 1024 ^ Z.of_nat i)%Z.
Proof.
  intros [Hpos Hlt].
  destruct (floor_log_1024_spec bytes Hpos ltac:(left; lia))
    as (H0 & Hlo & Hhi).
  set (i := floor_log_1024 bytes) in *.
  assert (Hi : (i < 4)%Z).
  { destruct (Z.lt_ge_cases i 4) as [|Hge]; [done|].
    assert (1024 ^ 4 ≤ 1024 ^ i)%Z by (apply Z.pow_le_mono_r; lia). lia. }
  assert (Hunit : ∃ unit, ["B"; "KB"; "MB"; "GB"] !! Z.to_nat i = Some unit
                          ∧ sizes !! Z.to_nat i = Some unit).
  { assert (Hn : Z.to_nat i < 4) by lia.
    destruct (Z.to_nat i) as [|[|[|[|n]]]]; [eauto..|lia]. }
  destruct Hunit as (unit & Hunit & Hsizes).
  exists (Z.to_nat i), unit, (hundredths bytes (1024 ^ i)).
  rewrite Z2Nat.id by done.
  assert (Hden : (0 < 1024 ^ i)%Z) by (apply Z.pow_pos_nonneg; lia).
  set (den := (1024 ^ i)%Z) in *.
  assert (Hnext : (1024 ^ (i + 1) = 1024 * den)%Z).
  { subst den. rewrite Z.pow_add_r by lia. lia. }
  assert (Hh : (2 * den * hundredths bytes den ≤ 200 * bytes + den
                < 2 * den * (hundredths bytes den + 1))%Z).
  { unfold hundredths.
    pose proof (Z.div_mod (200 * bytes + den) (2 * den) ltac:(lia)).
    pose proof (Z.mod_pos_bound (200 * bytes + den) (2 * den) ltac:(lia)).
    lia. }
  split_and!.
  - unfold formatFileSize.
    rewrite (proj2 (Z.eqb_neq _ _)) by lia.
    rewrite (proj2 (Z.ltb_ge _ _)) by lia.
    cbv zeta. fold i. fold den. by rewrite Hsizes.
  - done.
  - done.
  - lia.
  - nia.
  - nia.
  - nia.
Qed.
End RangeFacts.

Lemma collection_page_trailer_witness :
  ∃ trailer,
    (BioStudiesHandlers.getCollectionStudies Sample.odd
       {| ca_collection := Js.Str "arrayexpress"; ca_page := Some 2%Z;
          ca_size := None |} Sample.world).1
    = Js.Returned (content
        ("Studies in collection " +:+ Js.dq +:+ "arrayexpress" +:+ Js.dq
           +:+ " (25 total):" +:+ Js.nl +:+ Js.nl
           +:+ Js.join (Js.nl +:+ Js.nl)
                 (BioStudiesHandlers.formatCollectionHit
                    <$> hits Sample.oddPage)
           +:+ trailer))
    ∧ trailer
      = Js.nl +:+ Js.nl
          +:+ "Page 3, showing 5 of 25 total studies in arrayexpress.".
Proof.
  assert (Hhits : hits Sample.oddPage ≠ []) by done.
  destruct (collection_page_trailer Sample.odd "a" "rrayexpress" (Some 2%Z) None
              Sample.world Sample.oddPage 200 eq_refl Hhits)
    as (trailer & Hout & Htrailer).
  exists trailer. split; [exact Hout|]. rewrite Htrailer. reflexivity.
Defined.

Lemma collections_fallback_witness :
  (BioStudiesHandlers2.listCollections
     {| collections := λ _ _, Response 404 "Not Found" (NotJson "");
        fileSearch := λ _ _, NonError |}
     pretty Sample.world).1
  = Js.Returned BioStudiesHandlers2.provideKnownCollections.
Proof.
  apply (collections_fallback
           {| collections := λ _ _, Response 404 "Not Found" (NotJson "");
              fileSearch := λ _ _, NonError |}
           pretty Sample.world "Not Found" (NotJson "") eq_refl).
Defined.

Lemma formatFileSize_range_witness :
  ∃ (i : nat) (unit : string) (h : Z),
    BioStudiesHandlers.formatFileSize 1048575
    = BioStudiesHandlers.show_hundredths h +:+ " " +:+ unit
    ∧ ["B"; "KB"; "MB"; "GB"] !! i = Some unit.
Proof.
  assert (H : (0 < 1048575 < 1024 ^ 4)%Z) by lia.
  destruct (formatFileSize_range 1048575 H) as (i & unit & h & Hf & Hu & _).
  by exists i, unit, h.
Defined.

(** ** A server that answers with a page of text *)

Section TextFacts.
Import Js.

(** X19: take a server that answers every request with a 2xx response whose
    body is a text that is not JSON and not empty (the page of a proxy, say).
    Then the searches and listings throw a [TypeError] instead of returning
    a result, while the validation tool reports that the study exists and
    the batch tool counts the study as retrieved. *)
Theorem text_answers (st : Z) (statusText : string) (c : ascii) (page : string)
    (search : SearchParams) (collection accno : string) (files : FileSearchParams)
    (toLocaleString : Z → string) (w : World) :
  (200 ≤ st ≤ 299)%Z →
  truthy (sp_query search) || truthy (sp_collection search)
    || truthy (sp_author search) = true →
  truthy (fs_accno files) || truthy (fs_name files) || truthy (fs_type files) = true →
  collection ≠ "" →
  BioStudiesApiClient.isValidAccessionNumber (Str accno) = true →
  let answer {T} : Server T :=
    λ _ _, Response st statusText (NotJson (String c page)) in
  let up :=
    {| studies := answer; studyFiles := answer; studyLinks := answer;
       authLogin := answer; studySearch := answer |} in
  let cat := {| collections := answer; fileSearch := answer |} in
  (BioStudiesHandlers.searchStudies up search w).1
  = BioStudiesHandlers.undefinedLength
  ∧ (BioStudiesHandlers.getCollectionStudies up
       {| ca_collection := Str collection; ca_page := None; ca_size := None |}
       w).1
    = BioStudiesHandlers.undefinedLength
  ∧ (BioStudiesHandlers.getStudyFiles up {| fa_accno := Str accno |} w).1
    = BioStudiesHandlers.typeError "files.map is not a function"
  ∧ (BioStudiesHandlers2.listCollections cat toLocaleString w).1
    = BioStudiesHandlers.typeError "collections.map is not a function"
  ∧ (BioStudiesHandlers2.searchFiles cat files w).1
    = BioStudiesHandlers.undefinedLength
  ∧ (BioStudiesHandlers2.validateStudyAccession up {| va_accno := Str accno |} w).1
    = Returned (content ("✅ Valid study accession: " +:+ dq +:+ accno +:+ dq
                           +:+ nl))
  ∧ (BioStudiesHandlers.batchGetStudies up [0] {| ba_accessions := Some [accno] |}
       w).1
    = Some (Returned (content
              (BioStudiesHandlers.formatBatch
                 {| successful := [accno]; failed := []; total := 1;
                    successCount := 1; failureCount := 0 |}))).
Proof.
  intros Hst Hsearch Hfiles Hcollection Hvalid. cbv zeta.
  assert (Hok : BioStudiesApiClient.ok st = true) by by apply ok_spec.
  assert (Hrespond : ∀ T,
    BioStudiesApiClient.respond
      (Response st statusText (NotJson (String c page)) : Wire T)
    = success (Some (Raw (String c page))) st).
  { intros T. unfold BioStudiesApiClient.respond. by rewrite Hok. }
  assert (Haccno : ∃ a s, accno = String a s).
  { destruct accno; [done|eauto]. }
  destruct Haccno as (a & s & ->).
  split_and!.
  - unfold BioStudiesHandlers.searchStudies.
    replace (negb (truthy (sp_query search)) && negb (truthy (sp_collection search))
               && negb (truthy (sp_author search))) with false; last first.
    { destruct (truthy (sp_query search)), (truthy (sp_collection search)),
        (truthy (sp_author search)); done. }
    cbv zeta. rewrite Io_bind_run. unfold BioStudiesApiClient.searchStudies.
    cbv zeta. rewrite makeRequest_run. cbn [fst snd studySearch].
    by rewrite Hrespond.
  - destruct collection as [|a' s']; [done|].
    unfold BioStudiesHandlers.getCollectionStudies. cbn [ca_collection].
    cbv zeta. rewrite Io_bind_run.
    unfold BioStudiesApiClient.getCollectionStudies,
      BioStudiesApiClient.searchStudies.
    cbv zeta. rewrite makeRequest_run. cbn [fst snd studySearch].
    by rewrite Hrespond.
  - unfold BioStudiesHandlers.getStudyFiles. cbn [fa_accno].
    cbv zeta. rewrite Io_bind_run. unfold BioStudiesApiClient.getStudyFiles.
    rewrite Hvalid. cbn [negb]. rewrite makeRequest_run. cbn [fst snd studyFiles].
    by rewrite Hrespond.
  - unfold BioStudiesHandlers2.listCollections,
      BioStudiesApiClient2.getCollections.
    rewrite Io_bind_run, makeRequest_run. cbn [fst snd collections].
    by rewrite Hrespond.
  - unfold BioStudiesHandlers2.searchFiles.
    replace (negb (truthy (fs_accno files)) && negb (truthy (fs_name files))
               && negb (truthy (fs_type files))) with false; last first.
    { destruct (truthy (fs_accno files)), (truthy (fs_name files)),
        (truthy (fs_type files)); done. }
    cbv zeta. rewrite Io_bind_run. unfold BioStudiesApiClient2.searchFiles.
    cbv zeta. rewrite makeRequest_run. cbn [fst snd fileSearch].
    by rewrite Hrespond.
  - unfold BioStudiesHandlers2.validateStudyAccession. cbn [va_accno].
    rewrite Io_bind_run.
    unfold BioStudiesApiClient.validateStudyAccession,
      BioStudiesApiClient.getStudyDetails. cbn [isValid].
    rewrite Hvalid. cbn [negb].
    rewrite Io_bind_run, makeRequest_run. cbn [fst snd studies].
    rewrite Hrespond. by rewrite !Io_ret_run.
  - unfold BioStudiesHandlers.batchGetStudies. cbn [ba_accessions length].
    rewrite bool_decide_eq_false_2, bool_decide_eq_false_2 by lia.
    rewrite Io_bind_run.
    unfold BioStudiesApiClient.batchGetStudies. cbn [length].
    rewrite bool_decide_eq_false_2, bool_decide_eq_false_2 by lia.
    rewrite Io_bind_run, Io_mapM_cons, Io_mapM_nil. cbn [fst snd].
    unfold BioStudiesApiClient.fetchOne at 1.
    rewrite Io_bind_run. unfold BioStudiesApiClient.getStudyDetails at 1.
    rewrite Hvalid. cbn [negb]. rewrite makeRequest_run. cbn [fst snd studies].
    rewrite Hrespond. by rewrite !Io_ret_run.
Qed.
End TextFacts.

Lemma text_answers_witness :
  (BioStudiesHandlers.searchStudies
     {| studies := λ _ _, Response 200 "OK" (NotJson "<html>");
        studyFiles := λ _ _, Response 200 "OK" (NotJson "<html>");
        studyLinks := λ _ _, Response 200 "OK" (NotJson "<html>");
        authLogin := λ _ _, Response 200 "OK" (NotJson "<html>");
        studySearch := λ _ _, Response 200 "OK" (NotJson "<html>") |}
     (Sample.query (Some "cancer") None) Sample.world).1
  = BioStudiesHandlers.undefinedLength.
Proof.
  assert (H1 : (200 ≤ 200 ≤ 299)%Z) by lia.
  assert (H2 : Js.truthy (Some "cancer") || Js.truthy None || Js.truthy None = true)
    by reflexivity.
  assert (H3 : Js.truthy (Some "S-BSST1") || Js.truthy None || Js.truthy None = true)
    by reflexivity.
  assert (H4 : "bioimages" ≠ "") by done.
  assert (H5 : BioStudiesApiClient.isValidAccessionNumber (Js.Str "S-BSST1") = true)
    by reflexivity.
  apply (text_answers 200 "OK" "<" "html>" (Sample.query (Some "cancer") None)
           "bioimages" "S-BSST1"
           {| fs_accno := Some "S-BSST1"; fs_path := None; fs_name := None;
              fs_type := None; fs_minSize := None; fs_maxSize := None |}
           pretty Sample.world H1 H2 H3 H4 H5).
Defined.

(** * The server: what a tool call ends with *)

Section ServerFacts.
Import Js Mcp.
Variable up : Upstream.
Variable getStudyDetails : option CallArgs → Io (Outcome ToolResult).

Lemma handled_McpError outcome code m :
  handled outcome = McpError code m →
  code = InvalidParams ∧ includes m "required" = true
  ∧ ∃ e, outcome = Threw e ∧ message e = m.
Proof.
  destruct outcome as [r|e]; [done|]. unfold handled, caught.
  destruct (includes (message e) "required") eqn:E; [|done].
  intros [= <- <-]. eauto.
Qed.

Lemma handled_Result outcome r :
  handled outcome = Result r →
  outcome = Returned r
  ∨ ∃ e, outcome = Threw e ∧ includes (message e) "required" = false
         ∧ r = errorContent ("Error: " +:+ message e).
Proof.
  destruct outcome as [r'|e]; [intros [= <-]; by left|]. unfold handled, caught.
  destruct (includes (message e) "required") eqn:E; [done|].
  intros [= <-]. eauto.
Qed.

(** X20: a tool call never ends with a plain [Error].  For a name that is
    none of the three tools it ends with an [McpError] of code
    MethodNotFound, and nothing is sent.  For one of the three an [McpError]
    can only have the code InvalidParams, and only for a thrown message that
    includes the word required; every other thrown [Error] becomes a
    result flagged as an error whose text is the message after [Error: ],
    and what a tool returns is passed on unchanged. *)
Theorem callTool_replies (order : list nat) (name : string)
    (args : option CallArgs) (w : World) :
  let out := callTool up getStudyDetails order name args w in
  let known :=
    name ∈ ["get_study_details"; "validate_study_accession"; "batch_get_studies"] in
  (¬ known →
   out = (Some (McpError MethodNotFound
                  ("Unknown tool: " +:+ name
                     +:+ ". Available tools: get_study_details, validate_study_accession, batch_get_studies")),
          w))
  ∧ (∀ code m, out.1 = Some (McpError code m) →
       (code = MethodNotFound ∧ ¬ known)
       ∨ (code = InvalidParams ∧ known ∧ includes m "required" = true))
  ∧ (name = "get_study_details" →
     ∀ r, out.1 = Some (Result r) →
       (getStudyDetails args w).1 = Returned r
       ∨ ∃ e, (getStudyDetails args w).1 = Threw e
              ∧ includes (message e) "required" = false
              ∧ r = errorContent ("Error: " +:+ message e)).
Proof.
  cbv zeta. unfold callTool.
  destruct (bool_decide (name = "get_study_details")) eqn:E1.
  { apply bool_decide_eq_true_1 in E1. subst name.
    rewrite Io_bind_run, Io_ret_run. cbn [fst]. split_and!.
    - intros H. destruct H. set_solver.
    - intros code m [= H]. apply handled_McpError in H as (-> & ? & _).
      right. split_and!; [done|set_solver|done].
    - intros _ r [= H]. by apply handled_Result. }
  apply bool_decide_eq_false_1 in E1.
  destruct (bool_decide (name = "validate_study_accession")) eqn:E2.
  { apply bool_decide_eq_true_1 in E2. subst name.
    rewrite Io_bind_run, Io_ret_run. cbn [fst]. split_and!.
    - intros H. destruct H. set_solver.
    - intros code m [= H]. apply handled_McpError in H as (-> & ? & _).
      right. split_and!; [done|set_solver|done].
    - done. }
  apply bool_decide_eq_false_1 in E2.
  destruct (bool_decide (name = "batch_get_studies")) eqn:E3.
  { apply bool_decide_eq_true_1 in E3. subst name.
    rewrite Io_bind_run, Io_ret_run. cbn [fst]. split_and!.
    - intros H. destruct H. set_solver.
    - intros code m H.
      destruct (Tool.batchGetStudies up order _ w).1
        as [outcome|]; [|done].
      injection H as H. apply handled_McpError in H as (-> & ? & _).
      right. split_and!; [done|set_solver|done].
    - done. }
  apply bool_decide_eq_false_1 in E3.
  assert (Hname : ¬ name ∈ ["get_study_details"; "validate_study_accession";
                            "batch_get_studies"]).
  { intros H. repeat (apply elem_of_cons in H as [->|H]; [done|]).
    by apply elem_of_nil in H. }
  rewrite Io_ret_run. cbn [fst]. split_and!.
  - done.
  - intros code m [= <- _]. by left.
  - done.
Qed.

(** X21: a call of the validation tool with an arguments object whose
    [accno] is not a non-empty string ends with an [McpError] of code
    InvalidParams and sends nothing; with a non-empty string it ends with a
    result that is not flagged as an error.  A call of the batch tool with
    an arguments object without the array ends with InvalidParams and sends
    nothing; with an array it ends, once the lookups have settled, with a
    result that is not flagged as an error, the empty array included.  A
    call of either tool without any arguments object ends with a result
    flagged as an error, whose text is that of the [TypeError] of reading a
    member of [undefined], and sends nothing. *)
Theorem callTool_arguments (order : list nat) (args : option CallArgs)
    (w : World) :
  let validate := callTool up getStudyDetails order "validate_study_accession" args w in
  let batch := callTool up getStudyDetails order "batch_get_studies" args w in
  match args with
  | None =>
      validate
      = (Some (Result (errorContent
                 "Error: Cannot read properties of undefined (reading 'accno')")),
         w)
      ∧ batch
        = (Some (Result (errorContent
                   "Error: Cannot read properties of undefined (reading 'accessions')")),
           w)
  | Some args =>
      match accno args with
      | Str (String _ _) => ∃ t, validate.1 = Some (Result (content t))
      | _ => validate
             = (Some (McpError InvalidParams
                        "Accession number is required and must be a string"), w)
      end
      ∧ match accessions args with
        | Some _ => ∀ reply, batch.1 = Some reply → ∃ t, reply = Result (content t)
        | None => batch
                  = (Some (McpError InvalidParams
                             "Accessions parameter is required and must be an array of strings"),
                     w)
        end
  end.
Proof.
  cbv zeta. unfold callTool.
  rewrite (bool_decide_eq_false_2 ("validate_study_accession" = "get_study_details"))
    by done.
  rewrite (bool_decide_eq_true_2 ("validate_study_accession" = "validate_study_accession"))
    by done.
  rewrite (bool_decide_eq_false_2 ("batch_get_studies" = "get_study_details"))
    by done.
  rewrite (bool_decide_eq_false_2 ("batch_get_studies" = "validate_study_accession"))
    by done.
  rewrite (bool_decide_eq_true_2 ("batch_get_studies" = "batch_get_studies"))
    by done.
  rewrite !Io_bind_run, !Io_ret_run. cbn [fst snd].
  destruct args as [args|]; [|split; reflexivity].
  cbn [fmap option_fmap option_map Tool.validateStudyAccession
         Tool.batchGetStudies]. split.
  - destruct (accno args) as [| | | |[|a s]|] eqn:Ha; try done.
    destruct (validate_tool_returns up a s w) as [t Ht]. rewrite Ht. eauto.
  - destruct (accessions args) as [l|] eqn:Hl; [|done].
    intros reply.
    destruct (BioStudiesHandlers.batchGetStudies up order _ w).1
      as [outcome|] eqn:Ho; [|done].
    destruct (batch_tool_returns up order l w outcome Ho) as [t ->].
    intros [= <-]. eauto.
Qed.
End ServerFacts.
